(** * HoopsFactory video downloader: a shallow embedding of [main.py]

    The program logs in to a web portal, applies three filters, scrapes the
    video cards, keeps those in the 12:00-13:30 window and downloads them
    with a three-tier fallback, all inside a bounded retry loop.

    Python values are modelled as follows.
    - [str] is a list of Unicode code points ([pystr]).
    - [int] is [Z] (dates) or [N] (digits, clock values).
    - An awaited browser, network or filesystem call is a step of a state
      and exception monad [M] over a [World]; whether the call raises, and
      what it returns, is read from an environment [Env] indexed by the
      attempt number and the call site.
    - The filesystem is a finite map from paths to file contents.

    Left out: the [asyncio.sleep] pauses and the timeouts (they change
    neither the state nor the control flow) and the parsing of the
    command line.

    The file has three parts: the program, the specifications the
    program is compared with, and the proofs. *)

From Stdlib Require Import ZArith NArith Lia Bool List Ascii String DecimalString
  Sorted.
From stdpp Require Import base option list gmap.
Import ListNotations.

Local Open Scope Z_scope.

(** ** Python strings *)

(** A Python [str]: a sequence of code points. *)
Abbreviation pystr := (list N).

(** Reads a literal of the development as a [str], one code point per
    character (all literals used here are ASCII). *)
Definition str (s : string) : pystr :=
  map N_of_ascii (list_ascii_of_string s).

(** Equality of two [str] values. *)
Definition pystr_eqb (a b : pystr) : bool := bool_decide (a = b).

(** [str(n)] for a non-negative [int]. *)
Definition repr (n : N) : pystr :=
  str (NilZero.string_of_uint (N.to_uint n)).

(** [needle in hay] for [str]. *)
Fixpoint is_prefix (p s : pystr) : bool :=
  match p, s with
  | [], _ => true
  | _ :: _, [] => false
  | a :: p', b :: s' => (a =? b)%N && is_prefix p' s'
  end.

Fixpoint contains (needle hay : pystr) : bool :=
  is_prefix needle hay ||
  match hay with
  | [] => false
  | _ :: hay' => contains needle hay'
  end.

(** ** The Unicode character database

    [re] classifies code points with [Py_UNICODE_ISALNUM],
    [Py_UNICODE_ISSPACE] and [Py_UNICODE_ISDECIMAL]; [str.strip] and [int]
    use the same tables.  The ASCII part is written out below.  The part
    above U+007F is a table of the interpreter, not of this repository: it
    is a parameter of the development. *)
Class UnicodeDB := {
  (* str.isalnum of a code point above U+007F *)
  uni_isalnum : N -> bool;
  (* str.isspace of a code point above U+007F *)
  uni_isspace : N -> bool;
  (* the decimal digit value of a code point above U+007F, if it is one *)
  uni_todecimal : N -> option N;
  (* str.lower of a code point above U+007F *)
  uni_lower : N -> pystr
}.

Definition in_range (lo hi c : N) : bool := ((lo <=? c) && (c <=? hi))%N.

Definition ascii_isalnum (c : N) : bool :=
  in_range 48 57 c || in_range 65 90 c || in_range 97 122 c.

(** TAB, LF, VT, FF, CR, FS, GS, RS, US and SPACE. *)
Definition ascii_isspace (c : N) : bool :=
  in_range 9 13 c || in_range 28 32 c.

Definition ascii_todecimal (c : N) : option N :=
  if in_range 48 57 c then Some (c - 48)%N else None.

Section Unicode.
Context `{UnicodeDB}.

Definition isalnum (c : N) : bool :=
  if (c <? 128)%N then ascii_isalnum c else uni_isalnum c.

Definition isspace (c : N) : bool :=
  if (c <? 128)%N then ascii_isspace c else uni_isspace c.

Definition todecimal (c : N) : option N :=
  if (c <? 128)%N then ascii_todecimal c else uni_todecimal c.

(** [\w]: alphanumeric or underscore. *)
Definition is_word (c : N) : bool := isalnum c || (c =? 95)%N.

(** [\d] *)
Definition is_digit (c : N) : bool :=
  match todecimal c with Some _ => true | None => false end.

(** [s.lower()] *)
Definition lower (s : pystr) : pystr :=
  flat_map (fun c =>
    if (c <? 128)%N then (if in_range 65 90 c then [(c + 32)%N] else [c])
    else uni_lower c) s.
End Unicode.

(** The database restricted to the Latin-1 supplement (U+0080..U+00FF):
    letters with diacritics, the ordinal indicators, the micro sign, the
    superscript digits and the vulgar fractions are alphanumeric; NEL and
    the no-break space are whitespace; there is no decimal digit.  Code
    points above U+00FF are left unclassified. *)
Definition latin1 : UnicodeDB := {|
  uni_isalnum c :=
    (c =? 170)%N || (c =? 178)%N || (c =? 179)%N || (c =? 181)%N ||
    (c =? 185)%N || (c =? 186)%N || in_range 188 190 c ||
    in_range 192 214 c || in_range 216 246 c || in_range 248 255 c;
  uni_isspace c := (c =? 133)%N || (c =? 160)%N;
  uni_todecimal _ := None;
  uni_lower c :=
    if in_range 192 214 c || in_range 216 222 c then [(c + 32)%N] else [c]
|}.

(** ** Dates

    [datetime.now()] is modelled by its proleptic Gregorian ordinal
    ([toordinal()]: 1 is 0001-01-01); the time of day plays no part in
    [weekday()], in the subtraction of whole days or in [%Y%m%d]. *)

Definition MINORDINAL : Z := 1.
Definition MAXORDINAL : Z := 3652059.
(** 1970-01-01, the origin of the system clock. *)
Definition EPOCH : Z := 719163.

(** [date.weekday()]: Monday is 0, Sunday is 6. *)
Definition weekday (d : Z) : Z := (d + 6) mod 7.

(** [d - timedelta(days=n)]; [None] is [OverflowError]. *)
Definition sub_days (d n : Z) : option Z :=
  let r := d - n in
  if (MINORDINAL <=? r) && (r <=? MAXORDINAL) then Some r else None.

Definition DI400Y : Z := 146097.
Definition DI100Y : Z := 36524.
Definition DI4Y : Z := 1461.

Definition DAYS_IN_MONTH : list Z :=
  [-1; 31; 28; 31; 30; 31; 30; 31; 31; 30; 31; 30; 31].
Definition DAYS_BEFORE_MONTH : list Z :=
  [-1; 0; 31; 59; 90; 120; 151; 181; 212; 243; 273; 304; 334].

Definition b2z (b : bool) : Z := if b then 1 else 0.

(** Ordinal to (year, month, day), as [datetime] does it. *)
Definition ord2ymd (ordinal : Z) : Z * Z * Z :=
  let n := ordinal - 1 in
  let n400 := n / DI400Y in
  let n := n mod DI400Y in
  let year := n400 * 400 + 1 in
  let n100 := n / DI100Y in
  let n := n mod DI100Y in
  let n4 := n / DI4Y in
  let n := n mod DI4Y in
  let n1 := n / 365 in
  let n := n mod 365 in
  let year := year + n100 * 100 + n4 * 4 + n1 in
  if (n1 =? 4) || (n100 =? 4) then (year - 1, 12, 31)
  else
    let leapyear := (n1 =? 3) && (negb (n4 =? 24) || (n100 =? 3)) in
    let month := Z.shiftr (n + 50) 5 in
    let preceding :=
      nth (Z.to_nat month) DAYS_BEFORE_MONTH 0
      + b2z ((2 <? month) && leapyear) in
    if n <? preceding then
      let month := month - 1 in
      let preceding :=
        preceding - (nth (Z.to_nat month) DAYS_IN_MONTH 0
                     + b2z ((month =? 2) && leapyear)) in
      (year, month, n - preceding + 1)
    else (year, month, n - preceding + 1).

(** The decimal digits of [n], zero-padded to [width] digits. *)
Fixpoint zero_padded (width : nat) (n : Z) : pystr :=
  match width with
  | O => []
  | S w => zero_padded w (n / 10) ++ [Z.to_N (48 + n mod 10)]
  end.

(** [d.strftime("%Y%m%d")] for a four-digit year. *)
Definition strftime_Ymd (d : Z) : pystr :=
  let '(y, m, dd) := ord2ymd d in
  zero_padded 4 y ++ zero_padded 2 m ++ zero_padded 2 dd.

(** [get_previous_wednesday], before formatting. *)
Definition prev_wednesday (today : Z) : option Z :=
  let days_since_wednesday := (weekday today - 2) mod 7 in
  if days_since_wednesday =? 0 then sub_days today 7
  else sub_days today days_since_wednesday.

(** [get_previous_wednesday], with [today] the value of [datetime.now()]. *)
Definition get_previous_wednesday (today : Z) : option pystr :=
  strftime_Ymd <$> prev_wednesday today.

(** ** Filename sanitization ([download_video], first lines) *)

Section Sanitize.
Context `{UnicodeDB}.

(** [[^\w\s-]]: the characters the first substitution deletes are those
    for which this is [false]. *)
Definition is_safe (c : N) : bool :=
  is_word c || isspace c || (c =? 45)%N.

(** [re.sub(r'[^\w\s-]', '', s)] *)
Definition sub_unsafe (s : pystr) : pystr := List.filter is_safe s.

Fixpoint lstrip (s : pystr) : pystr :=
  match s with
  | [] => []
  | c :: s' => if isspace c then lstrip s' else s
  end.

Definition rstrip (s : pystr) : pystr := rev (lstrip (rev s)).

(** [s.strip()] *)
Definition strip (s : pystr) : pystr := rstrip (lstrip s).

(** [[-\s]] *)
Definition is_sep (c : N) : bool := (c =? 45)%N || isspace c.

(** [re.sub(r'[-\s]+', '_', s)]: every maximal run of separators
    becomes one underscore.  [in_run] says that the previous character
    was a separator, whose underscore is already written. *)
Fixpoint sub_runs (in_run : bool) (s : pystr) : pystr :=
  match s with
  | [] => []
  | c :: s' =>
      if is_sep c then
        if in_run then sub_runs true s' else 95%N :: sub_runs true s'
      else c :: sub_runs false s'
  end.

(** The two substitutions that compute [safe_title]. *)
Definition safe_title (title : pystr) : pystr :=
  let safe_title := strip (sub_unsafe title) in
  sub_runs false safe_title.

(** [f"{safe_title}.mp4"] *)
Definition filename (title : pystr) : pystr :=
  safe_title title ++ str ".mp4".
End Sanitize.

(** ** The time window ([get_video_links], the filtering loop) *)

Section TimeWindow.
Context `{UnicodeDB}.

(** [int] of a two-character match of [\d\d]. *)
Definition int2 (a b : N) : option N :=
  match todecimal a, todecimal b with
  | Some x, Some y => Some (10 * x + y)%N
  | _, _ => None
  end.

(** [h(\d{2})] at the head of [s]; the value of the group. *)
Definition match_minute (s : pystr) : option N :=
  match s with
  | c :: m1 :: m2 :: _ => if (c =? 104)%N then int2 m1 m2 else None
  | _ => None
  end.

(** [(\d{1,2})h(\d{2})] at the head of [s]: the hour takes two digits
    when it can (the quantifier is greedy) and falls back to one. *)
Definition match_here (s : pystr) : option (N * N) :=
  match s with
  | [] => None
  | h1 :: s1 =>
      match todecimal h1 with
      | None => None
      | Some a =>
          let two_digits :=
            match s1 with
            | h2 :: s2 =>
                match todecimal h2, match_minute s2 with
                | Some b, Some m => Some ((10 * a + b)%N, m)
                | _, _ => None
                end
            | [] => None
            end in
          match two_digits with
          | Some r => Some r
          | None =>
              match match_minute s1 with
              | Some m => Some (a, m)
              | None => None
              end
          end
      end
  end.

(** [re.search(r'(\d{1,2})h(\d{2})', s)]: the leftmost match, as
    [(int(group(1)), int(group(2)))]. *)
Fixpoint search (s : pystr) : option (N * N) :=
  match match_here s with
  | Some r => Some r
  | None =>
      match s with
      | [] => None
      | _ :: s' => search s'
      end
  end.

(** [1200 <= time_value <= 1330] *)
Definition in_window (hour minute : N) : bool :=
  let time_value := (hour * 100 + minute)%N in
  ((1200 <=? time_value) && (time_value <=? 1330))%N.

(** Whether the loop appends a video with this title to
    [filtered_videos]. *)
Definition keeps (title : pystr) : bool :=
  match search title with
  | Some (hour, minute) => in_window hour minute
  | None => true
  end.
End TimeWindow.

(** ** Records, calls and the environment *)

(** A file's content. *)
Abbreviation bytes := (list Byte.byte).

(** The dictionary the scraping script builds for one card.  The script
    always sets [title], [downloadUrl] and [index]; [directUrl] and
    [videoSrc] may be [null].  [downloadUrl] is optional here because the
    data model allows a record without it. *)
Record VideoRecord := {
  title : pystr;
  downloadUrl : option pystr;
  directUrl : option pystr;
  videoSrc : option pystr;
  index : nat
}.

(** A [<select>] element: the values of its options and its current
    value. *)
Record Select := {
  options : list pystr;
  value : pystr
}.

(** The part of the listing page the filter scripts read and write. *)
Record Dom := {
  videos_centers : option Select;
  videos_courts : option Select;
  videos_days : option Select;
  sheet_close : bool
}.

(** What [requests.get] returns: the status line, the chunks of the body
    and, if the stream breaks after them, the error. *)
Record Response := {
  status_code : N;
  reason : pystr;
  chunks : list bytes;
  stream_error : option pystr
}.

(** The awaited calls of the program that can raise, each with the
    arguments that matter.  A handle is the number of the attempt that
    created the object. *)
Inductive call :=
  (* setup_browser *)
  | PlaywrightStart | Launch (headless : bool) | NewContext | NewPage
  (* close_browser *)
  | PageClose (h : nat) | ContextClose (h : nat) | BrowserClose (h : nat)
  | PlaywrightStop (h : nat)
  (* download_videos *)
  | GotoLogin | GotoVideos
  (* login *)
  | LoginGoto | LoginWaitForm | LoginFillEmail | LoginFillPassword
  | LoginClick | LoginWaitIdle
  (* select_filters *)
  | ClickCenter | EvalOpenCenter | EvalSetCenter | ClickCourt | EvalSetCourt
  | ClickDay | EvalSetDate | EvalClickOk
  (* get_video_links *)
  | WaitCards | EvalScrape
  (* download_video *)
  | Mkdir (folder : pystr)
  | HttpGet (v : VideoRecord) | OpenWb (v : VideoRecord) (path : pystr)
  | SetHeaders (v : VideoRecord) | ExpectDownload (v : VideoRecord)
  | SaveAs (v : VideoRecord) (path : pystr)
  | GotoListing (v : VideoRecord) | EvalClick (v : VideoRecord).

Inductive clock_site := InSelectFilters | InDownloadVideos.

(** Everything outside the program, per attempt of the run loop:
    - [raises a c]: [Some e] if call [c] raises an exception whose [str]
      is [e] during attempt [a];
    - [now a s]: the ordinal of [datetime.now()] at clock site [s];
    - [page_url a]: [page.url] after the login form was submitted;
    - [listing_dom a]: the listing page as loaded;
    - [cards a]: the list the scraping script returns;
    - [response a v]: the answer to the direct request for [v];
    - [download_body a v]: the file the browser downloads for [v];
    - [click_result a v]: what the click script returns for [v]. *)
Record Env := {
  raises : nat -> call -> option pystr;
  now : nat -> clock_site -> Z;
  page_url : nat -> pystr;
  listing_dom : nat -> Dom;
  cards : nat -> list VideoRecord;
  response : nat -> VideoRecord -> Response;
  download_body : nat -> VideoRecord -> bytes;
  click_result : nat -> VideoRecord -> bool
}.

(** The constructor arguments of [HoopsFactoryDownloader] and [base_url]. *)
Record Config := {
  email : pystr;
  password : pystr;
  download_dir : pystr;
  base_url : pystr
}.

Inductive level := DEBUG | INFO | WARNING | ERROR.

(** What an observer sees, in order: log records, calls, and the events
    the scripts dispatch in the page. *)
Inductive event :=
  | Log (lv : level) (msg : pystr)
  | Call (c : call)
  | Change (selector value : pystr)
  | Click (selector : pystr).

(** The attributes of [self] that change, the page, the disk and the
    trace of events so far. *)
Record World := {
  self_headless : bool;
  self_playwright : option nat;
  self_browser : option nat;
  self_context : option nat;
  self_page : option nat;
  dom : Dom;
  fs : gmap pystr bytes;
  trace : list event
}.

(** ** The monad: state and exceptions *)

Inductive outcome (A : Type) :=
  | Ok (a : A)
  | Raise (e : pystr).
Arguments Ok {A} a.
Arguments Raise {A} e.

Definition M (A : Type) : Type := World -> outcome A * World.

Definition ret {A} (a : A) : M A := fun w => (Ok a, w).

Definition bind {A B} (m : M A) (k : A -> M B) : M B :=
  fun w =>
    match m w with
    | (Ok a, w') => k a w'
    | (Raise e, w') => (Raise e, w')
    end.

Definition raise {A} (e : pystr) : M A := fun w => (Raise e, w).

(** [try: m  except Exception as e: handler e] *)
Definition try_except {A} (m : M A) (handler : pystr -> M A) : M A :=
  fun w =>
    match m w with
    | (Ok a, w') => (Ok a, w')
    | (Raise e, w') => handler e w'
    end.

(** [try: m  finally: cleanup]: the cleanup runs on every exit of [m];
    an exception of the cleanup replaces the result of [m]. *)
Definition try_finally {A} (m : M A) (cleanup : M unit) : M A :=
  fun w =>
    match m w with
    | (r, w') =>
        match cleanup w' with
        | (Ok _, w'') => (r, w'')
        | (Raise e, w'') => (Raise e, w'')
        end
    end.

Definition get_world : M World := fun w => (Ok w, w).
Definition modify_world (f : World -> World) : M unit :=
  fun w => (Ok tt, f w).

Declare Scope monad_scope.
Delimit Scope monad_scope with monad.
Notation "x <- m ;; k" := (bind m (fun x => k))
  (at level 100, m at next level, right associativity) : monad_scope.
Notation "m ;; k" := (bind m (fun _ => k))
  (at level 100, right associativity) : monad_scope.
Local Open Scope monad_scope.

(** Field updates of [World]. *)
Definition with_headless (w : World) (b : bool) : World :=
  {| self_headless := b; self_playwright := self_playwright w;
     self_browser := self_browser w; self_context := self_context w;
     self_page := self_page w; dom := dom w; fs := fs w; trace := trace w |}.

Definition with_playwright (w : World) (h : option nat) : World :=
  {| self_headless := self_headless w; self_playwright := h;
     self_browser := self_browser w; self_context := self_context w;
     self_page := self_page w; dom := dom w; fs := fs w; trace := trace w |}.

Definition with_browser (w : World) (h : option nat) : World :=
  {| self_headless := self_headless w; self_playwright := self_playwright w;
     self_browser := h; self_context := self_context w;
     self_page := self_page w; dom := dom w; fs := fs w; trace := trace w |}.

Definition with_context (w : World) (h : option nat) : World :=
  {| self_headless := self_headless w; self_playwright := self_playwright w;
     self_browser := self_browser w; self_context := h;
     self_page := self_page w; dom := dom w; fs := fs w; trace := trace w |}.

Definition with_page (w : World) (h : option nat) : World :=
  {| self_headless := self_headless w; self_playwright := self_playwright w;
     self_browser := self_browser w; self_context := self_context w;
     self_page := h; dom := dom w; fs := fs w; trace := trace w |}.

Definition with_dom (w : World) (d : Dom) : World :=
  {| self_headless := self_headless w; self_playwright := self_playwright w;
     self_browser := self_browser w; self_context := self_context w;
     self_page := self_page w; dom := d; fs := fs w; trace := trace w |}.

Definition with_fs (w : World) (disk : gmap pystr bytes) : World :=
  {| self_headless := self_headless w; self_playwright := self_playwright w;
     self_browser := self_browser w; self_context := self_context w;
     self_page := self_page w; dom := dom w; fs := disk; trace := trace w |}.

Definition with_trace (w : World) (tr : list event) : World :=
  {| self_headless := self_headless w; self_playwright := self_playwright w;
     self_browser := self_browser w; self_context := self_context w;
     self_page := self_page w; dom := dom w; fs := fs w; trace := tr |}.

Definition emit (e : event) : M unit :=
  modify_world (fun w => with_trace w (trace w ++ [e])).

(** [logging.debug], [info], [warning] and [error]. *)
Definition log (lv : level) (msg : pystr) : M unit := emit (Log lv msg).

Definition set_headless (b : bool) : M unit :=
  modify_world (fun w => with_headless w b).
Definition set_playwright (h : nat) : M unit :=
  modify_world (fun w => with_playwright w (Some h)).
Definition set_browser (h : nat) : M unit :=
  modify_world (fun w => with_browser w (Some h)).
Definition set_context (h : nat) : M unit :=
  modify_world (fun w => with_context w (Some h)).
Definition set_page (h : nat) : M unit :=
  modify_world (fun w => with_page w (Some h)).
Definition set_dom (d : Dom) : M unit :=
  modify_world (fun w => with_dom w d).

(** Creates or replaces the file at [path]. *)
Definition write_file (path : pystr) (content : bytes) : M unit :=
  modify_world (fun w => with_fs w (<[path := content]> (fs w))).

(** Appends [chunk] to the file at [path] (which [open] has created). *)
Definition append_file (path : pystr) (chunk : bytes) : M unit :=
  w <- get_world ;;
  write_file path (default [] (fs w !! path) ++ chunk).

(** ** The program *)

Section Program.
Context `{UnicodeDB} (E : Env) (C : Config).

(** An awaited call during attempt [a]: it is recorded, then it returns
    or raises as the environment says. *)
Definition await (a : nat) (c : call) : M unit :=
  emit (Call c) ;;
  match raises E a c with
  | Some e => raise e
  | None => ret tt
  end.

(** *** [setup_browser] and [close_browser] *)

Definition setup_browser (a : nat) : M unit :=
  await a PlaywrightStart ;;
  set_playwright a ;;
  w <- get_world ;;
  await a (Launch (self_headless w)) ;;
  set_browser a ;;
  await a NewContext ;;
  set_context a ;;
  await a NewPage ;;
  set_page a.

Definition close_browser (a : nat) : M unit :=
  w <- get_world ;;
  match self_page w with
  | Some h => await a (PageClose h)
  | None => ret tt
  end ;;
  match self_context w with
  | Some h => await a (ContextClose h)
  | None => ret tt
  end ;;
  match self_browser w with
  | Some h => await a (BrowserClose h)
  | None => ret tt
  end ;;
  match self_playwright w with
  | Some h => await a (PlaywrightStop h)
  | None => ret tt
  end.

(** *** [login] *)

Definition login (a : nat) (login_url : pystr) : M bool :=
  try_except
    (log INFO (str "Navigating to login page: " ++ login_url) ;;
     await a LoginGoto ;;
     await a LoginWaitForm ;;
     log INFO (str "Login form found, proceeding with login...") ;;
     log DEBUG (str "Filling in login credentials... with email: "
                ++ email C) ;;
     await a LoginFillEmail ;;
     log DEBUG (str "Filling in password...") ;;
     await a LoginFillPassword ;;
     log DEBUG (str "Submitting login form...") ;;
     await a LoginClick ;;
     await a LoginWaitIdle ;;
     let current_url := page_url E a in
     if contains (str "my-account") (lower current_url) then
       log INFO (str "Login successful!") ;;
       ret true
     else
       log WARNING (str "Login failed. Please check your credentials.") ;;
       ret false)
    (fun e =>
       log ERROR (str "Error during login: " ++ e) ;;
       ret false).

(** *** [select_filters] *)

(** [select.value = v]: the option with that value becomes the selected
    one; without such an option the select is left with no selection. *)
Definition assign_value (select : Select) (v : pystr) : Select :=
  {| options := options select;
     value := if existsb (fun opt => pystr_eqb opt v) (options select)
              then v else [] |}.

Definition with_centers (d : Dom) (s : Select) : Dom :=
  {| videos_centers := Some s; videos_courts := videos_courts d;
     videos_days := videos_days d; sheet_close := sheet_close d |}.

Definition with_courts (d : Dom) (s : Select) : Dom :=
  {| videos_centers := videos_centers d; videos_courts := Some s;
     videos_days := videos_days d; sheet_close := sheet_close d |}.

Definition with_days (d : Dom) (s : Select) : Dom :=
  {| videos_centers := videos_centers d; videos_courts := videos_courts d;
     videos_days := Some s; sheet_close := sheet_close d |}.

(** The script that forces the center to ["0"]. *)
Definition script_set_center : M unit :=
  w <- get_world ;;
  match videos_centers (dom w) with
  | Some select =>
      set_dom (with_centers (dom w) (assign_value select (str "0"))) ;;
      emit (Change (str "#videos_centers") (str "0"))
  | None => ret tt
  end.

(** The script that forces the court to ["3"]. *)
Definition script_set_court : M unit :=
  w <- get_world ;;
  match videos_courts (dom w) with
  | Some select =>
      set_dom (with_courts (dom w) (assign_value select (str "3"))) ;;
      emit (Change (str "#videos_courts") (str "3"))
  | None => ret tt
  end.

(** The script [js_code]: it assigns [date] only if an option has that
    value, and returns whether it did. *)
Definition script_set_date (date : pystr) : M bool :=
  w <- get_world ;;
  match videos_days (dom w) with
  | Some select =>
      let optionExists :=
        existsb (fun opt => pystr_eqb opt date) (options select) in
      if optionExists then
        set_dom (with_days (dom w) (assign_value select date)) ;;
        emit (Change (str "#videos_days") date) ;;
        ret true
      else ret false
  | None => ret false
  end.

(** The script that clicks the confirmation link if there is one. *)
Definition script_click_ok : M unit :=
  w <- get_world ;;
  if sheet_close (dom w) then emit (Click (str "a.link.sheet-close"))
  else ret tt.

(** [self.get_previous_wednesday()] at clock site [s]. *)
Definition get_previous_wednesday_at (a : nat) (s : clock_site) : M pystr :=
  match get_previous_wednesday (now E a s) with
  | Some date => ret date
  | None => raise (str "date value out of range")
  end.

Definition select_filters (a : nat) : M bool :=
  try_except
    (log INFO (str "Setting up video filters...") ;;
     await a ClickCenter ;;
     await a EvalOpenCenter ;;
     await a EvalSetCenter ;;
     script_set_center ;;
     log INFO (str "Selected HF Paris center") ;;
     await a ClickCourt ;;
     await a EvalSetCourt ;;
     script_set_court ;;
     log INFO (str "Selected Rucker Park court") ;;
     prev_wednesday <- get_previous_wednesday_at a InSelectFilters ;;
     await a ClickDay ;;
     try_except
       (await a EvalSetDate ;;
        _ <- script_set_date prev_wednesday ;;
        log INFO (str "Selected date: " ++ prev_wednesday) ;;
        await a EvalClickOk ;;
        script_click_ok ;;
        log INFO (str "Clicked OK button to confirm date selection"))
       (fun e =>
          log WARNING (str "Date " ++ prev_wednesday
                       ++ str " not available, keeping all dates selected: "
                       ++ e)) ;;
     log INFO (str "Keeping all hours selected") ;;
     ret true)
    (fun e =>
       log ERROR (str "Error selecting filters: " ++ e) ;;
       ret false).

(** *** [get_video_links] *)

(** The body of the filtering loop for one video. *)
Definition filter_one (video : VideoRecord)
    (filtered_videos : list VideoRecord) : M (list VideoRecord) :=
  try_except
    (match search (title video) with
     | Some (hour, minute) =>
         if in_window hour minute then
           log INFO (str "Keeping video: " ++ title video) ;;
           ret (filtered_videos ++ [video])
         else
           log INFO (str "Skipping video " ++ title video
                     ++ str " (outside 12:00-13:30 range)") ;;
           ret filtered_videos
     | None =>
         log WARNING (str "Could not determine time for: " ++ title video
                      ++ str " - including it") ;;
         ret (filtered_videos ++ [video])
     end)
    (fun e =>
       log WARNING (str "Error filtering video by time: " ++ e
                    ++ str " - including video: " ++ title video) ;;
       ret (filtered_videos ++ [video])).

Fixpoint filter_by_time (video_data filtered_videos : list VideoRecord)
    : M (list VideoRecord) :=
  match video_data with
  | [] => ret filtered_videos
  | video :: rest =>
      filtered_videos <- filter_one video filtered_videos ;;
      filter_by_time rest filtered_videos
  end.

Definition get_video_links (a : nat) : M (list VideoRecord) :=
  try_except
    (await a WaitCards ;;
     await a EvalScrape ;;
     let video_data := cards E a in
     filtered_videos <- filter_by_time video_data [] ;;
     log INFO (str "Found " ++ repr (N.of_nat (length video_data))
               ++ str " total videos, filtered to "
               ++ repr (N.of_nat (length filtered_videos))
               ++ str " videos between 12:00-13:30") ;;
     ret filtered_videos)
    (fun e =>
       log ERROR (str "Error extracting video links: " ++ e) ;;
       ret []).

(** *** [download_video] *)

(** [pathlib]'s [/]. *)
Definition path_join (a b : pystr) : pystr := a ++ str "/" ++ b.

(** Truth value of [d.get(key)]: neither [None] nor the empty string. *)
Definition truthy (o : option pystr) : bool :=
  match o with
  | Some (_ :: _) => true
  | _ => false
  end.

(** [a or b] *)
Definition py_or (a b : option pystr) : option pystr :=
  if truthy a then a else b.

(** [response.raise_for_status()] *)
Definition raise_for_status (r : Response) (url : pystr) : M unit :=
  if ((400 <=? status_code r) && (status_code r <? 500))%N then
    raise (repr (status_code r) ++ str " Client Error: " ++ reason r
           ++ str " for url: " ++ url)
  else if ((500 <=? status_code r) && (status_code r <? 600))%N then
    raise (repr (status_code r) ++ str " Server Error: " ++ reason r
           ++ str " for url: " ++ url)
  else ret tt.

(** [for chunk in ...: if chunk: f.write(chunk)] *)
Fixpoint write_chunks (path : pystr) (cs : list bytes) : M unit :=
  match cs with
  | [] => ret tt
  | chunk :: rest =>
      match chunk with
      | [] => ret tt
      | _ :: _ => append_file path chunk
      end ;;
      write_chunks path rest
  end.

(** Method 1, the body of its [try]. *)
Definition direct_download (a : nat) (v : VideoRecord)
    (video_url download_path filename : pystr) : M bool :=
  await a (HttpGet v) ;;
  let response := response E a v in
  raise_for_status response video_url ;;
  await a (OpenWb v download_path) ;;
  write_file download_path [] ;;
  write_chunks download_path (chunks response) ;;
  match stream_error response with
  | Some e => raise e
  | None => ret tt
  end ;;
  log INFO (str "Successfully downloaded: " ++ filename) ;;
  ret true.

(** Method 2, the body of its [try]. *)
Definition browser_download (a : nat) (v : VideoRecord)
    (download_path filename : pystr) : M bool :=
  await a (SetHeaders v) ;;
  download_url <-
    match downloadUrl v with
    | Some u => ret u
    | None => raise (str "'downloadUrl'")
    end ;;
  log INFO (str "Using browser download for: " ++ download_url) ;;
  await a (ExpectDownload v) ;;
  await a (SaveAs v download_path) ;;
  write_file download_path (download_body E a v) ;;
  log INFO (str "Successfully downloaded via browser: " ++ filename) ;;
  ret true.

(** Method 3, the body of its [try]; [false] when the script found no
    download control at the video's index. *)
Definition click_download (a : nat) (v : VideoRecord) : M bool :=
  log INFO (str "Attempting JavaScript download trigger...") ;;
  await a (GotoListing v) ;;
  await a (EvalClick v) ;;
  let download_result := click_result E a v in
  if download_result then
    emit (Click (str "a.download.external")) ;;
    log INFO (str "Triggered download for: " ++ title v) ;;
    ret true
  else ret false.

Definition download_video (a : nat) (video_data : VideoRecord)
    (date_str : pystr) : M bool :=
  try_except
    (let filename := filename (title video_data) in
     log INFO (str "Downloading: " ++ title video_data) ;;
     let date_folder := path_join (download_dir C) date_str in
     await a (Mkdir date_folder) ;;
     let download_path := path_join date_folder filename in
     let video_url :=
       py_or (directUrl video_data) (videoSrc video_data) in
     done1 <-
       match video_url with
       | Some (c :: u) =>
           (* if video_url: *)
           let video_url := c :: u in
           log INFO (str "Attempting direct download from: " ++ video_url) ;;
           try_except
             (direct_download a video_data video_url download_path filename)
             (fun e =>
                log WARNING (str "Direct download failed: " ++ e
                             ++ str ", trying browser download...") ;;
                ret false)
       | _ => ret false
       end ;;
     if done1 : bool then ret true
     else
       done2 <-
         try_except
           (browser_download a video_data download_path filename)
           (fun e =>
              log ERROR (str "Browser download failed: " ++ e) ;;
              ret false) ;;
       if done2 : bool then ret true
       else
         done3 <-
           try_except
             (click_download a video_data)
             (fun e =>
                log ERROR (str "JavaScript download trigger failed: " ++ e) ;;
                ret false) ;;
         if done3 : bool then ret true else ret false)
    (fun e =>
       log ERROR (str "Error downloading " ++ title video_data
                  ++ str ": " ++ e) ;;
       ret false).

(** *** [download_videos] *)

Definition max_retries : nat := 2.

(** How one pass through the body of the [while] ends. *)
Inductive ctl :=
  | Continue (retry_count : nat)
  | Return (b : bool).

(** [if retry_count < max_retries: retry_count += 1; continue] and the
    [return] that follows it. *)
Definition retry_or_return (retry_count : nat) (b : bool) : ctl :=
  if (retry_count <? max_retries)%nat then Continue (S retry_count)
  else Return b.

(** The [for] loop over the videos. *)
Fixpoint download_each (a : nat) (video_data_list : list VideoRecord)
    (date_str : pystr) (successful_downloads : nat) : M nat :=
  match video_data_list with
  | [] => ret successful_downloads
  | video_data :: rest =>
      ok <- download_video a video_data date_str ;;
      download_each a rest date_str
        (if ok : bool then S successful_downloads else successful_downloads)
  end.

(** The [try] block of the loop from [# Navigate to login page] on. *)
Definition session_body (retry_count : nat) : M ctl :=
  let login_url := base_url C ++ str "/login" in
  await retry_count GotoLogin ;;
  logged_in <- login retry_count login_url ;;
  if negb logged_in then ret (retry_or_return retry_count false)
  else
    await retry_count GotoVideos ;;
    set_dom (listing_dom E retry_count) ;;
    filtered <- select_filters retry_count ;;
    if negb filtered then ret (retry_or_return retry_count false)
    else
      video_data_list <- get_video_links retry_count ;;
      match video_data_list with
      | [] =>
          log WARNING (str "No videos found for the specified criteria") ;;
          ret (retry_or_return retry_count true)
      | _ :: _ =>
          date_str <-
            get_previous_wednesday_at retry_count InDownloadVideos ;;
          successful_downloads <-
            download_each retry_count video_data_list date_str 0 ;;
          log INFO (str "Download completed! "
                    ++ repr (N.of_nat successful_downloads) ++ str "/"
                    ++ repr (N.of_nat (length video_data_list))
                    ++ str " videos downloaded to " ++ download_dir C
                    ++ str "/" ++ date_str) ;;
          ret (Return true)
      end.

(** The first lines of the [try] block: the retry message and the switch
    to a visible browser on the last attempt. *)
Definition retry_prelude (retry_count : nat) : M unit :=
  if (0 <? retry_count)%nat then
    log INFO (str "Retry attempt " ++ repr (N.of_nat retry_count)
              ++ str "/" ++ repr (N.of_nat max_retries) ++ str "...") ;;
    w <- get_world ;;
    if self_headless w && (retry_count =? max_retries)%nat then
      log INFO (str "Switching to non-headless mode for final attempt") ;;
      set_headless false
    else ret tt
  else ret tt.

(** The [try] block of the loop. *)
Definition attempt_body (retry_count : nat) : M ctl :=
  retry_prelude retry_count ;;
  setup_browser retry_count ;;
  session_body retry_count.

(** The [try] with its [except]. *)
Definition attempt_guarded (retry_count : nat) : M ctl :=
  try_except
    (attempt_body retry_count)
    (fun e =>
       log ERROR (str "Error in download process: " ++ e) ;;
       if (retry_count <? max_retries)%nat then
         log INFO (str "Will retry... ("
                   ++ repr (N.of_nat (S retry_count)) ++ str "/"
                   ++ repr (N.of_nat max_retries) ++ str ")") ;;
         ret (Continue (S retry_count))
       else ret (Return false)).

(** One pass: the [try], its [except] and its [finally]. *)
Definition attempt (retry_count : nat) : M ctl :=
  try_finally (attempt_guarded retry_count) (close_browser retry_count).

(** What [download_videos] evaluates to: a [return], the end of the
    [while] (the function then returns [None]), or, in this model only,
    the end of the fuel. *)
Inductive loop_result :=
  | Returned (b : bool)
  | LoopExit
  | OutOfFuel.

Fixpoint run_loop (fuel retry_count : nat) : M loop_result :=
  match fuel with
  | O => ret OutOfFuel
  | S fuel' =>
      if (retry_count <=? max_retries)%nat then
        c <- attempt retry_count ;;
        match c with
        | Continue retry_count' => run_loop fuel' retry_count'
        | Return b => ret (Returned b)
        end
      else ret LoopExit
  end.

Definition download_videos : M loop_result :=
  let retry_count := 0%nat in
  run_loop (S (S max_retries)) retry_count.

(** *** [main] *)

(** The exit status of the process: [sys.exit(0)] on a true result,
    [sys.exit(1)] on a false one ([None] included); an exception that
    leaves [download_videos] ends the interpreter with status 1. *)
Definition main (w : World) : option Z * World :=
  match download_videos w with
  | (Ok (Returned true), w') =>
      (Some 0,
       snd (log INFO (str "All done! Videos downloaded successfully.") w'))
  | (Ok (Returned false), w') | (Ok LoopExit, w') =>
      (Some 1, snd (log ERROR (str "Download process failed.") w'))
  | (Ok OutOfFuel, w') => (None, w')
  | (Raise _, w') => (Some 1, w')
  end.

End Program.

(** The downloader as [__init__] leaves it, on a disk [disk]. *)
Definition initial_world (headless : bool) (disk : gmap pystr bytes) : World :=
  {| self_headless := headless; self_playwright := None;
     self_browser := None; self_context := None; self_page := None;
     dom := {| videos_centers := None; videos_courts := None;
               videos_days := None; sheet_close := false |};
     fs := disk; trace := [] |}.

(** ** The page scripts

    The scraping script of [get_video_links] and the click script of
    method 3 run in the page.  The page is given by the list of its
    [.card] elements, in document order. *)

(** A [.card] element, as far as the scripts look at it. *)
Record Card := {
  (* its a.download.external element, if any: the href attribute, or
     None when the element has no such attribute *)
  download_link : option (option pystr);
  (* its .product-name element, if any: the textContent *)
  product_name : option pystr;
  (* its video element, if any: the src attribute, or None *)
  video_element : option (option pystr)
}.

(** The white space and line terminators of JavaScript. *)
Definition js_isspace (c : N) : bool :=
  in_range 9 13 c || (c =? 32)%N || (c =? 160)%N || (c =? 5760)%N ||
  in_range 8192 8202 c || (c =? 8232)%N || (c =? 8233)%N ||
  (c =? 8239)%N || (c =? 8287)%N || (c =? 12288)%N || (c =? 65279)%N.

Fixpoint trim_start (s : pystr) : pystr :=
  match s with
  | [] => []
  | c :: s' => if js_isspace c then trim_start s' else s
  end.

(** [s.trim()] *)
Definition trim (s : pystr) : pystr := rev (trim_start (rev (trim_start s))).

(** [s.split(sep)] for a separator of one character. *)
Fixpoint js_split (sep : N) (s : pystr) : list pystr :=
  match s with
  | [] => [[]]
  | c :: s' =>
      if (c =? sep)%N then [] :: js_split sep s'
      else
        match js_split sep s' with
        | piece :: pieces => (c :: piece) :: pieces
        | [] => [[c]]
        end
  end.

(** What [URLSearchParams] leaves to the browser's tables: the percent
    decoding of a name or value, read as UTF-8. *)
Class Browser := {
  percent_decode : pystr -> pystr
}.

(** [s] up to the first [sep], and what follows it. *)
Fixpoint break_at (sep : N) (s : pystr) : pystr * pystr :=
  match s with
  | [] => ([], [])
  | c :: s' =>
      if (c =? sep)%N then ([], s')
      else let (before, after) := break_at sep s' in (c :: before, after)
  end.

Section Scripts.
Context `{Browser}.

(** A name or a value of a query: [+] stands for a space. *)
Definition form_decode (s : pystr) : pystr :=
  percent_decode (map (fun c => if (c =? 43)%N then 32%N else c) s).

(** [new URLSearchParams(init)]: the pairs of the query [init], in
    order. *)
Definition URLSearchParams (init : pystr) : list (pystr * pystr) :=
  let init := match init with
              | 63%N :: rest => rest
              | _ => init
              end in
  map (fun sequence =>
         let (name, value) := break_at 61 sequence in
         (form_decode name, form_decode value))
      (List.filter (fun sequence => negb (pystr_eqb sequence []))
         (js_split 38 init)).

(** [params.get(name)]: the value of the first pair with that name. *)
Fixpoint params_get (params : list (pystr * pystr)) (name : pystr)
    : option pystr :=
  match params with
  | [] => None
  | (n, v) :: rest => if pystr_eqb n name then Some v else params_get rest name
  end.

(** How the callback of [cards.forEach] ends for one card. *)
Inductive scraped :=
  | Pushed (video : VideoRecord)
  | Skipped
  | Thrown.

(** The callback of [cards.forEach] in the scraping script.  A download
    link without [href] gives [null.split]: the script throws. *)
Definition scrape_card (card : Card) (index : nat) : scraped :=
  match download_link card, product_name card with
  | Some href, Some textContent =>
      match href with
      | None => Thrown
      | Some downloadUrl =>
          let title := trim textContent in
          let urlParams :=
            match js_split 63 downloadUrl with
            | _ :: query :: _ => URLSearchParams query
            | _ => []
            end in
          let directVideoUrl := params_get urlParams (str "path") in
          let videoSrc :=
            match video_element card with
            | Some src => src
            | None => None
            end in
          if truthy directVideoUrl || truthy videoSrc then
            Pushed {| title := title; downloadUrl := Some downloadUrl;
                      directUrl := directVideoUrl; videoSrc := videoSrc;
                      index := index |}
          else Skipped
      end
  | _, _ => Skipped
  end.

(** The scraping script from the card at [index] on: the [videos] it
    returns, or [None] when it throws. *)
Fixpoint scrape_from (index : nat) (cards : list Card)
    : option (list VideoRecord) :=
  match cards with
  | [] => Some []
  | card :: rest =>
      match scrape_card card index with
      | Thrown => None
      | Skipped => scrape_from (S index) rest
      | Pushed video => cons video <$> scrape_from (S index) rest
      end
  end.

Definition scrape (cards : list Card) : option (list VideoRecord) :=
  scrape_from 0 cards.

End Scripts.

(** The click script of method 3: whether it found a download control in
    the card at [index]. *)
Definition click_script (cards : list Card) (index : nat) : bool :=
  match cards !! index with
  | Some card =>
      match download_link card with
      | Some _ => true
      | None => false
      end
  | None => false
  end.

(** ** [wait_for_visible]

    The program never calls this method, so the environment has no call
    sites for its three page operations: they are parameters here.
    [wait_visible] waits for the element to be visible,
    [force_visible] is the script that forces its style, and
    [wait_attached] waits for the element to be attached. *)
Definition wait_for_visible
    (wait_visible force_visible wait_attached : M unit) (selector : pystr)
    : M bool :=
  try_except
    (wait_visible ;;
     ret true)
    (fun _ =>
       log WARNING (str "Element " ++ selector
                    ++ str " not naturally visible, "
                    ++ str "trying to force visibility...") ;;
       try_except
         (force_visible ;;
          wait_attached ;;
          ret true)
         (fun e =>
            log ERROR (str "Failed to make element " ++ selector
                       ++ str " visible: " ++ e) ;;
            ret false)).

(** * Specifications

    The definitions below are not part of the program: they name what the
    theorems observe (traces, results) and restate, in the words of the
    specification, what the program is compared with. *)

(** ** Sanitized names *)

(** [[A-Za-z0-9_]] *)
Definition ascii_word (c : N) : bool := ascii_isalnum c || (c =? 95)%N.

Section SanitizeSpec.
Context `{UnicodeDB}.

(** A character that [safe_title] lets through unchanged. *)
Definition clean (c : N) : bool := is_word c && negb (is_sep c).

End SanitizeSpec.

(** ** The time pattern *)

Section PatternSpec.
Context `{UnicodeDB}.

(** The pattern of the specification, read at the head of a string: one
    or two digits, the letter h, two digits. *)
Inductive pattern_at : pystr -> N -> N -> Prop :=
  | hour_one_digit h m1 m2 rest a m :
      todecimal h = Some a -> int2 m1 m2 = Some m ->
      pattern_at (h :: 104%N :: m1 :: m2 :: rest) a m
  | hour_two_digits h1 h2 m1 m2 rest a b m :
      todecimal h1 = Some a -> todecimal h2 = Some b ->
      int2 m1 m2 = Some m ->
      pattern_at (h1 :: h2 :: 104%N :: m1 :: m2 :: rest) (10 * a + b)%N m.

(** The pattern occurs in [title] at offset [i]. *)
Definition occurrence (title : pystr) (i : nat) (hour minute : N) : Prop :=
  pattern_at (drop i title) hour minute.

(** The first occurrence of the pattern in [title]. *)
Definition first_occurrence (title : pystr) (hour minute : N) : Prop :=
  exists i,
    occurrence title i hour minute /\
    forall j hour' minute', (j < i)%nat -> ~ occurrence title j hour' minute'.

(** The pattern occurs nowhere in [title]. *)
Definition no_occurrence (title : pystr) : Prop :=
  forall i hour minute, ~ occurrence title i hour minute.

(** The record the filtering loop logs for one video. *)
Definition filter_event (video : VideoRecord) : event :=
  match search (title video) with
  | Some (hour, minute) =>
      if in_window hour minute then
        Log INFO (str "Keeping video: " ++ title video)
      else
        Log INFO (str "Skipping video " ++ title video
                  ++ str " (outside 12:00-13:30 range)")
  | None =>
      Log WARNING (str "Could not determine time for: " ++ title video
                   ++ str " - including it")
  end.

End PatternSpec.

(** ** Results and traces *)

(** A computation whose result does not depend on the world. *)
Definition returns {A} (m : M A) (r : outcome A) : Prop :=
  forall w, fst (m w) = r.

(** A computation that always returns normally. *)
Definition never_raises {A} (m : M A) : Prop :=
  forall w, exists a, fst (m w) = Ok a.

(** A log record above the level INFO. *)
Definition is_warning (e : event) : bool :=
  match e with
  | Log WARNING _ | Log ERROR _ => true
  | _ => false
  end.

(** [o is None] *)
Definition is_none {A} (o : option A) : bool :=
  match o with None => true | Some _ => false end.

(** No call of [cs] raises during attempt [a]. *)
Definition quiet (E : Env) (a : nat) (cs : list call) : bool :=
  forallb (fun c => is_none (raises E a c)) cs.

(** The outcome of a computation that returns [a] unless [err] was
    raised. *)
Definition result_of {A} (a : A) (err : option pystr) : outcome A :=
  match err with
  | None => Ok a
  | Some e => Raise e
  end.

(** Runs the calls of [cs] in order during attempt [a] until one raises:
    the calls made (the raising one included) and the error, if any. *)
Fixpoint run_calls (E : Env) (a : nat) (cs : list call)
    : list call * option pystr :=
  match cs with
  | [] => ([], None)
  | c :: cs' =>
      match raises E a c with
      | Some e => ([c], Some e)
      | None => let (made, err) := run_calls E a cs' in (c :: made, err)
      end
  end.

(** ** The download strategies *)

(** Methods 1, 2 and 3 of [download_video]. *)
Inductive strategy := Direct | BrowserNative | ClickTrigger.

(** The strategy that starts with this event: each method is recognised
    by its first call. *)
Definition strategy_of (e : event) : option strategy :=
  match e with
  | Call (HttpGet _) => Some Direct
  | Call (SetHeaders _) => Some BrowserNative
  | Call (GotoListing _) => Some ClickTrigger
  | _ => None
  end.

(** The strategies that were started, in order. *)
Definition strategies_tried (evs : list event) : list strategy :=
  omap strategy_of evs.

(** The status for which [raise_for_status] raises. *)
Definition http_error (r : Response) : bool :=
  ((400 <=? status_code r) && (status_code r <? 600))%N.

Section StrategySpec.
Context `{UnicodeDB} (E : Env).

(** Method 1 returns [True]: the request is answered without an error
    status, the file can be opened and the body arrives whole. *)
Definition direct_succeeds (a : nat) (v : VideoRecord) (path : pystr)
    : bool :=
  is_none (raises E a (HttpGet v)) && negb (http_error (response E a v)) &&
  is_none (raises E a (OpenWb v path)) &&
  is_none (stream_error (response E a v)).

(** Method 2 returns [True]: the record has a download URL and none of
    its calls raises. *)
Definition browser_succeeds (a : nat) (v : VideoRecord) (path : pystr)
    : bool :=
  is_none (raises E a (SetHeaders v)) && negb (is_none (downloadUrl v)) &&
  is_none (raises E a (ExpectDownload v)) &&
  is_none (raises E a (SaveAs v path)).

(** Method 3 returns [True]: none of its calls raises and the script
    found the download control. *)
Definition click_succeeds (a : nat) (v : VideoRecord) : bool :=
  is_none (raises E a (GotoListing v)) && is_none (raises E a (EvalClick v)) &&
  click_result E a v.

(** Strategy [s] returns [True] for video [v]. *)
Definition succeeds (a : nat) (v : VideoRecord) (path : pystr)
    (s : strategy) : bool :=
  match s with
  | Direct => direct_succeeds a v path
  | BrowserNative => browser_succeeds a v path
  | ClickTrigger => click_succeeds a v
  end.

End StrategySpec.

(** The strategies that apply to a record, in priority order. *)
Definition available (v : VideoRecord) : list strategy :=
  (if truthy (py_or (directUrl v) (videoSrc v)) then [Direct] else [])
  ++ [BrowserNative; ClickTrigger].

(** The chain of the specification: try each strategy in order and stop
    at the first success.  Returns the strategies tried and whether one
    succeeded. *)
Fixpoint first_success (ok : strategy -> bool) (l : list strategy)
    : list strategy * bool :=
  match l with
  | [] => ([], false)
  | s :: l' =>
      if ok s then ([s], true)
      else let (tried, b) := first_success ok l' in (s :: tried, b)
  end.

(** ** Sessions *)

(** The calls of [setup_browser] and [close_browser]. *)
Definition is_session_call (c : call) : bool :=
  match c with
  | PlaywrightStart | Launch _ | NewContext | NewPage
  | PageClose _ | ContextClose _ | BrowserClose _ | PlaywrightStop _ => true
  | _ => false
  end.

(** The session call an event records, if it records one. *)
Definition session_call_of (e : event) : option call :=
  match e with
  | Call c => if is_session_call c then Some c else None
  | _ => None
  end.

(** The calls that open and close the session, in order. *)
Definition session_calls (evs : list event) : list call :=
  omap session_call_of evs.

(** The modes of the browsers launched by a list of calls, in order. *)
Definition launch_modes (cs : list call) : list bool :=
  omap (fun c => match c with Launch mode => Some mode | _ => None end) cs.

(** A computation that works inside the session: it leaves the
    attributes of [self] alone and makes no session call. *)
Definition inner {A} (m : M A) : Prop :=
  forall w, exists r evs d disk,
    m w = (r, with_fs (with_dom (with_trace w (trace w ++ evs)) d) disk) /\
    session_calls evs = [].

(** The calls of [setup_browser] for a given mode. *)
Definition open_calls (mode : bool) : list call :=
  [PlaywrightStart; Launch mode; NewContext; NewPage].

(** The calls of [close_browser] after a complete [setup_browser] in
    attempt [a]. *)
Definition close_calls (a : nat) : list call :=
  [PageClose a; ContextClose a; BrowserClose a; PlaywrightStop a].

(** The calls that open and close the session of attempt [a]. *)
Definition session_sites (a : nat) : list call :=
  open_calls true ++ open_calls false ++ close_calls a.

(** The calls of [close_browser] in world [w]: one per object that
    [self] holds, page first. *)
Definition teardown_plan (w : World) : list call :=
  match self_page w with Some h => [PageClose h] | None => [] end ++
  match self_context w with Some h => [ContextClose h] | None => [] end ++
  match self_browser w with Some h => [BrowserClose h] | None => [] end ++
  match self_playwright w with Some h => [PlaywrightStop h] | None => [] end.

(** How many calls of a run returned. *)
Definition completed (run : list call * option pystr) : nat :=
  match snd run with
  | None => length (fst run)
  | Some _ => pred (length (fst run))
  end.

(** [self] after the first [n] assignments of [setup_browser] in
    attempt [a]. *)
Definition with_handles (w : World) (a n : nat) : World :=
  {| self_headless := self_headless w;
     self_playwright := if (1 <=? n)%nat then Some a else self_playwright w;
     self_browser := if (2 <=? n)%nat then Some a else self_browser w;
     self_context := if (3 <=? n)%nat then Some a else self_context w;
     self_page := if (4 <=? n)%nat then Some a else self_page w;
     dom := dom w; fs := fs w; trace := trace w |}.

(** The mode in which attempt [a] launches the browser. *)
Definition attempt_mode (a : nat) (headless : bool) : bool :=
  if (0 <? a)%nat && (headless && (a =? max_retries)%nat) then false
  else headless.

(** The calls that open and close the sessions of a run of three
    attempts that starts in mode [headless]: the third attempt launches a
    visible browser. *)
Definition three_sessions (headless : bool) : list call :=
  open_calls headless ++ close_calls 0 ++
  open_calls headless ++ close_calls 1 ++
  open_calls false ++ close_calls 2.

(** ** What the stages of an attempt return *)

(** The calls of [login]. *)
Definition login_calls : list call :=
  [LoginGoto; LoginWaitForm; LoginFillEmail; LoginFillPassword; LoginClick;
   LoginWaitIdle].

(** What [login] returns during attempt [a]. *)
Definition login_succeeds `{UnicodeDB} (E : Env) (a : nat) : bool :=
  quiet E a login_calls && contains (str "my-account") (lower (page_url E a)).

(** The calls of [select_filters] outside its inner [try]. *)
Definition filter_calls : list call :=
  [ClickCenter; EvalOpenCenter; EvalSetCenter; ClickCourt; EvalSetCourt;
   ClickDay].

(** What [select_filters] returns during attempt [a]. *)
Definition filters_succeed (E : Env) (a : nat) : bool :=
  quiet E a filter_calls &&
  negb (is_none (get_previous_wednesday (now E a InSelectFilters))).

(** What [get_video_links] returns during attempt [a]. *)
Definition listing `{UnicodeDB} (E : Env) (a : nat) : list VideoRecord :=
  if quiet E a [WaitCards; EvalScrape]
  then List.filter (fun v => keeps (title v)) (cards E a)
  else [].

(** What [get_video_links] adds to the trace when the page can be
    scraped. *)
Definition scrape_events `{UnicodeDB} (E : Env) (a : nat) : list event :=
  [Call WaitCards; Call EvalScrape] ++ map filter_event (cards E a) ++
  [Log INFO (str "Found " ++ repr (N.of_nat (length (cards E a)))
             ++ str " total videos, filtered to "
             ++ repr (N.of_nat (length (listing E a)))
             ++ str " videos between 12:00-13:30")].

(** What [session_body] evaluates to during attempt [a]. *)
Definition session_result `{UnicodeDB} (E : Env) (a : nat) : outcome ctl :=
  match raises E a GotoLogin with
  | Some e => Raise e
  | None =>
      if negb (login_succeeds E a) then Ok (retry_or_return a false)
      else
        match raises E a GotoVideos with
        | Some e => Raise e
        | None =>
            if negb (filters_succeed E a) then Ok (retry_or_return a false)
            else
              match listing E a with
              | [] => Ok (retry_or_return a true)
              | _ :: _ =>
                  match get_previous_wednesday (now E a InDownloadVideos) with
                  | Some _ => Ok (Return true)
                  | None => Raise (str "date value out of range")
                  end
              end
        end
  end.

(** Attempt [a] gets as far as the video lister: the session opens and
    closes without error, the login is accepted and the filters apply. *)
Definition reaches_listing `{UnicodeDB} (E : Env) (a : nat) : bool :=
  quiet E a (session_sites a) && quiet E a [GotoLogin; GotoVideos] &&
  login_succeeds E a && filters_succeed E a.

(** ** Sample environments *)

(** A configuration. *)
Definition hoops : Config :=
  {| email := str "player@example.com"; password := str "secret";
     download_dir := str "downloads";
     base_url := str "https://hoopsfactory.com" |}.

(** The record of the card at index [i], titled [t], whose download
    link carries a direct URL. *)
Definition card (t : string) (i : nat) : VideoRecord :=
  {| title := str t;
     downloadUrl := Some (str "/download?path=https://cdn.example.com/v.mp4");
     directUrl := Some (str "https://cdn.example.com/v.mp4");
     videoSrc := None;
     index := i |}.

(** A day on which everything works: Tuesday 2026-11-03, the portal
    accepts the login, offers 2026-10-28 in the date filter and lists
    five recordings. *)
Definition calm : Env :=
  {| raises := fun _ _ => None;
     now := fun _ _ => 739923;
     page_url := fun _ => str "https://hoopsfactory.com/my-account";
     listing_dom := fun _ =>
       {| videos_centers :=
            Some {| options := [str "0"; str "1"]; value := str "1" |};
          videos_courts :=
            Some {| options := [str "1"; str "3"]; value := str "1" |};
          videos_days :=
            Some {| options := [str "20261021"; str "20261028"];
                    value := [] |};
          sheet_close := true |};
     cards := fun _ =>
       [card "28/10/2026 11h00" 0; card "28/10/2026 12h00" 1;
        card "28/10/2026 12h45" 2; card "28/10/2026 13h15" 3;
        card "28/10/2026 14h00" 4];
     response := fun _ _ =>
       {| status_code := 200; reason := str "OK";
          chunks := [[Byte.x01; Byte.x02]; []; [Byte.x03]];
          stream_error := None |};
     download_body := fun _ _ => [Byte.x0a];
     click_result := fun _ _ => true |}.

(** Field updates of [Env]. *)
Definition with_raises (E : Env) (f : nat -> call -> option pystr) : Env :=
  {| raises := f; now := now E; page_url := page_url E;
     listing_dom := listing_dom E; cards := cards E; response := response E;
     download_body := download_body E; click_result := click_result E |}.

Definition with_page_url (E : Env) (u : nat -> pystr) : Env :=
  {| raises := raises E; now := now E; page_url := u;
     listing_dom := listing_dom E; cards := cards E; response := response E;
     download_body := download_body E; click_result := click_result E |}.

Definition with_listing_dom (E : Env) (d : nat -> Dom) : Env :=
  {| raises := raises E; now := now E; page_url := page_url E;
     listing_dom := d; cards := cards E; response := response E;
     download_body := download_body E; click_result := click_result E |}.

Definition with_cards (E : Env) (c : nat -> list VideoRecord) : Env :=
  {| raises := raises E; now := now E; page_url := page_url E;
     listing_dom := listing_dom E; cards := c; response := response E;
     download_body := download_body E; click_result := click_result E |}.

Definition with_response (E : Env) (r : nat -> VideoRecord -> Response) : Env :=
  {| raises := raises E; now := now E; page_url := page_url E;
     listing_dom := listing_dom E; cards := cards E; response := r;
     download_body := download_body E; click_result := click_result E |}.

(** The portal rejects the credentials: the browser stays on the login
    page. *)
Definition login_rejected : Env :=
  with_page_url calm (fun _ => str "https://hoopsfactory.com/login").

(** No recording on the listing page. *)
Definition nothing_listed : Env := with_cards calm (fun _ => []).

(** No card ever appears: [wait_for_selector] times out. *)
Definition cards_time_out : Env :=
  with_raises calm (fun _ c =>
    match c with
    | WaitCards => Some (str "Timeout 60000ms exceeded.")
    | _ => None
    end).

(** The download directory is read-only. *)
Definition read_only_disk : Env :=
  with_raises calm (fun _ c =>
    match c with
    | Mkdir _ => Some (str "[Errno 13] Permission denied")
    | _ => None
    end).

(** Closing the page fails. *)
Definition page_close_fails : Env :=
  with_raises calm (fun _ c =>
    match c with
    | PageClose _ => Some (str "Target page has been closed")
    | _ => None
    end).

(** The date filter does not offer 2026-10-28. *)
Definition date_not_offered : Env :=
  with_listing_dom calm (fun _ =>
    {| videos_centers :=
         Some {| options := [str "0"; str "1"]; value := str "1" |};
       videos_courts :=
         Some {| options := [str "1"; str "3"]; value := str "1" |};
       videos_days :=
         Some {| options := [str "20261014"; str "20261021"]; value := [] |};
       sheet_close := true |}).

(** A listing of two recordings whose titles differ only in
    punctuation. *)
Definition same_name_cards : nat -> list VideoRecord :=
  fun _ => [card "Match 12h00!" 0; card "Match 12h00?" 1].

(** The two recordings are different files; the second one is larger. *)
Definition same_names : Env :=
  with_response (with_cards calm same_name_cards) (fun _ v =>
    {| status_code := 200; reason := str "OK";
       chunks := if (index v =? 0)%nat then [[Byte.x01]]
                 else [[Byte.x02]; [Byte.x03]];
       stream_error := None |}).

(** ** The listing page *)

Section PageSpec.
Context `{Browser}.

(** The query the scraping script reads in a download link: the text
    between the first and the second question mark. *)
Definition query_of (downloadUrl : pystr) : option pystr :=
  js_split 63 downloadUrl !! 1%nat.

(** The direct URL the scraping script finds in a download link. *)
Definition path_parameter (downloadUrl : pystr) : option pystr :=
  match query_of downloadUrl with
  | Some query => params_get (URLSearchParams query) (str "path")
  | None => None
  end.

(** The [src] the scraping script reads in a card. *)
Definition video_src (card : Card) : option pystr :=
  match video_element card with
  | Some src => src
  | None => None
  end.

(** The record the scraping script builds for a card at [index] with
    the download link [href] and the title text [text]. *)
Definition record_of (card : Card) (index : nat) (href text : pystr)
    : VideoRecord :=
  {| title := trim text; downloadUrl := Some href;
     directUrl := path_parameter href; videoSrc := video_src card;
     index := index |}.

(** The card breaks the scraping script: it has a title and a download
    link, and the link has no [href]. *)
Definition breaks_script (card : Card) : Prop :=
  download_link card = Some None /\ product_name card <> None.

(** The environment [E] when the listing page of attempt [a] shows the
    cards [page a], for the scraping script and for the click script;
    [type_error] is the text of the exception a throwing script gives. *)
Definition on_page (E : Env) (page : nat -> list Card) (type_error : pystr)
    : Env :=
  {| raises := fun a c =>
       match c, scrape (page a) with
       | EvalScrape, None => Some type_error
       | _, _ => raises E a c
       end;
     now := now E; page_url := page_url E; listing_dom := listing_dom E;
     cards := fun a => default [] (scrape (page a));
     response := response E; download_body := download_body E;
     click_result := fun a v => click_script (page a) (index v) |}.

End PageSpec.

(** The value of a hexadecimal digit. *)
Definition hex_value (c : N) : option N :=
  if in_range 48 57 c then Some (c - 48)%N
  else if in_range 65 70 c then Some (c - 55)%N
  else if in_range 97 102 c then Some (c - 87)%N
  else None.

(** Percent decoding of a text whose escapes stand for ASCII
    characters. *)
Fixpoint ascii_percent_decode (s : pystr) : pystr :=
  match s with
  | [] => []
  | c :: rest =>
      let literal := c :: ascii_percent_decode rest in
      if (c =? 37)%N then
        match rest with
        | h :: l :: rest' =>
            match hex_value h, hex_value l with
            | Some a, Some b => (16 * a + b)%N :: ascii_percent_decode rest'
            | _, _ => literal
            end
        | _ => literal
        end
      else literal
  end.

(** A browser, for download links whose escapes are of ASCII
    characters. *)
Definition ascii_escapes : Browser :=
  {| percent_decode := ascii_percent_decode |}.

(** A card with a title, a download link and no inline player. *)
Definition link_card (text href : string) : Card :=
  {| download_link := Some (Some (str href));
     product_name := Some (str text);
     video_element := None |}.

(** A listing page: two recordings, an advertisement without download
    link, and a recording whose link carries no direct URL but which has
    an inline player. *)
Definition sample_page : list Card :=
  [link_card " 28/10/2026 12h00 "
     "/download?path=https%3A%2F%2Fcdn.example.com%2Fa.mp4";
   {| download_link := None; product_name := Some (str "Offer");
      video_element := None |};
   link_card "28/10/2026 12h45" "/download?id=7";
   {| download_link := Some (Some (str "/download?id=8"));
      product_name := Some (str "28/10/2026 13h15");
      video_element := Some (Some (str "https://cdn.example.com/c.mp4")) |}].

(** The same page with a card whose download link has no [href]. *)
Definition broken_page : list Card :=
  sample_page ++
  [{| download_link := Some None; product_name := Some (str "29/10/2026");
      video_element := None |}].

(** ** Observations on a trace *)

(** The calls made, in order. *)
Definition calls_of (evs : list event) : list call :=
  omap (fun e => match e with Call c => Some c | _ => None end) evs.

(** The messages logged at level [lv], in order. *)
Definition logged (lv : level) (evs : list event) : list pystr :=
  omap (fun e =>
          match e, lv with
          | Log DEBUG msg, DEBUG | Log INFO msg, INFO
          | Log WARNING msg, WARNING | Log ERROR msg, ERROR => Some msg
          | _, _ => None
          end) evs.

(** The events the scripts dispatched in the page, in order. *)
Definition page_events (evs : list event) : list event :=
  List.filter (fun e => match e with
                        | Change _ _ | Click _ => true
                        | _ => false
                        end) evs.

(** The select has an option with value [v]. *)
Definition offers (select : Select) (v : pystr) : bool :=
  existsb (fun opt => pystr_eqb opt v) (options select).

(** ** The disk after a download *)

Section DiskSpec.
Context `{UnicodeDB} (E : Env) (C : Config).

(** [download_path] for a video. *)
Definition download_path (v : VideoRecord) (date_str : pystr) : pystr :=
  path_join (path_join (download_dir C) date_str) (filename (title v)).

(** Method 1 gets as far as opening the file for writing. *)
Definition direct_opens_file (a : nat) (v : VideoRecord) (path : pystr)
    : bool :=
  is_none (raises E a (HttpGet v)) && negb (http_error (response E a v)) &&
  is_none (raises E a (OpenWb v path)).

(** What [download_video] returns. *)
Definition download_result (a : nat) (v : VideoRecord) (date_str : pystr)
    : bool :=
  match raises E a (Mkdir (path_join (download_dir C) date_str)) with
  | Some _ => false
  | None =>
      snd (first_success (succeeds E a v (download_path v date_str))
             (available v))
  end.

(** What [download_video] leaves at [download_path], if it writes
    there: the chunks that method 1 received, replaced by the file of
    the browser when method 1 failed and method 2 succeeded. *)
Definition written (a : nat) (v : VideoRecord) (date_str : pystr)
    : option bytes :=
  let path := download_path v date_str in
  let direct :=
    if truthy (py_or (directUrl v) (videoSrc v)) &&
       direct_opens_file a v path
    then Some (concat (chunks (response E a v)))
    else None in
  match raises E a (Mkdir (path_join (download_dir C) date_str)) with
  | Some _ => None
  | None =>
      if truthy (py_or (directUrl v) (videoSrc v)) &&
         direct_succeeds E a v path
      then direct
      else if browser_succeeds E a v path then Some (download_body E a v)
      else direct
  end.

(** The disk after [download_video]. *)
Definition disk_after (a : nat) (v : VideoRecord) (date_str : pystr)
    (disk : gmap pystr bytes) : gmap pystr bytes :=
  match written a v date_str with
  | Some content => <[download_path v date_str := content]> disk
  | None => disk
  end.

End DiskSpec.

(** ** Attempts of the run loop *)

(** The number of automation drivers started, which is the number of
    attempts begun. *)
Definition sessions_started (evs : list event) : nat :=
  length (List.filter (fun c => match c with
                                | PlaywrightStart => true
                                | _ => false
                                end) (session_calls evs)).


(** The message [download_videos] logs after the loop over the videos. *)
Definition completed_message (C : Config) (successful total : nat)
    (date_str : pystr) : pystr :=
  str "Download completed! " ++ repr (N.of_nat successful) ++ str "/"
  ++ repr (N.of_nat total) ++ str " videos downloaded to "
  ++ download_dir C ++ str "/" ++ date_str.

(** ** Further sample environments *)

(** The date script throws. *)
Definition date_script_fails : Env :=
  with_raises calm (fun _ c =>
    match c with
    | EvalSetDate => Some (str "Execution context was destroyed")
    | _ => None
    end).

(** The connection breaks after the first chunk of every direct fetch,
    and the browser download does not start. *)
Definition stream_breaks : Env :=
  with_response
    (with_raises calm (fun _ c =>
       match c with
       | ExpectDownload _ => Some (str "Timeout 30000ms exceeded.")
       | _ => None
       end))
    (fun _ _ =>
       {| status_code := 200; reason := str "OK";
          chunks := [[Byte.x01; Byte.x02]];
          stream_error := Some (str "Connection broken") |}).



(** The portal rejects every login, and the browser cannot be launched
    in the second attempt. *)
Definition launch_fails_on_retry : Env :=
  with_raises login_rejected (fun a c =>
    match a, c with
    | 1%nat, Launch _ => Some (str "Failed to launch chromium")
    | _, _ => None
    end).


(** * Proofs *)

(** ** Dates *)

Lemma weekday_range (d : Z) : 0 <= weekday d < 7.
Proof. unfold weekday. apply Z.mod_pos_bound. lia. Qed.

Lemma sub_days_in_range (d n : Z) :
  MINORDINAL <= d - n <= MAXORDINAL -> sub_days d n = Some (d - n).
Proof.
  intros [Hlo Hhi]. unfold sub_days.
  destruct (Z.leb_spec MINORDINAL (d - n)); [|lia].
  destruct (Z.leb_spec (d - n) MAXORDINAL); [|lia].
  reflexivity.
Qed.

Lemma prev_wednesday_spec (today : Z) :
  MINORDINAL + 7 <= today <= MAXORDINAL ->
  exists d,
    prev_wednesday today = Some d /\
    weekday d = 2 /\
    today - 7 <= d < today /\
    (weekday today = 2 -> d = today - 7).
Proof.
  intros Hrange. unfold prev_wednesday.
  pose proof (weekday_range today) as Hw.
  unfold MINORDINAL, MAXORDINAL in Hrange.
  destruct (Z.eqb_spec ((weekday today - 2) mod 7) 0) as [H0|H0].
  - exists (today - 7).
    rewrite sub_days_in_range by (unfold MINORDINAL, MAXORDINAL; lia).
    repeat split; try lia.
    unfold weekday in *.
    Z.div_mod_to_equations. lia.
  - assert (Hd : 0 < (weekday today - 2) mod 7 < 7).
    { pose proof (Z.mod_pos_bound (weekday today - 2) 7 ltac:(lia)). lia. }
    exists (today - (weekday today - 2) mod 7).
    rewrite sub_days_in_range by (unfold MINORDINAL, MAXORDINAL; lia).
    repeat split; try lia.
    + unfold weekday in *. Z.div_mod_to_equations. lia.
    + intros Hwed. exfalso. apply H0. rewrite Hwed. reflexivity.
Qed.

(** ** Sanitized names *)

Section SanitizeFacts.
Context `{UnicodeDB}.

Lemma underscore_clean : clean 95 = true.
Proof. reflexivity. Qed.

Lemma safe_not_sep_clean (c : N) :
  is_safe c = true -> is_sep c = false -> clean c = true.
Proof.
  unfold clean, is_safe, is_sep. intros Hs Hn.
  rewrite Hn. apply orb_false_elim in Hn as [Hh Hsp].
  rewrite Hh, Hsp, !orb_false_r in Hs. now rewrite Hs.
Qed.

Lemma clean_safe (c : N) : clean c = true -> is_safe c = true.
Proof.
  unfold clean, is_safe. intros [Hw _]%andb_true_iff. now rewrite Hw.
Qed.

Lemma clean_not_space (c : N) : clean c = true -> isspace c = false.
Proof.
  unfold clean, is_sep. intros [_ Hn]%andb_true_iff.
  apply negb_true_iff, orb_false_elim in Hn. tauto.
Qed.

Lemma clean_not_sep (c : N) : clean c = true -> is_sep c = false.
Proof.
  unfold clean. intros [_ Hn]%andb_true_iff. now apply negb_true_iff.
Qed.

Lemma lstrip_Forall (P : N -> Prop) (s : pystr) :
  Forall P s -> Forall P (lstrip s).
Proof.
  induction 1 as [|c s Hc Hs IH]; simpl; [constructor|].
  destruct (isspace c); [exact IH | now constructor].
Qed.

Lemma strip_Forall (P : N -> Prop) (s : pystr) :
  Forall P s -> Forall P (strip s).
Proof.
  intros Hs. unfold strip, rstrip.
  apply Forall_rev, lstrip_Forall, Forall_rev, lstrip_Forall, Hs.
Qed.

Lemma sub_unsafe_Forall (s : pystr) :
  Forall (fun c => is_safe c = true) (sub_unsafe s).
Proof.
  unfold sub_unsafe. apply List.Forall_forall. intros c Hc.
  now apply List.filter_In in Hc.
Qed.

Lemma sub_runs_clean (s : pystr) (in_run : bool) :
  Forall (fun c => is_safe c = true) s ->
  Forall (fun c => clean c = true) (sub_runs in_run s).
Proof.
  intros Hs. revert in_run.
  induction Hs as [|c s Hc Hs IH]; intros in_run; simpl; [constructor|].
  destruct (is_sep c) eqn:Hsep.
  - destruct in_run; [apply IH|].
    constructor; [apply underscore_clean | apply IH].
  - constructor; [now apply safe_not_sep_clean | apply IH].
Qed.

Lemma safe_title_clean (title : pystr) :
  Forall (fun c => clean c = true) (safe_title title).
Proof.
  unfold safe_title. apply sub_runs_clean, strip_Forall, sub_unsafe_Forall.
Qed.

(** On a string of clean characters each of the three steps is the
    identity. *)
Lemma sub_unsafe_id (s : pystr) :
  Forall (fun c => clean c = true) s -> sub_unsafe s = s.
Proof.
  unfold sub_unsafe. induction 1 as [|c s Hc Hs IH]; simpl; [reflexivity|].
  now rewrite (clean_safe _ Hc), IH.
Qed.

Lemma lstrip_id (s : pystr) :
  Forall (fun c => clean c = true) s -> lstrip s = s.
Proof.
  destruct 1 as [|c s Hc Hs]; simpl; [reflexivity|].
  now rewrite (clean_not_space _ Hc).
Qed.

Lemma strip_id (s : pystr) :
  Forall (fun c => clean c = true) s -> strip s = s.
Proof.
  intros Hs. unfold strip, rstrip. rewrite (lstrip_id s Hs).
  rewrite lstrip_id by now apply Forall_rev.
  apply rev_involutive.
Qed.

Lemma sub_runs_id (s : pystr) :
  Forall (fun c => clean c = true) s -> sub_runs false s = s.
Proof.
  induction 1 as [|c s Hc Hs IH]; simpl; [reflexivity|].
  now rewrite (clean_not_sep _ Hc), IH.
Qed.

Lemma safe_title_id (s : pystr) :
  Forall (fun c => clean c = true) s -> safe_title s = s.
Proof.
  intros Hs. unfold safe_title.
  now rewrite (sub_unsafe_id s Hs), (strip_id s Hs), (sub_runs_id s Hs).
Qed.

Lemma clean_word (c : N) : clean c = true -> is_word c = true.
Proof. unfold clean. now intros [Hw _]%andb_true_iff. Qed.

Lemma is_word_ascii (c : N) :
  (c < 128)%N -> is_word c = true -> ascii_isalnum c || (c =? 95)%N = true.
Proof.
  unfold is_word, isalnum. intros Hc.
  apply N.ltb_lt in Hc. now rewrite Hc.
Qed.

End SanitizeFacts.

(** C3 (amended).  The sanitization is idempotent: applied to its own
    result, [safe_title] changes nothing.  Its result holds only
    characters of the class [\w] (alphanumeric in the sense of the
    Unicode database, or underscore), so every ASCII character of it is
    in [[A-Za-z0-9_]]; the file name is this result followed by the
    extension [.mp4]. *)
Theorem safe_title_idempotent_word `{UnicodeDB} (title : pystr) :
  safe_title (safe_title title) = safe_title title /\
  Forall (fun c => is_word c = true) (safe_title title) /\
  Forall (fun c => (c < 128)%N -> ascii_word c = true) (safe_title title) /\
  filename title = safe_title title ++ str ".mp4".
Proof.
  pose proof (safe_title_clean title) as Hclean.
  split; [now apply safe_title_id|].
  split; [eapply Forall_impl; [exact Hclean|]; apply clean_word|].
  split; [|reflexivity].
  eapply Forall_impl; [exact Hclean|].
  intros c Hc Hlt. apply is_word_ascii; [exact Hlt | now apply clean_word].
Qed.

(** C3 as stated fails: a letter with a diacritic is alphanumeric, so it
    is kept, and it is outside [[A-Za-z0-9_]]. *)
Lemma safe_title_not_ascii_counterexample :
  let title := str "S" ++ [233%N] ++ str "ance 12h00" in
  @filename latin1 title = str "S" ++ [233%N] ++ str "ance_12h00.mp4" /\
  ~ Forall (fun c => ascii_word c = true) (@safe_title latin1 title).
Proof.
  split; [reflexivity|].
  intros Hall. rewrite List.Forall_forall in Hall.
  specialize (Hall 233%N).
  assert (Hin : In 233%N
            (@safe_title latin1 (str "S" ++ [233%N] ++ str "ance 12h00"))).
  { vm_compute. tauto. }
  specialize (Hall Hin). discriminate Hall.
Qed.

(** ** The time pattern *)

Section Pattern.
Context `{UnicodeDB}.

Lemma todecimal_h : todecimal 104 = None.
Proof. reflexivity. Qed.

Lemma match_minute_Some (s : pystr) (m : N) :
  match_minute s = Some m <->
  exists m1 m2 rest, s = 104%N :: m1 :: m2 :: rest /\ int2 m1 m2 = Some m.
Proof.
  split.
  - destruct s as [|c [|m1 [|m2 rest]]]; simpl; try discriminate.
    destruct (N.eqb_spec c 104); [|discriminate].
    intros Hm. subst c. eauto.
  - intros (m1 & m2 & rest & -> & Hm). simpl. exact Hm.
Qed.

Lemma match_here_pattern (s : pystr) (hour minute : N) :
  match_here s = Some (hour, minute) <-> pattern_at s hour minute.
Proof.
  split.
  - destruct s as [|h1 s1]; simpl; [discriminate|].
    destruct (todecimal h1) as [a|] eqn:Ha; [|discriminate].
    destruct s1 as [|h2 s2].
    + simpl. discriminate.
    + destruct (todecimal h2) as [b|] eqn:Hb.
      * destruct (match_minute s2) as [m|] eqn:Hm.
        -- intros [= <- <-].
           apply match_minute_Some in Hm as (m1 & m2 & rest & -> & Hm).
           now constructor.
        -- destruct (match_minute (h2 :: s2)) as [m|] eqn:Hm'; [|discriminate].
           apply match_minute_Some in Hm' as (m1 & m2 & rest & [= -> ->] & _).
           rewrite todecimal_h in Hb. discriminate.
      * destruct (match_minute (h2 :: s2)) as [m|] eqn:Hm'; [|discriminate].
        intros [= <- <-].
        apply match_minute_Some in Hm' as (m1 & m2 & rest & [= -> ->] & Hm).
        now constructor.
  - intros Hp. destruct Hp as [h m1 m2 rest a m Ha Hm|h1 h2 m1 m2 rest a b m Ha Hb Hm].
    + cbn [match_here]. rewrite Ha, todecimal_h.
      cbn [match_minute]. rewrite N.eqb_refl, Hm. reflexivity.
    + cbn [match_here]. rewrite Ha, Hb.
      cbn [match_minute]. rewrite N.eqb_refl, Hm. reflexivity.
Qed.

Lemma search_Some (s : pystr) (r : N * N) :
  search s = Some r <->
  exists i, match_here (drop i s) = Some r /\
            forall j, (j < i)%nat -> match_here (drop j s) = None.
Proof.
  induction s as [|c s IH].
  - simpl. split; [discriminate|].
    intros (i & Hi & _). rewrite drop_nil in Hi. discriminate.
  - cbn [search]. destruct (match_here (c :: s)) as [r'|] eqn:Hhere.
    + split.
      * intros [= <-]. exists O. split; [exact Hhere | lia].
      * intros (i & Hi & Hbefore). destruct i as [|i].
        -- rewrite drop_0 in Hi. congruence.
        -- specialize (Hbefore O ltac:(lia)). rewrite drop_0 in Hbefore. congruence.
    + rewrite IH. split.
      * intros (i & Hi & Hbefore). exists (S i). split; [exact Hi|].
        intros [|j] Hj; [exact Hhere|]. apply Hbefore. lia.
      * intros (i & Hi & Hbefore). destruct i as [|i].
        -- rewrite drop_0 in Hi. congruence.
        -- exists i. split; [exact Hi|].
           intros j Hj. apply (Hbefore (S j)). lia.
Qed.

Lemma search_None (s : pystr) :
  search s = None <-> forall i, match_here (drop i s) = None.
Proof.
  induction s as [|c s IH].
  - simpl. split; [|reflexivity]. intros _ i. now rewrite drop_nil.
  - cbn [search]. destruct (match_here (c :: s)) as [r'|] eqn:Hhere.
    + split; [discriminate|]. intros Hall. specialize (Hall O). rewrite drop_0 in Hall. congruence.
    + rewrite IH. split.
      * intros Hall [|i]; [exact Hhere | apply Hall].
      * intros Hall i. apply (Hall (S i)).
Qed.

Lemma match_here_None (s : pystr) :
  match_here s = None <-> forall hour minute, ~ pattern_at s hour minute.
Proof.
  split.
  - intros Hn hour minute Hp. apply match_here_pattern in Hp. congruence.
  - intros Hall. destruct (match_here s) as [[hour minute]|] eqn:Hm; [|reflexivity].
    apply match_here_pattern in Hm. now apply Hall in Hm.
Qed.

Lemma search_first_occurrence (title : pystr) (hour minute : N) :
  search title = Some (hour, minute) <-> first_occurrence title hour minute.
Proof.
  rewrite search_Some. unfold first_occurrence, occurrence.
  split; intros (i & Hi & Hbefore); exists i.
  - split; [now apply match_here_pattern|].
    intros j hour' minute' Hj. specialize (Hbefore j Hj).
    rewrite match_here_None in Hbefore. apply Hbefore.
  - split; [now apply match_here_pattern|].
    intros j Hj. apply match_here_None. intros hour' minute'. now apply Hbefore.
Qed.

Lemma search_no_occurrence (title : pystr) :
  search title = None <-> no_occurrence title.
Proof.
  rewrite search_None. unfold no_occurrence, occurrence.
  split; intros Hall i.
  - now apply match_here_None.
  - apply match_here_None. apply Hall.
Qed.

Lemma keeps_spec (title : pystr) :
  keeps title = true <->
  no_occurrence title \/
  exists hour minute,
    first_occurrence title hour minute /\
    (1200 <= hour * 100 + minute <= 1330)%N.
Proof.
  unfold keeps. destruct (search title) as [[hour minute]|] eqn:Hs.
  - apply search_first_occurrence in Hs as Hfirst. split.
    + intros Hw. right. exists hour, minute. split; [exact Hfirst|].
      unfold in_window in Hw. apply andb_true_iff in Hw as [Hlo Hhi].
      apply N.leb_le in Hlo, Hhi. lia.
    + intros [Hnone | (hour' & minute' & Hfirst' & Hrange)].
      * apply search_no_occurrence in Hnone. congruence.
      * apply search_first_occurrence in Hfirst'.
        assert (hour' = hour /\ minute' = minute) as [-> ->] by (split; congruence).
        unfold in_window. apply andb_true_iff. split; apply N.leb_le; lia.
  - split; [|reflexivity]. intros _. left. now apply search_no_occurrence.
Qed.

End Pattern.

(** ** Symbolic execution *)

(** Unfolds the operations of the monad and of [World], and nothing of
    the data: the worlds it is applied to are written out as records. *)
Ltac mred :=
  cbv beta iota zeta delta
    [bind ret raise try_except try_finally get_world modify_world emit log
     await set_dom set_headless set_playwright set_browser set_context
     set_page write_file append_file with_trace with_fs with_dom
     with_headless with_playwright with_browser with_context with_page
     self_headless self_playwright self_browser self_context self_page
     dom fs trace fst snd
     videos_centers videos_courts videos_days sheet_close
     with_centers with_courts with_days].

(** Closes a goal [(r, w') = (?r, W)] where [W] is [w] with a longer
    trace and another disk, after symbolic execution. *)
Ltac same_world :=
  mred; rewrite <- ?app_assoc; cbn [app]; reflexivity.

(** Closes the goal of a run lemma at the end of one path. *)
Ltac finish_run :=
  eexists _, _, _; split; [same_world|]; split; [reflexivity|];
  cbn [is_none andb negb orb]; eauto.

Ltac finish_click :=
  eexists _, _; split; [same_world|]; split; [reflexivity|];
  cbn [is_none andb]; eauto.

Ltac finish_direct :=
  eexists _, _, _; split; [same_world|]; split; [reflexivity|];
  split; [reflexivity|];
  cbn [is_none andb negb orb]; eauto.

(** ** The three download strategies *)

Section Fallback.
Context `{UnicodeDB} (E : Env) (C : Config).

Lemma with_fs_id (w : World) : with_fs w (fs w) = w.
Proof. now destruct w. Qed.

Lemma write_chunks_run
    (path : pystr) (cs : list bytes) (w : World) (c0 : bytes) :
  fs w !! path = Some c0 ->
  write_chunks path cs w
  = (Ok tt, with_fs w (<[path := c0 ++ concat cs]> (fs w))).
Proof.
  revert w c0.
  induction cs as [|chunk cs IH]; intros [hl pw br cx pg d disk tr] c0 Hc0;
    cbn [fs] in Hc0.
  - mred. cbn [write_chunks concat]. mred.
    now rewrite app_nil_r, insert_id by exact Hc0.
  - cbn [write_chunks]. destruct chunk as [|b chunk].
    + mred. rewrite (IH _ c0) by exact Hc0. reflexivity.
    + mred. rewrite Hc0. cbn [default].
      rewrite (IH _ (c0 ++ b :: chunk)) by apply lookup_insert_eq.
      mred. rewrite insert_insert_eq. cbn [concat]. now rewrite <- app_assoc.
Qed.

Lemma strategies_tried_app (l1 l2 : list event) :
  strategies_tried (l1 ++ l2) = strategies_tried l1 ++ strategies_tried l2.
Proof. apply omap_app. Qed.

Lemma http_error_split (r : Response) :
  http_error r =
  ((400 <=? status_code r) && (status_code r <? 500))%N
  || ((500 <=? status_code r) && (status_code r <? 600))%N.
Proof.
  unfold http_error.
  destruct (N.leb_spec 400 (status_code r)), (N.ltb_spec (status_code r) 500),
    (N.leb_spec 500 (status_code r)), (N.ltb_spec (status_code r) 600);
    cbn; try reflexivity; lia.
Qed.

Lemma direct_download_run
    (a : nat) (v : VideoRecord) (url path fname : pystr) (w : World) :
  exists r evs disk,
    direct_download E a v url path fname w
    = (r, with_fs (with_trace w (trace w ++ evs)) disk) /\
    strategies_tried evs = [Direct] /\
    existsb is_warning evs = false /\
    if direct_succeeds E a v path
    then r = Ok true /\
         disk = <[path := concat (chunks (response E a v))]> (fs w)
    else exists e, r = Raise e.
Proof.
  destruct w as [hl pw br cx pg d disk tr].
  unfold direct_download, direct_succeeds, raise_for_status.
  rewrite http_error_split. mred.
  destruct (raises E a (HttpGet v)) as [e|] eqn:Hget; mred; [finish_direct|].
  destruct (_ && (status_code (response E a v) <? 500))%N eqn:H4; mred;
    [finish_direct|].
  destruct (_ && (status_code (response E a v) <? 600))%N eqn:H5; mred;
    [finish_direct|].
  destruct (raises E a (OpenWb v path)) as [e|] eqn:Hopen; mred;
    [finish_direct|].
  erewrite write_chunks_run by apply lookup_insert_eq. mred.
  rewrite insert_insert_eq. cbn [app].
  destruct (stream_error (response E a v)) as [e|] eqn:Hstream; mred;
    finish_direct.
Qed.

Lemma browser_download_run
    (a : nat) (v : VideoRecord) (path fname : pystr) (w : World) :
  exists r evs disk,
    browser_download E a v path fname w
    = (r, with_fs (with_trace w (trace w ++ evs)) disk) /\
    strategies_tried evs = [BrowserNative] /\
    if browser_succeeds E a v path
    then r = Ok true /\ disk = <[path := download_body E a v]> (fs w)
    else exists e, r = Raise e.
Proof.
  destruct w as [hl pw br cx pg d disk tr].
  unfold browser_download, browser_succeeds. mred.
  destruct (raises E a (SetHeaders v)) as [e|] eqn:Hset; mred.
  { finish_run. }
  destruct (downloadUrl v) as [u|] eqn:Hurl; mred.
  2: { finish_run. }
  destruct (raises E a (ExpectDownload v)) as [e|] eqn:Hexp; mred.
  { finish_run. }
  destruct (raises E a (SaveAs v path)) as [e|] eqn:Hsave; mred.
  { finish_run. }
  finish_run.
Qed.

Lemma click_download_run (a : nat) (v : VideoRecord) (w : World) :
  exists r evs,
    click_download E a v w = (r, with_trace w (trace w ++ evs)) /\
    strategies_tried evs = [ClickTrigger] /\
    (r = Ok (click_succeeds E a v) \/
     click_succeeds E a v = false /\ exists e, r = Raise e).
Proof.
  destruct w as [hl pw br cx pg d disk tr].
  unfold click_download, click_succeeds. mred.
  destruct (raises E a (GotoListing v)) as [e|] eqn:Hgoto; mred;
    [finish_click|].
  destruct (raises E a (EvalClick v)) as [e|] eqn:Heval; mred;
    [finish_click|].
  destruct (click_result E a v) eqn:Hres; mred; finish_click.
Qed.

End Fallback.

(** ** The chain of strategies *)

Lemma first_success_false (ok : strategy -> bool) (l tried : list strategy) :
  first_success ok l = (tried, false) ->
  tried = l /\ forall s, In s l -> ok s = false.
Proof.
  revert tried. induction l as [|s l IH]; intros tried; simpl.
  - intros [= <-]. split; [reflexivity | intros s []].
  - destruct (ok s) eqn:Hs; [discriminate|].
    destruct (first_success ok l) as [tried' b] eqn:Hl.
    intros [= <- ->]. destruct (IH tried' eq_refl) as [-> Hall].
    split; [reflexivity|]. intros s' [<- | Hin]; [exact Hs | now apply Hall].
Qed.

Lemma first_success_true (ok : strategy -> bool) (l tried : list strategy) :
  first_success ok l = (tried, true) ->
  exists before s after,
    l = before ++ s :: after /\ tried = before ++ [s] /\
    ok s = true /\ forall s', In s' before -> ok s' = false.
Proof.
  revert tried. induction l as [|s l IH]; intros tried; simpl; [discriminate|].
  destruct (ok s) eqn:Hs.
  - intros [= <-]. exists [], s, l. repeat split; try reflexivity; [exact Hs|].
    intros s' [].
  - destruct (first_success ok l) as [tried' b] eqn:Hl.
    intros [= <- ->].
    destruct (IH tried' eq_refl)
      as (before & s0 & after & -> & -> & Hs0 & Hbefore).
    exists (s :: before), s0, after.
    repeat split; try reflexivity; [exact Hs0|].
    intros s' [<- | Hin]; [exact Hs | now apply Hbefore].
Qed.

Section FallbackChain.
Context `{UnicodeDB} (E : Env) (C : Config).

Ltac use_run :=
  match goal with
  | |- context [direct_download E ?a ?v ?u ?p ?f ?w] =>
      destruct (direct_download_run E a v u p f w)
        as (r1 & evs1 & disk1 & Hrun1 & Htried1 & Hquiet1 & Hres1);
      rewrite Hrun1
  | |- context [browser_download E ?a ?v ?p ?f ?w] =>
      destruct (browser_download_run E a v p f w)
        as (r2 & evs2 & disk2 & Hrun2 & Htried2 & Hres2); rewrite Hrun2
  | |- context [click_download E ?a ?v ?w] =>
      destruct (click_download_run E a v w)
        as (r3 & evs3 & Hrun3 & Htried3 & Hres3); rewrite Hrun3
  end.

Lemma strategies_tried_cons (e : event) (l : list event) :
  strategies_tried (e :: l) =
  match strategy_of e with
  | Some s => s :: strategies_tried l
  | None => strategies_tried l
  end.
Proof. reflexivity. Qed.

Lemma strategies_tried_nil : strategies_tried [] = [].
Proof. reflexivity. Qed.

Ltac tried_simpl :=
  repeat (rewrite strategies_tried_cons || rewrite strategies_tried_app
          || rewrite strategies_tried_nil);
  cbn [strategy_of app].

Ltac finish_chain :=
  eexists _, _, _; split; [same_world|];
  tried_simpl;
  repeat match goal with H : strategies_tried _ = _ |- _ => rewrite H end;
  cbn [first_success succeeds app];
  repeat match goal with H : _ = true |- _ => rewrite H
                       | H : _ = false |- _ => rewrite H end;
  cbn [first_success succeeds app];
  repeat match goal with H : _ = true |- _ => rewrite H
                       | H : _ = false |- _ => rewrite H end;
  cbn [first_success succeeds app];
  repeat match goal with H : _ = true |- _ => rewrite H
                       | H : _ = false |- _ => rewrite H end;
  try reflexivity.

(** [download_video] never raises, and follows the chain. *)
Lemma download_video_fallback
    (a : nat) (v : VideoRecord) (date_str : pystr) (w : World) :
  let folder := path_join (download_dir C) date_str in
  let path := path_join folder (filename (title v)) in
  exists b evs disk,
    download_video E C a v date_str w
    = (Ok b, with_fs (with_trace w (trace w ++ evs)) disk) /\
    match raises E a (Mkdir folder) with
    | Some _ => strategies_tried evs = [] /\ b = false
    | None =>
        (strategies_tried evs, b)
        = first_success (succeeds E a v path) (available v)
    end.
Proof.
  intros folder path. destruct w as [hl pw br cx pg d disk tr].
  unfold download_video. mred. fold folder. fold path.
  destruct (raises E a (Mkdir folder)) as [e|] eqn:Hmk; mred.
  { eexists _, _, _. split; [same_world|]. split; reflexivity. }
  unfold available.
  destruct (py_or (directUrl v) (videoSrc v)) as [[|c u]|] eqn:Hurl;
    cbn [truthy app]; mred.
  - use_run.
    destruct (browser_succeeds E a v path) eqn:Hb.
    + destruct Hres2 as [-> ->]. mred. finish_chain.
    + destruct Hres2 as [e ->]. mred. use_run.
      destruct Hres3 as [-> | [Hc [e3 ->]]]; mred.
      * destruct (click_succeeds E a v) eqn:Hc; finish_chain.
      * finish_chain.
  - use_run.
    destruct (direct_succeeds E a v path) eqn:Hd.
    + destruct Hres1 as [-> ->]. mred. finish_chain.
    + destruct Hres1 as [e1 ->]. mred. use_run.
      destruct (browser_succeeds E a v path) eqn:Hb.
      * destruct Hres2 as [-> ->]. mred. finish_chain.
      * destruct Hres2 as [e ->]. mred. use_run.
        destruct Hres3 as [-> | [Hc [e3 ->]]]; mred.
        -- destruct (click_succeeds E a v) eqn:Hc; finish_chain.
        -- finish_chain.
  - use_run.
    destruct (browser_succeeds E a v path) eqn:Hb.
    + destruct Hres2 as [-> ->]. mred. finish_chain.
    + destruct Hres2 as [e ->]. mred. use_run.
      destruct Hres3 as [-> | [Hc [e3 ->]]]; mred.
      * destruct (click_succeeds E a v) eqn:Hc; finish_chain.
      * finish_chain.
Qed.
End FallbackChain.

(** ** Computations inside the session *)

Lemma session_calls_app (l1 l2 : list event) :
  session_calls (l1 ++ l2) = session_calls l1 ++ session_calls l2.
Proof. apply omap_app. Qed.

Section Frames.
Context `{UnicodeDB} (E : Env) (C : Config).

Lemma inner_ret {A} (a : A) : inner (ret a).
Proof.
  intros [hl pw br cx pg d disk tr]. exists (Ok a), [], d, disk.
  split; [|reflexivity]. mred. now rewrite app_nil_r.
Qed.

Lemma inner_raise {A} (e : pystr) : inner (@raise A e).
Proof.
  intros [hl pw br cx pg d disk tr]. exists (Raise e), [], d, disk.
  split; [|reflexivity]. mred. now rewrite app_nil_r.
Qed.

Lemma inner_bind {A B} (m : M A) (k : A -> M B) :
  inner m -> (forall a, inner (k a)) -> inner (bind m k).
Proof.
  intros Hm Hk w. destruct (Hm w) as (r & evs & d & disk & Hrun & Hs).
  unfold bind. rewrite Hrun. destruct r as [a|e].
  - destruct (Hk a (with_fs (with_dom (with_trace w (trace w ++ evs)) d) disk))
      as (r' & evs' & d' & disk' & Hrun' & Hs').
    rewrite Hrun'. exists r', (evs ++ evs'), d', disk'. split.
    + destruct w. mred. now rewrite app_assoc.
    + now rewrite session_calls_app, Hs, Hs'.
  - exists (Raise e), evs, d, disk. now split.
Qed.

Lemma inner_try_except {A} (m : M A) (h : pystr -> M A) :
  inner m -> (forall e, inner (h e)) -> inner (try_except m h).
Proof.
  intros Hm Hh w. destruct (Hm w) as (r & evs & d & disk & Hrun & Hs).
  unfold try_except. rewrite Hrun. destruct r as [a|e].
  - exists (Ok a), evs, d, disk. now split.
  - destruct (Hh e (with_fs (with_dom (with_trace w (trace w ++ evs)) d) disk))
      as (r' & evs' & d' & disk' & Hrun' & Hs').
    rewrite Hrun'. exists r', (evs ++ evs'), d', disk'. split.
    + destruct w. mred. now rewrite app_assoc.
    + now rewrite session_calls_app, Hs, Hs'.
Qed.

Lemma inner_emit (e : event) : session_call_of e = None -> inner (emit e).
Proof.
  intros He [hl pw br cx pg d disk tr]. exists (Ok tt), [e], d, disk.
  split; [reflexivity|]. unfold session_calls. cbn. now rewrite He.
Qed.

Lemma inner_log (lv : level) (msg : pystr) : inner (log lv msg).
Proof. now apply inner_emit. Qed.

Lemma inner_await (a : nat) (c : call) :
  is_session_call c = false -> inner (await E a c).
Proof.
  intros Hc. unfold await. apply inner_bind.
  - apply inner_emit. cbn. now rewrite Hc.
  - intros _. destruct (raises E a c); [apply inner_raise | apply inner_ret].
Qed.

Lemma inner_with_world {A} (k : World -> M A) :
  (forall w, inner (k w)) -> inner (bind get_world k).
Proof.
  intros Hk w. destruct (Hk w w) as (r & evs & d & disk & Hrun & Hs).
  exists r, evs, d, disk. split; [|exact Hs]. exact Hrun.
Qed.

Lemma inner_set_dom (d : Dom) : inner (set_dom d).
Proof.
  intros [hl pw br cx pg d0 disk tr]. exists (Ok tt), [], d, disk.
  split; [|reflexivity]. mred. now rewrite app_nil_r.
Qed.

Lemma inner_write_file (path : pystr) (content : bytes) :
  inner (write_file path content).
Proof.
  intros [hl pw br cx pg d0 disk tr].
  exists (Ok tt), [], d0, (<[path := content]> disk).
  split; [|reflexivity]. mred. now rewrite app_nil_r.
Qed.

End Frames.

(** The functions of the program that are [inner]. *)
Create HintDb inner discriminated.

(** Decomposes a computation along its binds, handlers and branches;
    the functions it calls are looked up in the database. *)
Ltac inner_tac :=
  repeat first
    [ assumption
    | solve [auto 1 with inner nocore]
    | progress cbv beta iota zeta
    | lazymatch goal with
      | |- inner (ret _) => apply inner_ret
      | |- inner (raise _) => apply inner_raise
      | |- inner (log _ _) => apply inner_log
      | |- inner (emit _) => apply inner_emit; reflexivity
      | |- inner (set_dom _) => apply inner_set_dom
      | |- inner (write_file _ _) => apply inner_write_file
      | |- inner (await _ _ _) => apply inner_await; reflexivity
      | |- inner (bind get_world _) => apply inner_with_world; intros ?
      | |- inner (bind _ _) => apply inner_bind; [|intros ?]
      | |- inner (try_except _ _) => apply inner_try_except; [|intros ?]
      | |- inner (match ?x with _ => _ end) => destruct x
      end ].

Section InnerFunctions.
Context `{UnicodeDB} (E : Env) (C : Config).

Lemma inner_login (a : nat) (url : pystr) : inner (login E C a url).
Proof. unfold login. inner_tac. Qed.

Lemma inner_select_filters (a : nat) : inner (select_filters E a).
Proof.
  unfold select_filters, script_set_center, script_set_court, script_set_date,
    script_click_ok, get_previous_wednesday_at.
  inner_tac.
Qed.

Lemma inner_filter_by_time (vs acc : list VideoRecord) :
  inner (filter_by_time vs acc).
Proof.
  revert acc. induction vs as [|v vs IH]; intros acc; cbn [filter_by_time].
  - inner_tac.
  - unfold filter_one. inner_tac.
Qed.

#[local] Hint Resolve inner_filter_by_time : inner.

Lemma inner_get_video_links (a : nat) : inner (get_video_links E a).
Proof. unfold get_video_links. inner_tac. Qed.

End InnerFunctions.

#[local] Hint Resolve inner_login inner_select_filters inner_filter_by_time
  inner_get_video_links : inner.

(** Symbolic execution: reduce, then split on the next decision of the
    environment. *)
Ltac mexec :=
  mred;
  try match goal with
  | |- context [match raises ?E ?a ?c with _ => _ end] =>
      destruct (raises E a c) eqn:?; mexec
  | |- context [match get_previous_wednesday ?t with _ => _ end] =>
      destruct (get_previous_wednesday t) eqn:?; mexec
  | |- context [match ?x with Some _ => _ | None => _ end] =>
      is_var x; destruct x; mexec
  | |- context [if ?b then _ else _] =>
      lazymatch b with
      | true => fail
      | false => fail
      | _ => destruct b eqn:?; mexec
      end
  end.

Section Results.
Context `{UnicodeDB} (E : Env) (C : Config).

Lemma login_returns (a : nat) (url : pystr) :
  returns (login E C a url) (Ok (login_succeeds E a)).
Proof.
  intros [hl pw br cx pg d disk tr].
  unfold login, login_succeeds, quiet, login_calls. cbn [forallb].
  mexec; reflexivity.
Qed.

Lemma select_filters_returns (a : nat) :
  returns (select_filters E a) (Ok (filters_succeed E a)).
Proof.
  intros [hl pw br cx pg [vc vco vd sc] disk tr].
  unfold select_filters, filters_succeed, quiet, filter_calls,
    script_set_center, script_set_court, script_set_date, script_click_ok,
    get_previous_wednesday_at.
  cbn [forallb].
  mexec; reflexivity.
Qed.

End Results.

Section Composition.

Lemma returns_ret {A} (a : A) : returns (ret a) (Ok a).
Proof. now intros w. Qed.

Lemma returns_bind {A B} (m : M A) (k : A -> M B) (a : A) (r : outcome B) :
  returns m (Ok a) -> returns (k a) r -> returns (bind m k) r.
Proof.
  intros Hm Hk w. unfold bind. specialize (Hm w).
  destruct (m w) as [o w']. cbn in Hm. subst o. apply Hk.
Qed.

Lemma returns_bind_raise {A B} (m : M A) (k : A -> M B) (e : pystr) :
  returns m (Raise e) -> returns (bind m k) (Raise e).
Proof.
  intros Hm w. unfold bind. specialize (Hm w).
  destruct (m w) as [o w']. cbn in Hm. now subst o.
Qed.

Lemma returns_bind_any {A B} (m : M A) (k : A -> M B) (r : outcome B) :
  never_raises m -> (forall a, returns (k a) r) -> returns (bind m k) r.
Proof.
  intros Hm Hk w. unfold bind. destruct (Hm w) as [a Ha].
  destruct (m w) as [o w']. cbn in Ha. subst o. apply Hk.
Qed.

Lemma returns_never_raises {A} (m : M A) (a : A) :
  returns m (Ok a) -> never_raises m.
Proof. intros Hm w. exists a. apply Hm. Qed.

Lemma never_raises_bind {A B} (m : M A) (k : A -> M B) :
  never_raises m -> (forall a, never_raises (k a)) -> never_raises (bind m k).
Proof.
  intros Hm Hk w. unfold bind. destruct (Hm w) as [a Ha].
  destruct (m w) as [o w']. cbn in Ha. subst o. apply Hk.
Qed.

Lemma never_raises_try_except {A} (m : M A) (h : pystr -> M A) :
  (forall e, never_raises (h e)) -> never_raises (try_except m h).
Proof.
  intros Hh w. unfold try_except. destruct (m w) as [[a|e] w'].
  - now exists a.
  - apply Hh.
Qed.

Lemma returns_log (lv : level) (msg : pystr) : returns (log lv msg) (Ok tt).
Proof. now intros w. Qed.

Lemma returns_set_dom (d : Dom) : returns (set_dom d) (Ok tt).
Proof. now intros w. Qed.

End Composition.

Section Lister.
Context `{UnicodeDB} (E : Env) (C : Config).

Lemma filter_one_run (video : VideoRecord) (acc : list VideoRecord) (w : World) :
  filter_one video acc w =
  (Ok (acc ++ List.filter (fun v => keeps (title v)) [video]),
   with_trace w (trace w ++ [filter_event video])).
Proof.
  destruct w as [hl pw br cx pg d disk tr].
  unfold filter_one, filter_event, keeps. cbn [List.filter].
  destruct (search (title video)) as [[hour minute]|]; mred.
  - destruct (in_window hour minute); mred; [reflexivity|].
    now rewrite app_nil_r.
  - reflexivity.
Qed.

Lemma filter_by_time_run (vs acc : list VideoRecord) (w : World) :
  filter_by_time vs acc w =
  (Ok (acc ++ List.filter (fun v => keeps (title v)) vs),
   with_trace w (trace w ++ map filter_event vs)).
Proof.
  revert acc w. induction vs as [|v vs IH]; intros acc w.
  - destruct w. cbn [filter_by_time List.filter map]. mred.
    now rewrite !app_nil_r.
  - cbn [filter_by_time]. unfold bind. rewrite filter_one_run, IH.
    destruct w as [hl pw br cx pg d disk tr]. mred.
    cbn [List.filter map]. rewrite <- !app_assoc.
    destruct (keeps (title v)); reflexivity.
Qed.

Lemma get_video_links_run (a : nat) (w : World) :
  quiet E a [WaitCards; EvalScrape] = true ->
  get_video_links E a w =
  (Ok (listing E a), with_trace w (trace w ++ scrape_events E a)).
Proof.
  intros Hq. unfold scrape_events, listing. rewrite Hq.
  cbn [quiet forallb] in Hq.
  apply andb_true_iff in Hq as [H1 [H2 _]%andb_true_iff].
  destruct (raises E a WaitCards) eqn:Hw; [discriminate|].
  destruct (raises E a EvalScrape) eqn:Hs; [discriminate|].
  destruct w as [hl pw br cx pg d disk tr].
  unfold get_video_links. mred. rewrite Hw. mred. rewrite Hs. mred.
  rewrite filter_by_time_run. mred. now rewrite <- !app_assoc.
Qed.

Lemma get_video_links_returns (a : nat) :
  returns (get_video_links E a) (Ok (listing E a)).
Proof.
  intros w. destruct (quiet E a [WaitCards; EvalScrape]) eqn:Hq.
  - now rewrite get_video_links_run.
  - unfold listing. rewrite Hq. cbn [quiet forallb] in Hq.
    destruct w as [hl pw br cx pg d disk tr].
    unfold get_video_links. mred.
    destruct (raises E a WaitCards) eqn:Hw; mred; [reflexivity|].
    destruct (raises E a EvalScrape) eqn:Hs; mred; [reflexivity|].
    discriminate.
Qed.

End Lister.

Section Session.
Context `{UnicodeDB} (E : Env) (C : Config).

Lemma setup_browser_run (a : nat) (w : World) :
  let run := run_calls E a (open_calls (self_headless w)) in
  setup_browser E a w =
  (result_of tt (snd run),
   with_trace (with_handles w a (completed run)) (trace w ++ map Call (fst run))).
Proof.
  destruct w as [hl pw br cx pg d disk tr].
  unfold setup_browser, open_calls. cbn [run_calls self_headless].
  mred.
  destruct (raises E a PlaywrightStart); mred; [reflexivity|].
  destruct (raises E a (Launch hl)); mred;
    [now rewrite <- !app_assoc|].
  destruct (raises E a NewContext); mred;
    [now rewrite <- !app_assoc|].
  destruct (raises E a NewPage); mred; now rewrite <- !app_assoc.
Qed.

Lemma close_browser_run (a : nat) (w : World) :
  let run := run_calls E a (teardown_plan w) in
  close_browser E a w =
  (result_of tt (snd run), with_trace w (trace w ++ map Call (fst run))).
Proof.
  destruct w as [hl pw br cx pg d disk tr].
  unfold close_browser, teardown_plan. cbn [self_page self_context self_browser self_playwright].
  destruct pg as [p|], cx as [c|], br as [b|], pw as [q|];
    cbn [app run_calls]; mred;
    repeat match goal with
    | |- context [raises E a ?c] => destruct (raises E a c); mred
    end;
    rewrite <- ?app_assoc, ?app_nil_r; reflexivity.
Qed.

End Session.

Section Attempt.
Context `{UnicodeDB} (E : Env) (C : Config).

Lemma inner_write_chunks (path : pystr) (cs : list bytes) :
  inner (write_chunks path cs).
Proof.
  induction cs as [|chunk cs IH]; cbn [write_chunks]; [apply inner_ret|].
  unfold append_file. inner_tac.
Qed.

#[local] Hint Resolve inner_write_chunks : inner.

Lemma inner_download_video (a : nat) (v : VideoRecord) (date_str : pystr) :
  inner (download_video E C a v date_str).
Proof.
  unfold download_video, direct_download, browser_download, click_download,
    raise_for_status.
  inner_tac.
Qed.

#[local] Hint Resolve inner_download_video : inner.

Lemma inner_download_each (a : nat) (vs : list VideoRecord) (date_str : pystr)
    (n : nat) :
  inner (download_each E C a vs date_str n).
Proof.
  revert n. induction vs as [|v vs IH]; intros n; cbn [download_each].
  - apply inner_ret.
  - inner_tac.
Qed.

#[local] Hint Resolve inner_download_each : inner.

Lemma inner_session_body (a : nat) : inner (session_body E C a).
Proof.
  unfold session_body, get_previous_wednesday_at.
  inner_tac.
Qed.

Lemma never_raises_download_video (a : nat) (v : VideoRecord) (date_str : pystr) :
  never_raises (download_video E C a v date_str).
Proof.
  unfold download_video. apply never_raises_try_except. intros e.
  apply never_raises_bind; [|intros _].
  - eapply returns_never_raises, returns_log.
  - eapply returns_never_raises, returns_ret.
Qed.

Lemma never_raises_download_each (a : nat) (vs : list VideoRecord)
    (date_str : pystr) (n : nat) :
  never_raises (download_each E C a vs date_str n).
Proof.
  revert n. induction vs as [|v vs IH]; intros n; cbn [download_each].
  - eapply returns_never_raises, returns_ret.
  - apply never_raises_bind; [apply never_raises_download_video|].
    intros ok. apply IH.
Qed.

Lemma returns_await (a : nat) (c : call) :
  returns (await E a c) (result_of tt (raises E a c)).
Proof.
  intros [hl pw br cx pg d disk tr]. unfold await. mred.
  now destruct (raises E a c).
Qed.

Lemma session_body_returns (a : nat) :
  returns (session_body E C a) (session_result E a).
Proof.
  unfold session_body, session_result.
  pose proof (returns_await a GotoLogin) as Hlogin.
  destruct (raises E a GotoLogin) as [e|];
    [now apply returns_bind_raise|].
  eapply returns_bind; [exact Hlogin|].
  eapply returns_bind; [apply login_returns|].
  destruct (login_succeeds E a); cbn [negb]; [|apply returns_ret].
  pose proof (returns_await a GotoVideos) as Hvideos.
  destruct (raises E a GotoVideos) as [e|];
    [now apply returns_bind_raise|].
  eapply returns_bind; [exact Hvideos|].
  eapply returns_bind; [apply returns_set_dom|].
  eapply returns_bind; [apply select_filters_returns|].
  destruct (filters_succeed E a); cbn [negb]; [|apply returns_ret].
  eapply returns_bind; [apply get_video_links_returns|].
  destruct (listing E a) as [|v vs].
  - eapply returns_bind; [apply returns_log | apply returns_ret].
  - unfold get_previous_wednesday_at.
    destruct (get_previous_wednesday (now E a InDownloadVideos)) as [date|].
    + eapply returns_bind; [apply returns_ret|].
      apply returns_bind_any; [apply never_raises_download_each|].
      intros n. eapply returns_bind; [apply returns_log | apply returns_ret].
    + apply returns_bind_raise. now intros w.
Qed.

End Attempt.

Section AttemptRun.
Context `{UnicodeDB} (E : Env) (C : Config).

Lemma run_calls_forallb (P : call -> bool) (a : nat) (cs : list call) :
  forallb P cs = true -> forallb P (fst (run_calls E a cs)) = true.
Proof.
  induction cs as [|c cs IH]; cbn [run_calls forallb]; [reflexivity|].
  intros [Hc Hcs]%andb_true_iff.
  destruct (raises E a c).
  - cbn. now rewrite Hc.
  - destruct (run_calls E a cs) as [made err]. cbn [fst forallb] in *.
    now rewrite Hc, IH.
Qed.

Lemma session_calls_map_Call (cs : list call) :
  forallb is_session_call cs = true -> session_calls (map Call cs) = cs.
Proof.
  induction cs as [|c cs IH]; cbn [forallb map]; [reflexivity|].
  intros [Hc Hcs]%andb_true_iff.
  unfold session_calls in *. cbn. rewrite Hc. cbn. now rewrite IH.
Qed.

Lemma teardown_plan_session (w : World) :
  forallb is_session_call (teardown_plan w) = true.
Proof.
  unfold teardown_plan.
  now destruct (self_page w), (self_context w), (self_browser w),
    (self_playwright w).
Qed.

Lemma retry_prelude_run (a : nat) (w : World) :
  exists evs,
    retry_prelude a w =
    (Ok tt,
     with_trace (with_headless w (attempt_mode a (self_headless w)))
       (trace w ++ evs)) /\
    session_calls evs = [].
Proof.
  destruct w as [hl pw br cx pg d disk tr].
  unfold retry_prelude, attempt_mode. cbn [self_headless].
  destruct (0 <? a)%nat; cbn [andb]; mred.
  - destruct hl; cbn [andb]; mred.
    + destruct (a =? max_retries)%nat; mred;
        eexists; (split; [rewrite <- ?app_assoc; reflexivity | reflexivity]).
    + eexists; (split; [rewrite <- ?app_assoc; reflexivity | reflexivity]).
  - exists []. now rewrite app_nil_r.
Qed.

Lemma attempt_body_run (a : nat) (w : World) :
  let mode := attempt_mode a (self_headless w) in
  let opening := run_calls E a (open_calls mode) in
  exists evs d disk,
    attempt_body E C a w
    = (match snd opening with
       | Some e => Raise e
       | None => session_result E a
       end,
       with_trace
         (with_fs (with_dom (with_handles (with_headless w mode) a
                               (completed opening)) d) disk)
         (trace w ++ evs)) /\
    session_calls evs = fst opening.
Proof.
  intros mode opening.
  destruct (retry_prelude_run a w) as (evs0 & Hpre & Hs0).
  unfold attempt_body.
  unfold bind at 1. rewrite Hpre.
  unfold bind at 1. rewrite setup_browser_run.
  assert (Hmode : self_headless
    (with_trace (with_headless w (attempt_mode a (self_headless w)))
       (trace w ++ evs0)) = mode) by now destruct w.
  rewrite Hmode. fold mode. fold opening.
  assert (Hopen : session_calls (map Call (fst opening)) = fst opening).
  { apply session_calls_map_Call, run_calls_forallb. reflexivity. }
  destruct (snd opening) as [e|] eqn:Herr; cbn [result_of].
  - exists (evs0 ++ map Call (fst opening)), (dom w), (fs w). split.
    + destruct w as [hl pw br cx pg d disk tr]. f_equal.
      cbn [trace]. rewrite (app_assoc tr). reflexivity.
    + now rewrite session_calls_app, Hs0, Hopen.
  - match goal with |- context [session_body E C a ?W] =>
      destruct (inner_session_body E C a W) as (r & evs1 & d1 & disk1 & Hrun & Hs1);
      pose proof (session_body_returns E C a W) as Hret
    end.
    rewrite Hrun in Hret |- *. cbn [fst] in Hret. subst r.
    exists (evs0 ++ map Call (fst opening) ++ evs1), d1, disk1. split.
    + destruct w as [hl pw br cx pg d disk tr]. f_equal.
      cbn [trace]. rewrite !app_assoc. reflexivity.
    + now rewrite !session_calls_app, Hs0, Hopen, Hs1, app_nil_r.
Qed.

Lemma attempt_guarded_run (a : nat) (w : World) :
  let mode := attempt_mode a (self_headless w) in
  let opening := run_calls E a (open_calls mode) in
  let c := match snd opening, session_result E a with
           | None, Ok c => c
           | _, _ => retry_or_return a false
           end in
  exists evs d disk,
    attempt_guarded E C a w
    = (Ok c,
       with_trace
         (with_fs (with_dom (with_handles (with_headless w mode) a
                               (completed opening)) d) disk)
         (trace w ++ evs)) /\
    session_calls evs = fst opening.
Proof.
  intros mode opening c.
  destruct (attempt_body_run a w) as (evs & d & disk & Hbody & Hs).
  fold mode opening in Hbody, Hs.
  unfold attempt_guarded, try_except. rewrite Hbody.
  assert (Hhandler : forall e W,
    exists evs',
      (log ERROR (str "Error in download process: " ++ e) ;;
       if (a <? max_retries)%nat then
         log INFO (str "Will retry... ("
                   ++ repr (N.of_nat (S a)) ++ str "/"
                   ++ repr (N.of_nat max_retries) ++ str ")") ;;
         ret (Continue (S a))
       else ret (Return false))%monad W
      = (Ok (retry_or_return a false), with_trace W (trace W ++ evs')) /\
      session_calls evs' = []).
  { intros e [hl pw br cx pg d0 disk0 tr]. unfold retry_or_return.
    destruct (a <? max_retries)%nat; mred;
      eexists; (split; [rewrite <- ?app_assoc; reflexivity | reflexivity]). }
  subst c. destruct (snd opening) as [e|].
  - destruct (Hhandler e (with_trace
         (with_fs (with_dom (with_handles (with_headless w mode) a
                               (completed opening)) d) disk)
         (trace w ++ evs))) as (evs' & Hh & Hs').
    rewrite Hh. exists (evs ++ evs'), d, disk. split.
    + f_equal. rewrite (app_assoc (trace w)). reflexivity.
    + now rewrite session_calls_app, Hs, Hs', app_nil_r.
  - destruct (session_result E a) as [c|e].
    + exists evs, d, disk. now split.
    + destruct (Hhandler e (with_trace
         (with_fs (with_dom (with_handles (with_headless w mode) a
                               (completed opening)) d) disk)
         (trace w ++ evs))) as (evs' & Hh & Hs').
      rewrite Hh. exists (evs ++ evs'), d, disk. split.
      * f_equal. rewrite (app_assoc (trace w)). reflexivity.
      * now rewrite session_calls_app, Hs, Hs', app_nil_r.
Qed.

Lemma attempt_run (a : nat) (w : World) :
  let mode := attempt_mode a (self_headless w) in
  let opening := run_calls E a (open_calls mode) in
  let c := match snd opening, session_result E a with
           | None, Ok c => c
           | _, _ => retry_or_return a false
           end in
  exists evs d disk,
    let w1 :=
      with_fs (with_dom (with_handles (with_headless w mode) a
                           (completed opening)) d) disk in
    let closing := run_calls E a (teardown_plan w1) in
    attempt E C a w
    = (result_of c (snd closing),
       with_trace w1 (trace w ++ evs ++ map Call (fst closing))) /\
    session_calls evs = fst opening.
Proof.
  intros mode opening c.
  destruct (attempt_guarded_run a w) as (evs & d & disk & Hguard & Hs).
  fold mode opening c in Hguard, Hs.
  exists evs, d, disk. split; [|exact Hs].
  unfold attempt, try_finally. rewrite Hguard, close_browser_run.
  assert (Hplan : forall W tr, teardown_plan (with_trace W tr) = teardown_plan W)
    by now intros [].
  rewrite Hplan.
  destruct (snd (run_calls E a (teardown_plan _))) as [e|];
    cbn [result_of]; f_equal; rewrite (app_assoc (trace w)); reflexivity.
Qed.
End AttemptRun.

Section Loop.
Context `{UnicodeDB} (E : Env) (C : Config).

Lemma run_calls_quiet (a : nat) (cs : list call) :
  quiet E a cs = true -> run_calls E a cs = (cs, None).
Proof.
  induction cs as [|c cs IH]; cbn [quiet forallb run_calls]; [reflexivity|].
  intros [Hc Hcs]%andb_true_iff.
  destruct (raises E a c); [discriminate|].
  fold (quiet E a cs) in Hcs. now rewrite IH.
Qed.

Lemma session_sites_quiet (a : nat) (mode : bool) :
  quiet E a (session_sites a) = true ->
  quiet E a (open_calls mode) = true /\ quiet E a (close_calls a) = true.
Proof.
  unfold session_sites, quiet. rewrite !forallb_app.
  intros [Ht [Hf Hc]%andb_true_iff]%andb_true_iff.
  split; [now destruct mode | exact Hc].
Qed.

Lemma attempt_quiet (a : nat) (w : World) (c : ctl) :
  quiet E a (session_sites a) = true ->
  session_result E a = Ok c ->
  exists w' evs,
    attempt E C a w = (Ok c, w') /\
    self_headless w' = attempt_mode a (self_headless w) /\
    trace w' = trace w ++ evs /\
    session_calls evs
    = open_calls (attempt_mode a (self_headless w)) ++ close_calls a.
Proof.
  intros Hq Hres.
  destruct (session_sites_quiet a (attempt_mode a (self_headless w)) Hq)
    as [Hopen Hclose].
  destruct (attempt_run E C a w) as (evs & d & disk & Hrun & Hs).
  rewrite (run_calls_quiet _ _ Hopen) in Hrun, Hs. rewrite Hres in Hrun.
  cbn [fst snd completed length] in Hrun, Hs.
  assert (Hplan : forall W, teardown_plan
            (with_fs (with_dom (with_handles W a 4) d) disk) = close_calls a)
    by reflexivity.
  rewrite Hplan, (run_calls_quiet _ _ Hclose) in Hrun.
  cbn [fst snd result_of] in Hrun.
  eexists _, _. split; [exact Hrun|]. split; [reflexivity|].
  split; [reflexivity|].
  rewrite session_calls_app, Hs.
  now rewrite session_calls_map_Call.
Qed.

(** Three attempts that each end in [retry_or_return _ b]. *)
Lemma three_attempts (b headless : bool) (disk : gmap pystr bytes) :
  (forall a, (a < 3)%nat ->
     quiet E a (session_sites a) = true /\
     session_result E a = Ok (retry_or_return a b)) ->
  exists w',
    download_videos E C (initial_world headless disk) = (Ok (Returned b), w') /\
    session_calls (trace w')
    = open_calls headless ++ close_calls 0 ++
      open_calls headless ++ close_calls 1 ++
      open_calls false ++ close_calls 2.
Proof.
  intros Hall.
  destruct (Hall 0%nat ltac:(lia)) as [Hq0 Hr0].
  destruct (Hall 1%nat ltac:(lia)) as [Hq1 Hr1].
  destruct (Hall 2%nat ltac:(lia)) as [Hq2 Hr2].
  destruct (attempt_quiet 0 (initial_world headless disk) _ Hq0 Hr0)
    as (w1 & evs1 & Hrun1 & Hh1 & Ht1 & Hs1).
  destruct (attempt_quiet 1 w1 _ Hq1 Hr1) as (w2 & evs2 & Hrun2 & Hh2 & Ht2 & Hs2).
  destruct (attempt_quiet 2 w2 _ Hq2 Hr2) as (w3 & evs3 & Hrun3 & Hh3 & Ht3 & Hs3).
  exists w3. split.
  - unfold download_videos. cbn [run_loop Nat.leb max_retries].
    unfold bind. rewrite Hrun1. cbn [retry_or_return Nat.ltb Nat.leb max_retries].
    rewrite Hrun2. cbn [retry_or_return Nat.ltb Nat.leb max_retries].
    rewrite Hrun3. reflexivity.
  - rewrite Ht3, Ht2, Ht1. cbn [initial_world trace app].
    rewrite !session_calls_app, Hs1, Hs2, Hs3, Hh2, Hh1.
    cbn [initial_world self_headless].
    rewrite <- !app_assoc. now destruct headless.
Qed.

End Loop.

Lemma calm_first_attempt :
  fst (@download_videos latin1 calm hoops (initial_world true ∅)) = Ok (Returned true).
Proof. vm_compute. reflexivity. Qed.

(** ** C2: the date key *)

(** C2.  For every value of today that the system clock can give (from
    1970-01-01 to the last day [datetime] can represent),
    [get_previous_wednesday] returns the [%Y%m%d] text of a date that is a
    Wednesday, is not later than today (and at most a week earlier), and
    is exactly 7 days before today when today is itself a Wednesday. *)
Theorem get_previous_wednesday_is_wednesday (today : Z) :
  EPOCH <= today <= MAXORDINAL ->
  exists d,
    get_previous_wednesday today = Some (strftime_Ymd d) /\
    weekday d = 2 /\
    d <= today /\
    today - 7 <= d /\
    (weekday today = 2 -> d = today - 7).
Proof.
  intros Hrange.
  destruct (prev_wednesday_spec today) as (d & Hd & Hwed & Hle & Hweek).
  { unfold EPOCH, MINORDINAL, MAXORDINAL in *. lia. }
  exists d. unfold get_previous_wednesday. rewrite Hd.
  repeat split; try assumption; lia.
Qed.

Lemma get_previous_wednesday_is_wednesday_witness :
  exists d,
    get_previous_wednesday 739923 = Some (strftime_Ymd d) /\
    weekday d = 2 /\ d <= 739923 /\ 739923 - 7 <= d /\
    (weekday 739923 = 2 -> d = 739923 - 7).
Proof.
  apply (get_previous_wednesday_is_wednesday 739923).
  unfold EPOCH, MAXORDINAL. lia.
Defined.

Example previous_wednesday_of_a_tuesday :
  get_previous_wednesday 739923 = Some (str "20261028").
Proof. reflexivity. Qed.

Example previous_wednesday_of_a_wednesday :
  weekday 739924 = 2 /\ get_previous_wednesday 739924 = Some (str "20261028").
Proof. split; reflexivity. Qed.

(** ** C1 *)

Section FallbackClaim.
Context `{UnicodeDB} (E : Env) (C : Config).

(** C1 (amended).  [download_video] never raises.  If creating the date
    folder raises, it returns false without trying any strategy.
    Otherwise it tries the strategies that apply to the record in the
    order direct fetch (only when the record has a direct URL or a video
    source), browser download, click trigger, stops at the first one
    that succeeds, and returns whether one did; so it returns false only
    if every strategy that applies was tried and raised or returned
    false. *)
Theorem download_video_tries_in_order
    (a : nat) (v : VideoRecord) (date_str : pystr) (w : World) :
  let folder := path_join (download_dir C) date_str in
  let path := path_join folder (filename (title v)) in
  exists b evs disk,
    download_video E C a v date_str w
    = (Ok b, with_fs (with_trace w (trace w ++ evs)) disk) /\
    match raises E a (Mkdir folder) with
    | Some _ => strategies_tried evs = [] /\ b = false
    | None =>
        (strategies_tried evs, b)
        = first_success (succeeds E a v path) (available v) /\
        (b = false ->
         strategies_tried evs = available v /\
         forall s, In s (available v) -> succeeds E a v path s = false) /\
        (b = true ->
         exists before s after,
           available v = before ++ s :: after /\
           strategies_tried evs = before ++ [s] /\
           succeeds E a v path s = true /\
           forall s', In s' before -> succeeds E a v path s' = false)
    end.
Proof.
  intros folder path.
  destruct (download_video_fallback E C a v date_str w)
    as (b & evs & disk & Hrun & Hspec).
  fold folder path in Hspec.
  exists b, evs, disk. split; [exact Hrun|].
  destruct (raises E a (Mkdir folder)); [exact Hspec|].
  split; [exact Hspec|]. split; intros ->.
  - now apply first_success_false.
  - now apply first_success_true.
Qed.

End FallbackClaim.

(** C1 as stated fails: with a read-only download directory the call
    returns false although no strategy was tried, and each of the three
    would have succeeded. *)
Lemma download_video_setup_counterexample :
  let v := card "28/10/2026 12h00" 1 in
  let date := str "20261028" in
  let path := path_join (path_join (download_dir hoops) date)
                (@filename latin1 (title v)) in
  let run := @download_video latin1 read_only_disk hoops 0 v date
               (initial_world true ∅) in
  fst run = Ok false /\
  strategies_tried (trace (snd run)) = [] /\
  direct_succeeds read_only_disk 0 v path = true /\
  browser_succeeds read_only_disk 0 v path = true /\
  click_succeeds read_only_disk 0 v = true.
Proof. vm_compute. repeat split. Qed.

(** ** C4: the time window *)

Section TimeWindowClaim.
Context `{UnicodeDB} (E : Env).

(** C4 (amended).  When the page can be scraped, [get_video_links]
    returns, in scraped order, exactly the videos that [keeps] accepts.
    A title is accepted when the pattern (1-2 digit hour, h, 2-digit
    minute) does not occur in it, in which case a warning is logged, or
    when its first (leftmost) occurrence has hour*100+minute in
    [1200, 1330]; later occurrences are not looked at.  So "12h00" and
    "13h30" are kept and "11h59" and "13h31" are not. *)
Theorem time_window_filter (a : nat) (w : World) :
  quiet E a [WaitCards; EvalScrape] = true ->
  exists evs,
    get_video_links E a w
    = (Ok (List.filter (fun v => keeps (title v)) (cards E a)),
       with_trace w (trace w ++ evs)) /\
    (forall t, keeps t = true <->
       no_occurrence t \/
       exists hour minute,
         first_occurrence t hour minute /\
         (1200 <= hour * 100 + minute <= 1330)%N) /\
    (forall v, In v (cards E a) -> no_occurrence (title v) ->
       In (Log WARNING (str "Could not determine time for: " ++ title v
                        ++ str " - including it")) evs) /\
    keeps (str "12h00") = true /\ keeps (str "13h30") = true /\
    keeps (str "11h59") = false /\ keeps (str "13h31") = false.
Proof.
  intros Hq. exists (scrape_events E a). split.
  - rewrite (get_video_links_run E a w Hq). unfold listing. now rewrite Hq.
  - split; [apply keeps_spec|]. split; [|now repeat split].
    intros v Hin Hnone. apply search_no_occurrence in Hnone.
    unfold scrape_events. apply in_or_app. right.
    apply in_or_app. left. apply in_map_iff. exists v. split; [|exact Hin].
    unfold filter_event. now rewrite Hnone.
Qed.

End TimeWindowClaim.

Lemma time_window_filter_witness :
  exists evs,
    @get_video_links latin1 calm 0 (initial_world true ∅)
    = (Ok [card "28/10/2026 12h00" 1; card "28/10/2026 12h45" 2;
           card "28/10/2026 13h15" 3],
       with_trace (initial_world true ∅) evs).
Proof.
  destruct (@time_window_filter latin1 calm 0 (initial_world true ∅) eq_refl)
    as (evs & Hrun & _).
  exists evs. exact Hrun.
Defined.

(** C4 as stated fails: a title can contain a time inside the window and
    still be dropped, because only the first time in the title counts. *)
Lemma time_window_first_match_counterexample :
  let t := str "Session 10h00 - 12h00" in
  @keeps latin1 t = false /\
  @occurrence latin1 t 16 12 0 /\
  (1200 <= 12 * 100 + 0 <= 1330)%N.
Proof.
  split; [reflexivity|]. split; [|lia].
  unfold occurrence. apply match_here_pattern. reflexivity.
Qed.

Section RunLoopClaims.
Context `{UnicodeDB} (E : Env) (C : Config).

Lemma main_exit_status (w w' : World) (b : bool) :
  download_videos E C w = (Ok (Returned b), w') ->
  fst (main E C w) = Some (if b then 0 else 1).
Proof. intros Hrun. unfold main. rewrite Hrun. now destruct b. Qed.

Lemma login_failure_result (a : nat) :
  raises E a GotoLogin = None -> login_succeeds E a = false ->
  session_result E a = Ok (retry_or_return a false).
Proof. intros Hgoto Hlogin. unfold session_result. now rewrite Hgoto, Hlogin. Qed.

Lemma empty_listing_result (a : nat) :
  reaches_listing E a = true -> listing E a = [] ->
  quiet E a (session_sites a) = true /\
  session_result E a = Ok (retry_or_return a true).
Proof.
  unfold reaches_listing. intros Hreach Hempty.
  apply andb_true_iff in Hreach as [Hreach Hfilters].
  apply andb_true_iff in Hreach as [Hreach Hlogin].
  apply andb_true_iff in Hreach as [Hsession Hgoto].
  split; [exact Hsession|].
  cbn [quiet forallb] in Hgoto.
  apply andb_true_iff in Hgoto as [Hg1 [Hg2 _]%andb_true_iff].
  unfold session_result.
  destruct (raises E a GotoLogin); [discriminate|].
  destruct (raises E a GotoVideos); [discriminate|].
  now rewrite Hlogin, Hfilters, Hempty.
Qed.

(** C5.  If in each of the first three attempts the session opens and
    closes without error and the login fails ([login] returns false),
    [download_videos] makes exactly three attempts, the first two in the
    mode the run started in and the third one with a visible browser (so
    not headless even if the run started headless), and returns false;
    the process exits with status 1. *)
Theorem three_login_failures (headless : bool) (disk : gmap pystr bytes) :
  (forall a, (a < 3)%nat ->
     quiet E a (session_sites a) = true /\
     raises E a GotoLogin = None /\
     login_succeeds E a = false) ->
  (forall a url w, (a < 3)%nat -> fst (login E C a url w) = Ok false) /\
  exists w',
    download_videos E C (initial_world headless disk)
    = (Ok (Returned false), w') /\
    fst (main E C (initial_world headless disk)) = Some 1 /\
    session_calls (trace w') = three_sessions headless /\
    launch_modes (session_calls (trace w')) = [headless; headless; false].
Proof.
  intros Hall. split.
  { intros a url w Ha. destruct (Hall a Ha) as (_ & _ & Hlogin).
    now rewrite (login_returns E C a url w), Hlogin. }
  destruct (three_attempts E C false headless disk) as (w' & Hrun & Hcalls).
  { intros a Ha. destruct (Hall a Ha) as (Hq & Hgoto & Hlogin).
    split; [exact Hq | now apply login_failure_result]. }
  exists w'. split; [exact Hrun|].
  split; [exact (main_exit_status _ _ _ Hrun)|].
  split; [exact Hcalls|].
  rewrite Hcalls. reflexivity.
Qed.

(** The run loop when the lister returns no video in any attempt. *)
Lemma empty_listing_run (headless : bool) (disk : gmap pystr bytes) :
  (forall a, (a < 3)%nat ->
     reaches_listing E a = true /\ listing E a = []) ->
  exists w',
    download_videos E C (initial_world headless disk)
    = (Ok (Returned true), w') /\
    fst (main E C (initial_world headless disk)) = Some 0 /\
    session_calls (trace w') = three_sessions headless.
Proof.
  intros Hall.
  destruct (three_attempts E C true headless disk) as (w' & Hrun & Hcalls).
  { intros a Ha. destruct (Hall a Ha) as (Hreach & Hempty).
    now apply empty_listing_result. }
  exists w'. split; [exact Hrun|].
  split; [exact (main_exit_status _ _ _ Hrun) | exact Hcalls].
Qed.

(** C6.  If every one of the three attempts gets as far as the video
    lister and the lister returns no video ([get_video_links] returns
    the empty list), [download_videos] retries until the bound, three
    attempts in all, then returns true; the process exits with status
    0. *)
Theorem empty_listing_exits_zero (headless : bool) (disk : gmap pystr bytes) :
  (forall a, (a < 3)%nat ->
     reaches_listing E a = true /\ listing E a = []) ->
  (forall a w, (a < 3)%nat -> fst (get_video_links E a w) = Ok []) /\
  exists w',
    download_videos E C (initial_world headless disk)
    = (Ok (Returned true), w') /\
    fst (main E C (initial_world headless disk)) = Some 0 /\
    session_calls (trace w') = three_sessions headless /\
    launch_modes (session_calls (trace w')) = [headless; headless; false].
Proof.
  intros Hall. split.
  { intros a w Ha. destruct (Hall a Ha) as [_ Hempty].
    now rewrite (get_video_links_returns E a w), Hempty. }
  destruct (empty_listing_run headless disk Hall) as (w' & Hrun & Hmain & Hcalls).
  exists w'. repeat split; try assumption. rewrite Hcalls. reflexivity.
Qed.

Lemma scraping_failure_listing (a : nat) :
  quiet E a [WaitCards; EvalScrape] = false -> listing E a = [].
Proof. intros Hq. unfold listing. now rewrite Hq. Qed.

End RunLoopClaims.

Section ScrapingClaim.
Context `{UnicodeDB} (C : Config).

(** C9.  [get_video_links] never raises; when waiting for the cards or
    the scraping script raises, it returns the empty list.  If that
    happens in each of the three attempts of a run [E] and each attempt
    gets as far as the lister, the run loop ends exactly as in a run [E']
    whose listing page is scraped without error and has no card: same
    result, same sessions; and the process exits with status 0. *)
Theorem scraping_failure_exits_zero
    (E E' : Env) (headless : bool) (disk : gmap pystr bytes) :
  (forall a, (a < 3)%nat ->
     reaches_listing E a = true /\
     quiet E a [WaitCards; EvalScrape] = false) ->
  (forall a, (a < 3)%nat ->
     reaches_listing E' a = true /\
     quiet E' a [WaitCards; EvalScrape] = true /\ cards E' a = []) ->
  (forall a w, exists l, fst (get_video_links E a w) = Ok l) /\
  (forall a w, (a < 3)%nat -> fst (get_video_links E a w) = Ok []) /\
  exists w w',
    download_videos E C (initial_world headless disk)
    = (Ok (Returned true), w) /\
    download_videos E' C (initial_world headless disk)
    = (Ok (Returned true), w') /\
    session_calls (trace w) = session_calls (trace w') /\
    fst (main E C (initial_world headless disk)) = Some 0.
Proof.
  intros Hfail Hempty.
  split; [intros a w; eexists; apply get_video_links_returns|].
  split.
  { intros a w Ha. rewrite get_video_links_returns.
    destruct (Hfail a Ha) as [_ Hq]. now rewrite scraping_failure_listing. }
  destruct (empty_listing_run E C headless disk)
    as (w & Hrun & Hmain & Hcalls).
  { intros a Ha. destruct (Hfail a Ha) as [Hreach Hq].
    split; [exact Hreach | now apply scraping_failure_listing]. }
  destruct (empty_listing_run E' C headless disk)
    as (w' & Hrun' & _ & Hcalls').
  { intros a Ha. destruct (Hempty a Ha) as (Hreach & Hq & Hcards).
    split; [exact Hreach|]. unfold listing. now rewrite Hq, Hcards. }
  exists w, w'. repeat split; try assumption. now rewrite Hcalls, Hcalls'.
Qed.

End ScrapingClaim.

Lemma three_login_failures_witness :
  exists w',
    @download_videos latin1 login_rejected hoops (initial_world true ∅)
    = (Ok (Returned false), w') /\
    session_calls (trace w') = three_sessions true.
Proof.
  destruct (@three_login_failures latin1 login_rejected hoops true ∅)
    as (_ & w' & Hrun & _ & Hcalls & _).
  { intros a _. repeat split. }
  exists w'. split; [exact Hrun | exact Hcalls].
Defined.

Lemma empty_listing_exits_zero_witness :
  fst (@main latin1 nothing_listed hoops (initial_world true ∅)) = Some 0.
Proof.
  destruct (@empty_listing_exits_zero latin1 nothing_listed hoops true ∅)
    as (_ & w' & _ & Hmain & _).
  { intros a _. split; reflexivity. }
  exact Hmain.
Defined.

Lemma scraping_failure_exits_zero_witness :
  fst (@main latin1 cards_time_out hoops (initial_world true ∅)) = Some 0.
Proof.
  destruct (@scraping_failure_exits_zero latin1 hoops cards_time_out
              nothing_listed true ∅) as (_ & _ & w & w' & _ & _ & _ & Hmain).
  { intros a _. split; reflexivity. }
  { intros a _. repeat split. }
  exact Hmain.
Defined.

Section Teardown.
Context `{UnicodeDB} (E : Env) (C : Config).

Lemma run_calls_prefix (a : nat) (cs : list call) :
  let run := run_calls E a cs in
  (exists rest, cs = fst run ++ rest /\ (snd run = None -> rest = [])) /\
  (forall e, snd run = Some e ->
     exists c, last (fst run) = Some c /\ raises E a c = Some e).
Proof.
  induction cs as [|c cs IH]; cbn [run_calls].
  - split; [exists []; now split | discriminate].
  - destruct (raises E a c) as [e|] eqn:Hc.
    + split.
      * exists cs. split; [reflexivity | discriminate].
      * intros e' [= <-]. exists c. now split.
    + destruct (run_calls E a cs) as [made err]. cbn [fst snd] in *.
      destruct IH as [(rest & -> & Hrest) Hlast]. split.
      * exists rest. split; [reflexivity | exact Hrest].
      * intros e He. destruct (Hlast e He) as (c' & Hc' & Hraise).
        exists c'. split; [|exact Hraise].
        destruct made as [|c0 made]; [discriminate|]. exact Hc'.
Qed.

(** C7 (amended).  Every attempt ends with [close_browser], whatever the
    [try] block did: the [try] with its [except] always returns normally,
    and [close_browser] then runs in the world it left.  [close_browser]
    calls, in the order page, context, browser, driver, the close
    operation of each object [self] holds (after a complete
    [setup_browser]: all four, created by this attempt).  The only guard
    is that the object exists: the calls stop at the first one that
    raises, the objects after it are not closed, and the exception is the
    result of the attempt. *)
Theorem teardown_after_every_attempt (a : nat) (w : World) :
  exists c w1,
    attempt_guarded E C a w = (Ok c, w1) /\
    let closing := run_calls E a (teardown_plan w1) in
    attempt E C a w
    = (result_of c (snd closing),
       with_trace w1 (trace w1 ++ map Call (fst closing))) /\
    (exists rest,
       teardown_plan w1 = fst closing ++ rest /\
       (snd closing = None -> rest = [])) /\
    (forall e, snd closing = Some e ->
       exists c', last (fst closing) = Some c' /\ raises E a c' = Some e) /\
    (quiet E a (open_calls (attempt_mode a (self_headless w))) = true ->
     teardown_plan w1 = close_calls a).
Proof.
  destruct (attempt_guarded_run E C a w) as (evs & d & disk & Hguard & Hs).
  cbv zeta in Hguard.
  match type of Hguard with _ = (Ok ?c0, ?w0) =>
    set (c := c0) in *; set (w1 := w0) in * end.
  exists c, w1. split; [exact Hguard|].
  cbv zeta. split.
  - unfold attempt, try_finally. rewrite Hguard, close_browser_run.
    cbv zeta. now destruct (snd (run_calls E a (teardown_plan w1))).
  - split; [apply run_calls_prefix|]. split; [apply run_calls_prefix|].
    intros Hq. subst w1. rewrite (run_calls_quiet E _ _ Hq). reflexivity.
Qed.

(** A raise of [close_browser] leaves [download_videos]. *)
Lemma attempt_raise_propagates (fuel a : nat) (w w' : World) (e : pystr) :
  (a <= max_retries)%nat ->
  attempt E C a w = (Raise e, w') ->
  run_loop E C (S fuel) a w = (Raise e, w').
Proof.
  intros Ha Hrun. cbn [run_loop].
  apply Nat.leb_le in Ha. rewrite Ha. unfold bind. now rewrite Hrun.
Qed.

End Teardown.

(** C7 as stated fails: when closing the page raises, the context, the
    browser and the driver that [self] holds are never closed, and the
    exception leaves [download_videos]. *)
Lemma close_failure_counterexample :
  let run := @download_videos latin1 page_close_fails hoops
               (initial_world true ∅) in
  fst run = Raise (str "Target page has been closed") /\
  session_calls (trace (snd run))
  = [PlaywrightStart; Launch true; NewContext; NewPage; PageClose 0] /\
  self_context (snd run) = Some 0%nat /\
  self_browser (snd run) = Some 0%nat /\
  self_playwright (snd run) = Some 0%nat /\
  fst (@main latin1 page_close_fails hoops (initial_world true ∅)) = Some 1.
Proof. vm_compute. repeat split. Qed.

Section Termination.
Context `{UnicodeDB} (E : Env) (C : Config).

Lemma session_result_ctl (a : nat) (c : ctl) :
  session_result E a = Ok c ->
  c = Return true \/ exists b, c = retry_or_return a b.
Proof.
  unfold session_result.
  destruct (raises E a GotoLogin); [discriminate|].
  destruct (negb (login_succeeds E a)); [intros [= <-]; eauto|].
  destruct (raises E a GotoVideos); [discriminate|].
  destruct (negb (filters_succeed E a)); [intros [= <-]; eauto|].
  destruct (listing E a); [intros [= <-]; eauto|].
  destruct (get_previous_wednesday _); [|discriminate].
  intros [= <-]. now left.
Qed.

Lemma attempt_ctl (a : nat) (w w' : World) (c : ctl) :
  attempt E C a w = (Ok c, w') ->
  (exists b, c = Return b) \/ (c = Continue (S a) /\ (a < max_retries)%nat).
Proof.
  destruct (attempt_guarded_run E C a w) as (evs & d & disk & Hguard & _).
  cbv zeta in Hguard.
  match type of Hguard with _ = (Ok ?cc, _) => set (c0 := cc) in * end.
  assert (Hc0 : (exists b, c0 = Return b) \/
                (c0 = Continue (S a) /\ (a < max_retries)%nat)).
  { assert (Hretry : forall b,
      (exists b', retry_or_return a b = Return b') \/
      (retry_or_return a b = Continue (S a) /\ (a < max_retries)%nat)).
    { intros b. unfold retry_or_return.
      destruct (Nat.ltb_spec a max_retries); eauto. }
    subst c0.
    destruct (snd (run_calls E a (open_calls _))); [apply Hretry|].
    destruct (session_result E a) as [c1|e] eqn:Hres; [|apply Hretry].
    destruct (session_result_ctl a c1 Hres) as [-> | [b ->]]; eauto. }
  clearbody c0. unfold attempt, try_finally. rewrite Hguard.
  destruct (close_browser E a _) as [[[]|e] w2]; [|discriminate].
  now intros [= <- _].
Qed.

(** The loop ends by a [return] or by an exception of [close_browser]
    within [max_retries + 1] passes: the fuel of [download_videos] is
    never used up and the [while] never ends by its condition. *)
Lemma run_loop_returns (fuel a : nat) (w : World) :
  (a <= max_retries)%nat -> (max_retries < fuel + a)%nat ->
  exists w',
    (exists b, run_loop E C fuel a w = (Ok (Returned b), w')) \/
    (exists e, run_loop E C fuel a w = (Raise e, w')).
Proof.
  revert a w. induction fuel as [|fuel IH]; intros a w Ha Hfuel; [lia|].
  cbn [run_loop]. destruct (Nat.leb_spec a max_retries); [|lia].
  unfold bind. destruct (attempt E C a w) as [[c|e] w1] eqn:Hrun.
  - destruct (attempt_ctl a w w1 c Hrun) as [[b ->] | [-> Hlt]].
    + exists w1. left. now exists b.
    + apply IH; lia.
  - exists w1. right. now exists e.
Qed.

Lemma download_videos_returns (w : World) :
  exists w',
    (exists b, download_videos E C w = (Ok (Returned b), w')) \/
    (exists e, download_videos E C w = (Raise e, w')).
Proof. apply run_loop_returns; unfold max_retries; lia. Qed.

Lemma main_exits (w : World) : exists status, fst (main E C w) = Some status.
Proof.
  unfold main. destruct (download_videos_returns w) as (w' & [[b Hrun] | [e Hrun]]);
    rewrite Hrun; [destruct b|]; eauto.
Qed.

End Termination.

Section DateFilter.
Context (E : Env).

(** C8, the part the code breaks.  When no call of [select_filters]
    raises and the date select does not offer the computed date, the
    script leaves the select as it was and [select_filters] returns
    true, but the absence is not logged: the log says that the date was
    selected, and holds no record above the level INFO. *)
Theorem absent_date_is_logged_as_selected
    (a : nat) (w : World) (select : Select) (date : pystr) :
  quiet E a (filter_calls ++ [EvalSetDate; EvalClickOk]) = true ->
  get_previous_wednesday (now E a InSelectFilters) = Some date ->
  videos_days (dom w) = Some select ->
  existsb (fun opt => pystr_eqb opt date) (options select) = false ->
  exists evs d,
    select_filters E a w
    = (Ok true, with_dom (with_trace w (trace w ++ evs)) d) /\
    videos_days d = Some select /\
    In (Log INFO (str "Selected date: " ++ date)) evs /\
    existsb is_warning evs = false.
Proof.
  intros Hq Hdate Hdays Habsent.
  cbn [quiet filter_calls app forallb] in Hq.
  repeat match type of Hq with
  | (_ && _ = true) => let H1 := fresh "Hq" in
                       apply andb_true_iff in Hq as [H1 Hq]
  end.
  repeat match goal with
  | Hc : is_none (raises E a ?c) = true |- _ =>
      destruct (raises E a c) eqn:?; [discriminate Hc | clear Hc]
  end.
  destruct w as [hl pw br cx pg [vc vco vd sc] disk tr].
  cbn [dom videos_days] in Hdays. subst vd.
  unfold select_filters, script_set_center, script_set_court, script_set_date,
    script_click_ok, get_previous_wednesday_at.
  destruct vc as [center|], vco as [court|], sc;
    repeat (mred;
      repeat match goal with
      | Hc : raises E a ?c = None |- context [raises E a ?c] => rewrite Hc
      end;
      rewrite ?Hdate, ?Habsent);
    (eexists _, _; split;
      [rewrite <- ?app_assoc; cbn [app]; reflexivity|];
     split; [reflexivity|]; split; [|reflexivity];
     cbn [In]; tauto).
Qed.

End DateFilter.

Lemma absent_date_is_logged_as_selected_witness :
  exists evs d,
    select_filters date_not_offered 0
      (with_dom (initial_world true ∅) (listing_dom date_not_offered 0))
    = (Ok true,
       with_dom (with_trace (initial_world true ∅) evs) d) /\
    videos_days d
    = Some {| options := [str "20261014"; str "20261021"]; value := [] |} /\
    In (Log INFO (str "Selected date: 20261028")) evs /\
    existsb is_warning evs = false.
Proof.
  apply (absent_date_is_logged_as_selected date_not_offered 0
           (with_dom (initial_world true ∅) (listing_dom date_not_offered 0))
           {| options := [str "20261014"; str "20261021"]; value := [] |}
           (str "20261028")); reflexivity.
Defined.

Section Overwrite.
Context `{UnicodeDB} (E : Env) (C : Config).

(** The run of [download_video] when the direct fetch succeeds. *)
Lemma download_video_direct
    (a : nat) (v : VideoRecord) (date_str : pystr) (w : World) :
  let folder := path_join (download_dir C) date_str in
  let path := path_join folder (filename (title v)) in
  raises E a (Mkdir folder) = None ->
  truthy (py_or (directUrl v) (videoSrc v)) = true ->
  direct_succeeds E a v path = true ->
  exists evs,
    download_video E C a v date_str w
    = (Ok true,
       with_fs (with_trace w (trace w ++ evs))
         (<[path := concat (chunks (response E a v))]> (fs w))) /\
    existsb is_warning evs = false.
Proof.
  intros folder path Hmk Hurl Hdirect.
  destruct w as [hl pw br cx pg d disk tr].
  unfold download_video. mred. fold folder. fold path. rewrite Hmk. mred.
  destruct (py_or (directUrl v) (videoSrc v)) as [[|c u]|]; try discriminate.
  mred.
  match goal with
  | |- context [direct_download E ?a ?v ?u ?p ?f ?w] =>
      destruct (direct_download_run E a v u p f w)
        as (r1 & evs1 & disk1 & Hrun1 & _ & Hquiet1 & Hres1); rewrite Hrun1
  end.
  rewrite Hdirect in Hres1. destruct Hres1 as [-> ->]. mred.
  eexists. split.
  - rewrite <- ?app_assoc. cbn [app]. reflexivity.
  - cbn [existsb is_warning orb]. exact Hquiet1.
Qed.

(** C10.  There are distinct titles with the same sanitized file name.
    When two videos of one listing have the same file name and the
    direct fetch succeeds for both, both downloads are counted as
    successful, no warning or error is logged, and the file holds what
    was fetched for the second video: the first download is lost. *)
Theorem colliding_titles_overwrite
    (a : nat) (v1 v2 : VideoRecord) (date_str : pystr) (w : World) :
  let folder := path_join (download_dir C) date_str in
  let path := path_join folder (filename (title v1)) in
  filename (title v1) = filename (title v2) ->
  raises E a (Mkdir folder) = None ->
  truthy (py_or (directUrl v1) (videoSrc v1)) = true ->
  truthy (py_or (directUrl v2) (videoSrc v2)) = true ->
  direct_succeeds E a v1 path = true ->
  direct_succeeds E a v2 path = true ->
  (str "Match 12h00!" <> str "Match 12h00?" /\
   filename (str "Match 12h00!") = filename (str "Match 12h00?")) /\
  exists w1 evs,
    fst (download_video E C a v1 date_str w) = Ok true /\
    w1 = snd (download_video E C a v1 date_str w) /\
    fs w1 !! path = Some (concat (chunks (response E a v1))) /\
    download_each E C a [v1; v2] date_str 0 w
    = (Ok 2%nat,
       with_fs (with_trace w (trace w ++ evs))
         (<[path := concat (chunks (response E a v2))]> (fs w))) /\
    existsb is_warning evs = false.
Proof.
  intros folder path Hname Hmk Hurl1 Hurl2 Hd1 Hd2.
  split; [split; [discriminate | reflexivity]|].
  destruct (download_video_direct a v1 date_str w Hmk Hurl1 Hd1)
    as (evs1 & Hrun1 & Hq1).
  fold folder path in Hrun1.
  set (w1 := with_fs (with_trace w (trace w ++ evs1))
               (<[path := concat (chunks (response E a v1))]> (fs w))) in *.
  assert (Hd2' : direct_succeeds E a v2
            (path_join folder (filename (title v2))) = true).
  { rewrite <- Hname. exact Hd2. }
  destruct (download_video_direct a v2 date_str w1 Hmk Hurl2 Hd2')
    as (evs2 & Hrun2 & Hq2).
  rewrite <- Hname in Hrun2. fold folder path in Hrun2.
  exists w1, (evs1 ++ evs2). rewrite Hrun1. cbn [fst snd].
  split; [reflexivity|]. split; [reflexivity|].
  split; [subst w1; destruct w; apply lookup_insert_eq|].
  split.
  - cbn [download_each]. unfold bind. rewrite Hrun1, Hrun2. unfold ret.
    f_equal. subst w1. destruct w as [hl pw br cx pg d disk tr].
    cbn [with_fs with_trace trace fs self_headless self_playwright
         self_browser self_context self_page dom].
    now rewrite insert_insert_eq, app_assoc.
  - now rewrite existsb_app, Hq1, Hq2.
Qed.

End Overwrite.

Lemma colliding_titles_overwrite_witness :
  fs (snd (@download_each latin1 same_names hoops 0
             [card "Match 12h00!" 0; card "Match 12h00?" 1]
             (str "20261028") 0 (initial_world true ∅)))
  !! str "downloads/20261028/Match_12h00.mp4"
  = Some [Byte.x02; Byte.x03].
Proof.
  destruct (@colliding_titles_overwrite latin1 same_names hoops 0
              (card "Match 12h00!" 0) (card "Match 12h00?" 1)
              (str "20261028") (initial_world true ∅))
    as (_ & w1 & evs & _ & _ & _ & Hrun & _);
    [reflexivity | reflexivity | reflexivity | reflexivity | reflexivity
    | reflexivity |].
  rewrite Hrun. vm_compute. reflexivity.
Defined.

(** * Further properties

    Properties of the program beyond the claims of the specification:
    the page scripts, the date key, file names, [login],
    [select_filters], the disk after a download, the run loop and
    [wait_for_visible]. *)

(** ** The page scripts *)

Section ScriptFacts.
Context `{Browser}.

Lemma scrape_card_Pushed (c : Card) (i : nat) (v : VideoRecord) :
  scrape_card c i = Pushed v <->
  exists href text,
    download_link c = Some (Some href) /\ product_name c = Some text /\
    truthy (path_parameter href) || truthy (video_src c) = true /\
    v = record_of c i href text.
Proof.
  unfold scrape_card, record_of, path_parameter, query_of, video_src.
  destruct (download_link c) as [[href|]|], (product_name c) as [text|];
    try (split; [discriminate | intros (? & ? & ? & ? & ?); discriminate]).
  assert (Hq : match js_split 63 href with
               | _ :: query :: _ => URLSearchParams query
               | _ => []
               end
               = match js_split 63 href !! 1%nat with
                 | Some query => URLSearchParams query
                 | None => []
                 end).
  { destruct (js_split 63 href) as [|p [|q l]]; reflexivity. }
  rewrite Hq. clear Hq.
  assert (Hp : params_get
                 match js_split 63 href !! 1%nat with
                 | Some query => URLSearchParams query
                 | None => []
                 end (str "path")
               = match js_split 63 href !! 1%nat with
                 | Some query => params_get (URLSearchParams query) (str "path")
                 | None => None
                 end).
  { destruct (js_split 63 href !! 1%nat); reflexivity. }
  rewrite Hp. clear Hp.
  destruct (orb (truthy _) _) eqn:Hok.
  - split.
    + intros [= <-]. exists href, text. now rewrite Hok.
    + intros (href' & text' & [= <-] & [= <-] & _ & ->). reflexivity.
  - split; [discriminate|].
    intros (href' & text' & [= <-] & [= <-] & Hok' & _). congruence.
Qed.

Lemma scrape_card_Thrown (c : Card) (i : nat) :
  scrape_card c i = Thrown <-> breaks_script c.
Proof.
  unfold scrape_card, breaks_script.
  destruct (download_link c) as [[href|]|], (product_name c) as [text|];
    try (split; [discriminate | intros [? ?]; congruence]).
  - destruct (orb (truthy _) _);
      (split; [discriminate | intros [? ?]; congruence]).
  - split; [intros _; split; congruence | reflexivity].
Qed.

Lemma scrape_from_Some (i : nat) (cs : list Card) (vs : list VideoRecord) :
  scrape_from i cs = Some vs ->
  (forall v, In v vs <->
     exists k c, cs !! k = Some c /\ scrape_card c (i + k) = Pushed v) /\
  StronglySorted lt (map index vs) /\
  Forall (fun v => i <= index v)%nat vs.
Proof.
  revert i vs. induction cs as [|c cs IH]; intros i vs; cbn [scrape_from].
  - intros [= <-]. split; [|split; constructor].
    intros v. split; [intros []|]. intros (k & c & Hk & _). discriminate Hk.
  - destruct (scrape_card c i) as [v0| |] eqn:Hc; [| |discriminate].
    + destruct (scrape_from (S i) cs) as [vs'|] eqn:Hrest; [|discriminate].
      cbn. intros [= <-].
      destruct (IH (S i) vs' Hrest) as (Hin & Hsorted & Hlow).
      assert (Hi : index v0 = i).
      { apply scrape_card_Pushed in Hc as (? & ? & _ & _ & _ & ->).
        reflexivity. }
      split; [|split].
      * intros v. cbn [In]. rewrite Hin. split.
        -- intros [<- | (k & c' & Hk & Hp)].
           ++ exists 0%nat, c. split; [reflexivity|]. now rewrite Nat.add_0_r.
           ++ exists (S k), c'. split; [exact Hk|].
              now replace (i + S k)%nat with (S i + k)%nat by lia.
        -- intros ([|k] & c' & Hk & Hp).
           ++ cbn in Hk. injection Hk as <-. rewrite Nat.add_0_r in Hp.
              left. congruence.
           ++ right. exists k, c'. split; [exact Hk|].
              now replace (S i + k)%nat with (i + S k)%nat by lia.
      * cbn [map]. constructor; [exact Hsorted|].
        rewrite Hi. apply List.Forall_forall. intros n Hn.
        apply in_map_iff in Hn as (v & <- & Hv).
        rewrite List.Forall_forall in Hlow. specialize (Hlow v Hv). lia.
      * constructor; [lia|].
        eapply List.Forall_impl; [|exact Hlow]. cbn. intros; lia.
    + intros Hrest.
      destruct (IH (S i) vs Hrest) as (Hin & Hsorted & Hlow).
      split; [|split; [exact Hsorted|]].
      * intros v. rewrite Hin. split.
        -- intros (k & c' & Hk & Hp). exists (S k), c'. split; [exact Hk|].
           now replace (i + S k)%nat with (S i + k)%nat by lia.
        -- intros ([|k] & c' & Hk & Hp).
           ++ cbn in Hk. injection Hk as <-. rewrite Nat.add_0_r in Hp.
              congruence.
           ++ exists k, c'. split; [exact Hk|].
              now replace (S i + k)%nat with (i + S k)%nat by lia.
      * eapply List.Forall_impl; [|exact Hlow]. cbn. intros; lia.
Qed.

Lemma scrape_from_None (i : nat) (cs : list Card) :
  scrape_from i cs = None <-> exists k c, cs !! k = Some c /\ breaks_script c.
Proof.
  revert i. induction cs as [|c cs IH]; intros i; cbn [scrape_from].
  - split; [discriminate|]. intros (k & c & Hk & _). discriminate Hk.
  - destruct (scrape_card c i) as [v0| |] eqn:Hc.
    + assert (Hnot : ~ breaks_script c).
      { intros Hb. apply (scrape_card_Thrown c i) in Hb. congruence. }
      destruct (scrape_from (S i) cs) as [vs'|] eqn:Hrest; cbn.
      * split; [discriminate|]. intros ([|k] & c' & Hk & Hb).
        -- cbn in Hk. injection Hk as <-. contradiction.
        -- assert (Hnone : scrape_from (S i) cs = None)
             by (apply IH; eauto).
           congruence.
      * split; [|reflexivity]. intros _.
        destruct (proj1 (IH (S i)) Hrest) as (k & c' & Hk & Hb).
        exists (S k), c'. now split.
    + assert (Hnot : ~ breaks_script c).
      { intros Hb. apply (scrape_card_Thrown c i) in Hb. congruence. }
      rewrite IH. split.
      * intros (k & c' & Hk & Hb). exists (S k), c'. now split.
      * intros ([|k] & c' & Hk & Hb).
        -- cbn in Hk. injection Hk as <-. contradiction.
        -- exists k, c'. now split.
    + split; [|reflexivity]. intros _. exists 0%nat, c.
      split; [reflexivity|]. now apply (scrape_card_Thrown c i).
Qed.

End ScriptFacts.

Section ScriptClaims.
Context `{Browser}.

(** X1.  The scraping script of [get_video_links], when it does not throw,
    returns one record per card that has a download link, a title element
    and a direct URL candidate (a non-empty [path] parameter in the link,
    or a non-empty [src] of the inline player), and skips the other cards
    without error.  The record holds the trimmed title, the link, both
    candidates and the position of the card among all cards of the page;
    the records come in page order. *)
Theorem scrape_lists_downloadable_cards
    (cs : list Card) (vs : list VideoRecord) :
  scrape cs = Some vs ->
  (forall v, In v vs <->
     exists c href text,
       cs !! index v = Some c /\
       download_link c = Some (Some href) /\ product_name c = Some text /\
       truthy (path_parameter href) || truthy (video_src c) = true /\
       v = record_of c (index v) href text) /\
  StronglySorted lt (map index vs).
Proof.
  intros Hs. destruct (scrape_from_Some 0 cs vs Hs) as (Hin & Hsorted & _).
  split; [|exact Hsorted].
  intros v. rewrite Hin. split.
  - intros (k & c & Hk & Hp). cbn in Hp.
    pose proof Hp as Hp'.
    apply scrape_card_Pushed in Hp as (href & text & Hl & Ht & Hok & ->).
    exists c, href, text. cbn [record_of index]. repeat split; assumption.
  - intros (c & href & text & Hk & Hl & Ht & Hok & Hv).
    exists (index v), c. split; [exact Hk|]. cbn.
    apply scrape_card_Pushed. exists href, text. repeat split; assumption.
Qed.

(** X2.  Every record the scraping script returns can be used by all three
    methods of [download_video]: it has a direct URL candidate, so the
    direct fetch is never skipped; it has a download URL, so the browser
    download never fails on a missing key; and as long as the page shows
    the same cards, the click script finds a download control at the
    record's index. *)
Theorem scraped_records_fit_every_strategy
    (cs : list Card) (vs : list VideoRecord) (v : VideoRecord) :
  scrape cs = Some vs -> In v vs ->
  available v = [Direct; BrowserNative; ClickTrigger] /\
  downloadUrl v <> None /\
  click_script cs (index v) = true.
Proof.
  intros Hs Hv. destruct (scrape_from_Some 0 cs vs Hs) as (Hin & _ & _).
  apply Hin in Hv as (k & c & Hk & Hp). cbn in Hp.
  apply scrape_card_Pushed in Hp as (href & text & Hl & Ht & Hok & ->).
  cbn [record_of index downloadUrl]. split; [|split; [discriminate|]].
  - unfold available, py_or, record_of. cbn [directUrl videoSrc].
    destruct (truthy (path_parameter href)) eqn:Hd; cbv beta iota.
    + now rewrite Hd.
    + cbn [orb] in Hok. now rewrite Hok.
  - unfold click_script. now rewrite Hk, Hl.
Qed.

End ScriptClaims.

Lemma scrape_lists_downloadable_cards_witness :
  let vs := default [] (@scrape ascii_escapes sample_page) in
  map index vs = [0; 3]%nat /\
  map title vs = [str "28/10/2026 12h00"; str "28/10/2026 13h15"] /\
  map directUrl vs = [Some (str "https://cdn.example.com/a.mp4"); None] /\
  StronglySorted lt (map index vs).
Proof.
  intros vs.
  split; [vm_compute; reflexivity|].
  split; [vm_compute; reflexivity|].
  split; [vm_compute; reflexivity|].
  assert (Hs : @scrape ascii_escapes sample_page = Some vs)
    by (vm_compute; reflexivity).
  exact (proj2 (@scrape_lists_downloadable_cards ascii_escapes
                  sample_page vs Hs)).
Defined.

Lemma scraped_records_fit_every_strategy_witness :
  let vs := default [] (@scrape ascii_escapes sample_page) in
  let v := nth 1 vs (card "" 0) in
  index v = 3%nat /\
  available v = [Direct; BrowserNative; ClickTrigger] /\
  downloadUrl v <> None /\
  click_script sample_page (index v) = true.
Proof.
  intros vs v. split; [vm_compute; reflexivity|].
  assert (Hs : @scrape ascii_escapes sample_page = Some vs)
    by (vm_compute; reflexivity).
  assert (Hv : In v vs) by (vm_compute; tauto).
  exact (@scraped_records_fit_every_strategy ascii_escapes
           sample_page vs v Hs Hv).
Defined.

Lemma js_split_app (sep : N) (a s : pystr) :
  ~ In sep a -> js_split sep (a ++ sep :: s) = a :: js_split sep s.
Proof.
  induction a as [|c a IH]; intros Hnot; cbn [app js_split].
  - now rewrite N.eqb_refl.
  - destruct (N.eqb_spec c sep) as [->|Hne].
    + exfalso. apply Hnot. now left.
    + rewrite IH; [reflexivity|]. intros Hin. apply Hnot. now right.
Qed.

Lemma js_split_none (sep : N) (a : pystr) :
  ~ In sep a -> js_split sep a = [a].
Proof.
  induction a as [|c a IH]; intros Hnot; cbn [js_split]; [reflexivity|].
  destruct (N.eqb_spec c sep) as [->|Hne].
  - exfalso. apply Hnot. now left.
  - rewrite IH; [reflexivity|]. intros Hin. apply Hnot. now right.
Qed.

Section PageClaims.
Context `{UnicodeDB} `{Browser} (E : Env).

(** X3.  The scraping script reads the query of a download link with
    [split('?')[1]]: the text from the first question mark up to the
    second one.  A direct URL that itself contains a question mark is
    therefore cut there, and a link without a question mark has no direct
    URL. *)
Theorem direct_url_stops_at_second_question_mark
    (base query rest : pystr) :
  ~ In 63%N base -> ~ In 63%N query ->
  path_parameter (base ++ str "?" ++ query ++ str "?" ++ rest)
  = path_parameter (base ++ str "?" ++ query) /\
  path_parameter (base ++ str "?" ++ query)
  = params_get (URLSearchParams query) (str "path") /\
  path_parameter base = None.
Proof.
  intros Hbase Hquery. unfold path_parameter, query_of.
  change (str "?") with [63%N]. cbn [app].
  rewrite (js_split_app 63 base (query ++ 63%N :: rest)) by assumption.
  rewrite (js_split_app 63 query rest) by assumption.
  rewrite (js_split_app 63 base query) by assumption.
  rewrite (js_split_none 63 query), (js_split_none 63 base) by assumption.
  repeat split.
Qed.

(** X4.  One card whose download link has no [href] attribute hides every
    recording of the page: the scraping script throws on it, and
    [get_video_links] logs the error and returns the empty list. *)
Theorem card_without_href_empties_listing
    (page : nat -> list Card) (type_error : pystr) (a : nat) (w : World)
    (k : nat) (c : Card) :
  page a !! k = Some c -> breaks_script c ->
  raises E a WaitCards = None ->
  get_video_links (on_page E page type_error) a w
  = (Ok [],
     with_trace w
       (trace w ++
        [Call WaitCards; Call EvalScrape;
         Log ERROR (str "Error extracting video links: " ++ type_error)])).
Proof.
  intros Hk Hc Hwait.
  assert (Hs : scrape (page a) = None) by (apply scrape_from_None; eauto).
  destruct w as [hl pw br cx pg d disk tr].
  unfold get_video_links. mred. cbn [raises on_page].
  rewrite Hs, Hwait. mred. now rewrite <- !app_assoc.
Qed.

End PageClaims.

Lemma direct_url_stops_at_second_question_mark_witness :
  @path_parameter ascii_escapes
    (str "/download?path=https://cdn.example.com/a.mp4?token=abc")
  = Some (str "https://cdn.example.com/a.mp4").
Proof.
  destruct (@direct_url_stops_at_second_question_mark ascii_escapes
              (str "/download") (str "path=https://cdn.example.com/a.mp4")
              (str "token=abc")) as (Hcut & Hget & _).
  - vm_compute. intuition discriminate.
  - vm_compute. intuition discriminate.
  - etransitivity; [exact Hcut|]. rewrite Hget. vm_compute. reflexivity.
Defined.

Lemma card_without_href_empties_listing_witness :
  fst (@get_video_links latin1
         (@on_page ascii_escapes calm (fun _ => broken_page)
            (str "TypeError: Cannot read properties of null"))
         0 (initial_world true ∅))
  = Ok [].
Proof.
  rewrite (@card_without_href_empties_listing latin1 ascii_escapes calm
             (fun _ => broken_page)
             (str "TypeError: Cannot read properties of null")
             0 (initial_world true ∅) 4
             {| download_link := Some None;
                product_name := Some (str "29/10/2026");
                video_element := None |}).
  - reflexivity.
  - reflexivity.
  - split; [reflexivity | discriminate].
  - reflexivity.
Defined.

(** ** The date key *)

(** X5.  [get_previous_wednesday] gives the latest Wednesday strictly
    before today, never today itself.  From one day to the next the key
    stays the same, except from a Wednesday to the Thursday after it, when
    it becomes that Wednesday. *)
Theorem date_key_changes_after_wednesday (today : Z) :
  EPOCH <= today < MAXORDINAL ->
  exists d,
    get_previous_wednesday today = Some (strftime_Ymd d) /\
    weekday d = 2 /\ d < today /\
    (forall d', d < d' < today -> weekday d' <> 2) /\
    (weekday today <> 2 ->
     get_previous_wednesday (today + 1) = get_previous_wednesday today) /\
    (weekday today = 2 ->
     get_previous_wednesday (today + 1) = Some (strftime_Ymd today)).
Proof.
  intros Hrange. unfold EPOCH, MAXORDINAL in Hrange.
  destruct (prev_wednesday_spec today) as (d & Hd & Hwed & Hle & Hweek).
  { unfold MINORDINAL, MAXORDINAL. lia. }
  destruct (prev_wednesday_spec (today + 1)) as (d1 & Hd1 & Hwed1 & Hle1 & _).
  { unfold MINORDINAL, MAXORDINAL. lia. }
  exists d. unfold get_previous_wednesday. rewrite Hd, Hd1. cbn.
  split; [reflexivity|]. split; [exact Hwed|]. split; [lia|].
  unfold weekday in *. split; [|split].
  - intros d' Hd'. Z.div_mod_to_equations. lia.
  - intros Hnot. f_equal. f_equal. Z.div_mod_to_equations. lia.
  - intros Htoday. f_equal. f_equal. Z.div_mod_to_equations. lia.
Qed.

Lemma date_key_changes_after_wednesday_witness :
  get_previous_wednesday 739924 = Some (str "20261028") /\
  get_previous_wednesday 739925 = Some (str "20261104").
Proof.
  destruct (date_key_changes_after_wednesday 739924)
    as (d & Hd & _ & _ & _ & _ & Hnext).
  { unfold EPOCH, MAXORDINAL. lia. }
  split; [reflexivity|].
  change 739925 with (739924 + 1). rewrite (Hnext eq_refl). reflexivity.
Defined.

(** ** File names *)

Section FileNames.
Context `{UnicodeDB}.

Lemma lstrip_nil (s : pystr) :
  lstrip s = [] <-> Forall (fun c => isspace c = true) s.
Proof.
  induction s as [|c s IH]; cbn [lstrip].
  - split; [constructor | reflexivity].
  - destruct (isspace c) eqn:Hc.
    + rewrite IH. split; [now constructor|]. now inversion 1.
    + split; [discriminate|]. inversion 1. congruence.
Qed.

Lemma lstrip_head (s : pystr) (c : N) (s' : pystr) :
  lstrip s = c :: s' -> isspace c = false.
Proof.
  induction s as [|c0 s IH]; cbn [lstrip]; [discriminate|].
  destruct (isspace c0) eqn:Hc; [exact IH|]. now intros [= <- _].
Qed.

Lemma strip_nil (s : pystr) :
  strip s = [] <-> Forall (fun c => isspace c = true) s.
Proof.
  unfold strip, rstrip. split.
  - intros Hs. apply lstrip_nil.
    destruct (lstrip s) as [|c s'] eqn:Hl; [reflexivity|].
    exfalso.
    assert (Hx : lstrip (rev (c :: s')) = []).
    { destruct (lstrip (rev (c :: s'))) as [|x xs]; [reflexivity|].
      cbn [rev] in Hs. apply app_eq_nil in Hs as [_ Hs]. discriminate. }
    apply lstrip_nil in Hx. rewrite List.Forall_forall in Hx.
    specialize (Hx c). rewrite <- in_rev in Hx.
    apply lstrip_head in Hl. rewrite Hx in Hl; [discriminate | now left].
  - intros Hs. apply lstrip_nil in Hs. now rewrite Hs.
Qed.

Lemma sub_runs_nil (s : pystr) : sub_runs false s = [] <-> s = [].
Proof.
  destruct s as [|c s]; cbn [sub_runs]; [tauto|].
  destruct (is_sep c); split; discriminate.
Qed.

(** X6.  The sanitized title holds no path separator, no dot, no hyphen,
    no NUL and no white space, whatever the title on the page.  The file
    name therefore holds no [/] and is neither [.] nor [..]:
    [download_path] always names a file directly inside the date folder. *)
Theorem filename_has_no_path_separator (title : pystr) :
  Forall (fun c => c <> 47%N /\ c <> 92%N /\ c <> 46%N /\ c <> 45%N /\
                   c <> 0%N /\ isspace c = false) (safe_title title) /\
  ~ In 47%N (filename title) /\
  filename title <> str "." /\ filename title <> str "..".
Proof.
  assert (Hstem : Forall (fun c => c <> 47%N /\ c <> 92%N /\ c <> 46%N /\
                            c <> 45%N /\ c <> 0%N /\ isspace c = false)
                    (safe_title title)).
  { eapply Forall_impl; [apply safe_title_clean|].
    intros c Hc. cbn in Hc.
    pose proof (clean_not_space c Hc) as Hspace.
    pose proof (clean_not_sep c Hc) as Hsep.
    apply clean_word in Hc.
    repeat split; try exact Hspace; intros ->; try discriminate Hc;
      discriminate Hsep. }
  split; [exact Hstem|]. split; [|split].
  - unfold filename. rewrite in_app_iff. intros [Hin | Hin].
    + rewrite List.Forall_forall in Hstem.
      destruct (Hstem _ Hin) as [Hne _]. now apply Hne.
    + vm_compute in Hin. intuition discriminate.
  - unfold filename. intros Heq.
    apply (f_equal (@length N)) in Heq. rewrite length_app in Heq.
    cbn in Heq. lia.
  - unfold filename. intros Heq.
    apply (f_equal (@length N)) in Heq. rewrite length_app in Heq.
    cbn in Heq. lia.
Qed.

(** X7.  A title without any word character or hyphen (the empty title, or
    one made of punctuation and white space) gives the empty sanitized
    title, and only such a title does: its file is named [.mp4]. *)
Theorem safe_title_empty (title : pystr) :
  safe_title title = [] <->
  Forall (fun c => is_safe c = true -> isspace c = true) title.
Proof.
  unfold safe_title. rewrite sub_runs_nil, strip_nil.
  unfold sub_unsafe. induction title as [|c title IH]; cbn [List.filter].
  - split; constructor.
  - destruct (is_safe c) eqn:Hc.
    + split.
      * intros Hall. inversion Hall as [|? ? Hspace Hrest]; subst.
        constructor; [intros _; exact Hspace | now apply IH].
      * intros Hall. inversion Hall as [|? ? Hspace Hrest]; subst.
        constructor; [now apply Hspace | now apply IH].
    + rewrite IH. split.
      * intros Hall. constructor; [cbn; congruence | exact Hall].
      * intros Hall. now inversion Hall.
Qed.

End FileNames.

Lemma safe_title_empty_witness :
  @filename latin1 (str " ?!... ") = str ".mp4".
Proof.
  unfold filename.
  rewrite (proj2 (@safe_title_empty latin1 (str " ?!... "))).
  - reflexivity.
  - vm_compute. repeat constructor; discriminate.
Defined.

(** ** [login] and [select_filters] *)

Ltac use_raises E a :=
  repeat match goal with
  | Hc : raises E a ?c = _ |- context [raises E a ?c] => rewrite Hc
  end.

(** Case analysis on the calls of attempt [a] that the goal inspects. *)
Ltac by_raises E a :=
  mred; cbn [fst snd is_none andb negb];
  try match goal with
  | |- context [match raises E a ?c with _ => _ end] =>
      destruct (raises E a c) eqn:?; by_raises E a
  end.

Section LoginClaims.
Context `{UnicodeDB} (E : Env) (C : Config).

(** X8.  [login] never raises.  It makes its six page calls in order and
    stops at the first one that raises: the exception is logged as an
    error and the result is false, so the credentials are not typed when
    the login form did not appear.  When no call raises, the result is
    whether the URL of the page, in lower case, contains [my-account]; a
    failure of this test is logged as a warning. *)
Theorem login_catches_every_exception (a : nat) (url : pystr) (w : World) :
  let run := run_calls E a login_calls in
  let on_account :=
    contains (str "my-account") (lower (page_url E a)) in
  exists evs,
    login E C a url w
    = (Ok (is_none (snd run) && on_account),
       with_trace w (trace w ++ evs)) /\
    calls_of evs = fst run /\
    logged ERROR evs
    = match snd run with
      | Some e => [str "Error during login: " ++ e]
      | None => []
      end /\
    logged WARNING evs
    = (if is_none (snd run) && negb on_account
       then [str "Login failed. Please check your credentials."]
       else []) /\
    (raises E a LoginWaitForm <> None ->
     ~ In LoginFillEmail (calls_of evs) /\
     ~ In LoginFillPassword (calls_of evs)).
Proof.
  destruct w as [hl pw br cx pg d disk tr].
  unfold login, login_calls. cbn [run_calls].
  by_raises E a;
    try destruct (contains _ _) eqn:Hurl; mred;
    cbn [fst snd is_none andb negb];
    (eexists; split; [same_world|];
     split; [reflexivity|]; split; [reflexivity|]; split; [reflexivity|];
     intros Hform; try congruence;
     split; intros Hin; cbv in Hin; intuition discriminate).
Qed.

End LoginClaims.

(** Splits a [quiet] hypothesis into one equation per call. *)
Ltac split_quiet Hq :=
  cbn [quiet app forallb filter_calls] in Hq;
  repeat match type of Hq with
  | (_ && _ = true) =>
      let H1 := fresh "Hq" in apply andb_true_iff in Hq as [H1 Hq]
  end;
  repeat match goal with
  | Hc : is_none (raises ?E ?a ?c) = true |- _ =>
      destruct (raises E a c) eqn:?; [discriminate Hc | clear Hc]
  end.

(** Symbolic execution with case analysis on what the goal inspects:
    calls, optional elements, flags and the options of a select. *)
Ltac exec E a :=
  mred; use_raises E a; cbn [fst snd is_none andb negb];
  try match goal with
  | |- context [match raises E a ?c with _ => _ end] =>
      destruct (raises E a c) eqn:?; exec E a
  | |- context [match ?x with Some _ => _ | None => _ end] =>
      is_var x; destruct x; exec E a
  | |- context [if ?b then _ else _] =>
      is_var b; destruct b; exec E a
  | |- context [if existsb ?f ?l then _ else _] =>
      destruct (existsb f l) eqn:?; exec E a
  end.

Section FilterClaims.
Context (E : Env).

(** X9.  An exception of the date script, or of the script that clicks the
    confirmation link, does not fail [select_filters]: it is logged as a
    warning saying that the date is not available, nothing is logged as an
    error, and the result is true.  When it is the date script that
    raises, the date select is left as it was and the confirmation script
    is not run. *)
Theorem date_script_error_is_tolerated
    (a : nat) (w : World) (date e : pystr) :
  quiet E a filter_calls = true ->
  get_previous_wednesday (now E a InSelectFilters) = Some date ->
  snd (run_calls E a [EvalSetDate; EvalClickOk]) = Some e ->
  exists evs d,
    select_filters E a w
    = (Ok true, with_dom (with_trace w (trace w ++ evs)) d) /\
    logged WARNING evs
    = [str "Date " ++ date
       ++ str " not available, keeping all dates selected: " ++ e] /\
    logged ERROR evs = [] /\
    (raises E a EvalSetDate <> None ->
     videos_days d = videos_days (dom w) /\
     ~ In EvalClickOk (calls_of evs)).
Proof.
  intros Hq Hdate Hrun. split_quiet Hq.
  cbn [run_calls] in Hrun.
  destruct w as [hl pw br cx pg [vc vco vd sc] disk tr].
  unfold select_filters, script_set_center, script_set_court,
    script_set_date, script_click_ok, get_previous_wednesday_at.
  rewrite Hdate.
  destruct (raises E a EvalSetDate) as [e1|] eqn:Hset;
    [|destruct (raises E a EvalClickOk) as [e2|] eqn:Hok];
    cbn [fst snd] in Hrun; try discriminate Hrun;
    injection Hrun as ->;
    exec E a;
    (eexists _, _; split; [same_world|];
     split; [reflexivity|]; split; [reflexivity|];
     intros Hraise;
     first [ congruence
           | split; [reflexivity|];
             intros Hin; cbv in Hin; intuition discriminate ]).
Qed.

(** X10.  When none of its calls raises, [select_filters] returns true and
    leaves the three selects as follows.  The center is forced to ["0"]
    and the court to ["3"] without any check: a select that has no such
    option ends up with no option selected.  The date is assigned only if
    the select offers it; otherwise the date select keeps its value.  The
    options themselves never change.  A change event is dispatched for the
    center, for the court and, if it was assigned, for the date, in this
    order, and the confirmation link is clicked if the page has one. *)
Theorem select_filters_sets_the_three_selects
    (a : nat) (w : World) (date : pystr) (centers courts days : Select) :
  quiet E a (filter_calls ++ [EvalSetDate; EvalClickOk]) = true ->
  get_previous_wednesday (now E a InSelectFilters) = Some date ->
  videos_centers (dom w) = Some centers ->
  videos_courts (dom w) = Some courts ->
  videos_days (dom w) = Some days ->
  exists evs d,
    select_filters E a w
    = (Ok true, with_dom (with_trace w (trace w ++ evs)) d) /\
    videos_centers d
    = Some {| options := options centers;
              value := if offers centers (str "0") then str "0" else [] |} /\
    videos_courts d
    = Some {| options := options courts;
              value := if offers courts (str "3") then str "3" else [] |} /\
    videos_days d
    = Some {| options := options days;
              value := if offers days date then date else value days |} /\
    sheet_close d = sheet_close (dom w) /\
    page_events evs
    = [Change (str "#videos_centers") (str "0");
       Change (str "#videos_courts") (str "3")]
      ++ (if offers days date then [Change (str "#videos_days") date]
          else [])
      ++ (if sheet_close (dom w) then [Click (str "a.link.sheet-close")]
          else []).
Proof.
  intros Hq Hdate Hcenters Hcourts Hdays. split_quiet Hq.
  destruct w as [hl pw br cx pg [vc vco vd sc] disk tr].
  cbn [dom videos_centers videos_courts videos_days] in *. subst.
  unfold select_filters, script_set_center, script_set_court,
    script_set_date, script_click_ok, get_previous_wednesday_at, offers.
  rewrite Hdate.
  exec E a;
    (eexists _, _; split; [same_world|];
     cbn [videos_centers videos_courts videos_days sheet_close];
     unfold assign_value;
     repeat match goal with
     | Hc : existsb _ _ = _ |- _ => rewrite Hc
     end;
     repeat split; destruct days; reflexivity).
Qed.

End FilterClaims.

Lemma date_script_error_is_tolerated_witness :
  let run := select_filters date_script_fails 0
               (with_dom (initial_world true ∅)
                  (listing_dom date_script_fails 0)) in
  fst run = Ok true /\
  logged WARNING (trace (snd run))
  = [str "Date 20261028 not available, keeping all dates selected: "
     ++ str "Execution context was destroyed"] /\
  videos_days (dom (snd run)) = videos_days (listing_dom date_script_fails 0).
Proof.
  destruct (date_script_error_is_tolerated date_script_fails 0
              (with_dom (initial_world true ∅)
                 (listing_dom date_script_fails 0))
              (str "20261028") (str "Execution context was destroyed"))
    as (evs & d & Hrun & Hwarn & _ & Hdays).
  - reflexivity.
  - reflexivity.
  - reflexivity.
  - cbv zeta. rewrite Hrun. cbn [fst snd]. split; [reflexivity|].
    split; [exact Hwarn|]. now apply Hdays.
Defined.

Lemma select_filters_sets_the_three_selects_witness :
  let run := select_filters calm 0
               (with_dom (initial_world true ∅) (listing_dom calm 0)) in
  fst run = Ok true /\
  value <$> videos_centers (dom (snd run)) = Some (str "0") /\
  value <$> videos_courts (dom (snd run)) = Some (str "3") /\
  value <$> videos_days (dom (snd run)) = Some (str "20261028").
Proof.
  destruct (select_filters_sets_the_three_selects calm 0
              (with_dom (initial_world true ∅) (listing_dom calm 0))
              (str "20261028")
              {| options := [str "0"; str "1"]; value := str "1" |}
              {| options := [str "1"; str "3"]; value := str "1" |}
              {| options := [str "20261021"; str "20261028"]; value := [] |})
    as (evs & d & Hrun & Hc & Hco & Hd & _).
  - reflexivity.
  - reflexivity.
  - reflexivity.
  - reflexivity.
  - reflexivity.
  - cbv zeta. rewrite Hrun. cbn [fst snd dom with_dom].
    rewrite Hc, Hco, Hd. repeat split.
Defined.

(** ** The disk after [download_video] *)

Ltac finish_disk :=
  eexists _, _; split; [same_world|];
  cbn [is_none andb negb orb]; eauto.

Section Disk.
Context `{UnicodeDB} (E : Env) (C : Config).

Lemma direct_download_disk
    (a : nat) (v : VideoRecord) (url path fname : pystr) (w : World) :
  exists r evs,
    direct_download E a v url path fname w
    = (r, with_fs (with_trace w (trace w ++ evs))
            (if direct_opens_file E a v path
             then <[path := concat (chunks (response E a v))]> (fs w)
             else fs w)) /\
    if direct_succeeds E a v path then r = Ok true
    else exists e, r = Raise e.
Proof.
  destruct w as [hl pw br cx pg d disk tr].
  unfold direct_download, direct_succeeds, direct_opens_file,
    raise_for_status.
  rewrite http_error_split. mred.
  destruct (raises E a (HttpGet v)) as [e|] eqn:Hget; mred;
    [finish_disk|].
  destruct (_ && (status_code (response E a v) <? 500))%N eqn:H4; mred;
    [finish_disk|].
  destruct (_ && (status_code (response E a v) <? 600))%N eqn:H5; mred;
    [finish_disk|].
  destruct (raises E a (OpenWb v path)) as [e|] eqn:Hopen; mred;
    [finish_disk|].
  erewrite write_chunks_run by apply lookup_insert_eq. mred.
  rewrite insert_insert_eq. cbn [app].
  destruct (stream_error (response E a v)) as [e|] eqn:Hstream; mred;
    finish_disk.
Qed.

Lemma browser_download_disk
    (a : nat) (v : VideoRecord) (path fname : pystr) (w : World) :
  exists r evs,
    browser_download E a v path fname w
    = (r, with_fs (with_trace w (trace w ++ evs))
            (if browser_succeeds E a v path
             then <[path := download_body E a v]> (fs w)
             else fs w)) /\
    if browser_succeeds E a v path then r = Ok true
    else exists e, r = Raise e.
Proof.
  destruct w as [hl pw br cx pg d disk tr].
  unfold browser_download, browser_succeeds. mred.
  destruct (raises E a (SetHeaders v)) as [e|] eqn:Hset; mred;
    [finish_disk|].
  destruct (downloadUrl v) as [u|] eqn:Hurl; mred;
    [|finish_disk].
  destruct (raises E a (ExpectDownload v)) as [e|] eqn:Hexp; mred;
    [finish_disk|].
  destruct (raises E a (SaveAs v path)) as [e|] eqn:Hsave; mred;
    finish_disk.
Qed.

Lemma click_download_result (a : nat) (v : VideoRecord) (w : World) :
  exists r evs,
    click_download E a v w = (r, with_trace w (trace w ++ evs)) /\
    if click_succeeds E a v then r = Ok true
    else r = Ok false \/ exists e, r = Raise e.
Proof.
  destruct w as [hl pw br cx pg d disk tr].
  unfold click_download, click_succeeds. mred.
  destruct (raises E a (GotoListing v)) as [e|] eqn:Hgoto; mred;
    [finish_disk|].
  destruct (raises E a (EvalClick v)) as [e|] eqn:Heval; mred;
    [finish_disk|].
  destruct (click_result E a v) eqn:Hres; mred;
    finish_disk.
Qed.

Ltac use_disk :=
  match goal with
  | |- context [direct_download E ?a ?v ?u ?p ?f ?w] =>
      let r := fresh "r" in let evs := fresh "evs" in
      let Hrun := fresh "Hrun" in let Hres := fresh "Hres" in
      destruct (direct_download_disk a v u p f w)
        as (r & evs & Hrun & Hres); rewrite Hrun
  | |- context [browser_download E ?a ?v ?p ?f ?w] =>
      let r := fresh "r" in let evs := fresh "evs" in
      let Hrun := fresh "Hrun" in let Hres := fresh "Hres" in
      destruct (browser_download_disk a v p f w)
        as (r & evs & Hrun & Hres); rewrite Hrun
  | |- context [click_download E ?a ?v ?w] =>
      let r := fresh "r" in let evs := fresh "evs" in
      let Hrun := fresh "Hrun" in let Hres := fresh "Hres" in
      destruct (click_download_result a v w)
        as (r & evs & Hrun & Hres); rewrite Hrun
  end.

Lemma direct_succeeds_opens (a : nat) (v : VideoRecord) (path : pystr) :
  direct_succeeds E a v path
  = direct_opens_file E a v path && is_none (stream_error (response E a v)).
Proof. reflexivity. Qed.

(** The run of [download_video]: its result and the disk it leaves. *)
Lemma download_video_disk
    (a : nat) (v : VideoRecord) (date_str : pystr) (w : World) :
  exists evs,
    download_video E C a v date_str w
    = (Ok (download_result E C a v date_str),
       with_fs (with_trace w (trace w ++ evs))
         (disk_after E C a v date_str (fs w))).
Proof.
  destruct w as [hl pw br cx pg d disk tr].
  unfold download_video, download_result, disk_after, written, download_path,
    available.
  set (folder := path_join (download_dir C) date_str).
  set (path := path_join folder (filename (title v))).
  mred. fold folder. fold path.
  destruct (raises E a (Mkdir folder)) as [e|] eqn:Hmk; mred.
  { eexists. same_world. }
  rewrite direct_succeeds_opens.
  destruct (py_or (directUrl v) (videoSrc v)) as [[|c u]|] eqn:Hurl;
    cbn [truthy app andb first_success succeeds]; mred.
  - use_disk. destruct (browser_succeeds E a v path) eqn:Hb.
    + subst. mred. eexists. same_world.
    + destruct Hres as [e ->]. mred. use_disk.
      destruct (click_succeeds E a v) eqn:Hc.
      * subst. mred. eexists. same_world.
      * destruct Hres as [-> | [e3 ->]]; mred; eexists; same_world.
  - use_disk. rewrite direct_succeeds_opens in Hres |- *.
    destruct (direct_opens_file E a v path) eqn:Ho; cbn [andb] in *.
    + destruct (is_none (stream_error (response E a v))) eqn:Hs.
      * subst. mred. eexists. same_world.
      * destruct Hres as [e1 ->]. mred. use_disk.
        destruct (browser_succeeds E a v path) eqn:Hb.
        -- subst. mred. rewrite insert_insert_eq. eexists. same_world.
        -- destruct Hres as [e ->]. mred. use_disk.
           destruct (click_succeeds E a v) eqn:Hc.
           ++ subst. mred. eexists. same_world.
           ++ destruct Hres as [-> | [e3 ->]]; mred; eexists; same_world.
    + destruct Hres as [e1 ->]. mred. use_disk.
      destruct (browser_succeeds E a v path) eqn:Hb.
      * subst. mred. eexists. same_world.
      * destruct Hres as [e ->]. mred. use_disk.
        destruct (click_succeeds E a v) eqn:Hc.
        -- subst. mred. eexists. same_world.
        -- destruct Hres as [-> | [e3 ->]]; mred; eexists; same_world.
  - use_disk. destruct (browser_succeeds E a v path) eqn:Hb.
    + subst. mred. eexists. same_world.
    + destruct Hres as [e ->]. mred. use_disk.
      destruct (click_succeeds E a v) eqn:Hc.
      * subst. mred. eexists. same_world.
      * destruct Hres as [-> | [e3 ->]]; mred; eexists; same_world.
Qed.

End Disk.

Section DiskClaims.
Context `{UnicodeDB} (E : Env) (C : Config).

Lemma download_each_disk
    (a : nat) (vs : list VideoRecord) (date_str : pystr) (n : nat)
    (w : World) :
  exists evs,
    download_each E C a vs date_str n w
    = (Ok (n + length (List.filter
                         (fun v => download_result E C a v date_str) vs))%nat,
       with_fs (with_trace w (trace w ++ evs))
         (foldl (fun disk v => disk_after E C a v date_str disk) (fs w) vs)).
Proof.
  revert n w. induction vs as [|v vs IH]; intros n w; cbn [download_each].
  - exists []. destruct w. unfold ret. cbn. now rewrite Nat.add_0_r, app_nil_r.
  - destruct (download_video_disk E C a v date_str w) as (evs1 & Hrun1).
    unfold bind. rewrite Hrun1.
    match goal with |- context [download_each E C a vs date_str ?m ?W] =>
      destruct (IH m W) as (evs2 & Hrun2); rewrite Hrun2
    end.
    exists (evs1 ++ evs2). destruct w as [hl pw br cx pg d disk tr].
    cbn [List.filter foldl]. f_equal.
    + f_equal. destruct (download_result E C a v date_str); cbn [length]; lia.
    + mred. now rewrite app_assoc.
Qed.

Lemma disk_after_other
    (a : nat) (v : VideoRecord) (date_str p : pystr)
    (disk : gmap pystr bytes) :
  p <> download_path C v date_str ->
  disk_after E C a v date_str disk !! p = disk !! p.
Proof.
  intros Hp. unfold disk_after.
  destruct (written E C a v date_str); [|reflexivity].
  now apply lookup_insert_ne.
Qed.

(** X11.  A download that fails does not stop the loop over the videos:
    [download_each] never raises, and the number of successful downloads
    it returns counts every video of the list for which [download_video]
    returns true.  The loop changes no file other than the download paths
    of its videos. *)
Theorem failed_download_does_not_stop_the_others
    (a : nat) (vs : list VideoRecord) (date_str : pystr) (w : World) :
  (forall v w0,
     fst (download_video E C a v date_str w0)
     = Ok (download_result E C a v date_str)) /\
  exists evs disk,
    download_each E C a vs date_str 0 w
    = (Ok (length (List.filter
                     (fun v => download_result E C a v date_str) vs)),
       with_fs (with_trace w (trace w ++ evs)) disk) /\
    forall p,
      (forall v, In v vs -> p <> download_path C v date_str) ->
      disk !! p = fs w !! p.
Proof.
  split.
  { intros v w0. destruct (download_video_disk E C a v date_str w0)
      as (evs & Hrun). now rewrite Hrun. }
  destruct (download_each_disk a vs date_str 0 w) as (evs & Hrun).
  eexists _, _. split; [exact Hrun|].
  generalize (fs w). clear Hrun.
  induction vs as [|v vs IH]; intros disk p Hp; cbn [foldl]; [reflexivity|].
  rewrite IH by (intros v' Hv'; apply Hp; now right).
  apply disk_after_other. apply Hp. now left.
Qed.

(** X12.  When the stream of the direct fetch breaks after the file was
    opened and the browser download fails too, [download_video] leaves the
    chunks received so far at the download path: the partial file is not
    removed.  The result is that of the click trigger, so it can be true
    with a truncated file on disk. *)
Theorem interrupted_stream_leaves_partial_file
    (a : nat) (v : VideoRecord) (date_str : pystr) (w : World) (e : pystr) :
  let path := download_path C v date_str in
  raises E a (Mkdir (path_join (download_dir C) date_str)) = None ->
  truthy (py_or (directUrl v) (videoSrc v)) = true ->
  direct_opens_file E a v path = true ->
  stream_error (response E a v) = Some e ->
  browser_succeeds E a v path = false ->
  exists evs,
    download_video E C a v date_str w
    = (Ok (click_succeeds E a v),
       with_fs (with_trace w (trace w ++ evs))
         (<[path := concat (chunks (response E a v))]> (fs w))).
Proof.
  intros path Hmk Hurl Hopen Hstream Hb.
  destruct (download_video_disk E C a v date_str w) as (evs & Hrun).
  exists evs. rewrite Hrun. f_equal; [f_equal|f_equal].
  - unfold download_result, available. fold path.
    rewrite Hmk, Hurl. cbn [app first_success succeeds].
    rewrite direct_succeeds_opens, Hopen, Hstream, Hb. cbn [is_none andb].
    now destruct (click_succeeds E a v).
  - unfold disk_after, written. fold path.
    rewrite Hmk, Hurl, direct_succeeds_opens, Hopen, Hstream, Hb.
    reflexivity.
Qed.


(** X14.  When the direct fetch is skipped or fails, also after it wrote a
    part of the file, and the browser download succeeds, [download_video]
    returns true and the download path holds exactly the file the browser
    saved: nothing of the partial direct fetch is left. *)
Theorem browser_download_replaces_partial_file
    (a : nat) (v : VideoRecord) (date_str : pystr) (w : World) :
  let path := download_path C v date_str in
  raises E a (Mkdir (path_join (download_dir C) date_str)) = None ->
  truthy (py_or (directUrl v) (videoSrc v)) &&
  direct_succeeds E a v path = false ->
  browser_succeeds E a v path = true ->
  exists evs,
    download_video E C a v date_str w
    = (Ok true,
       with_fs (with_trace w (trace w ++ evs))
         (<[path := download_body E a v]> (fs w))).
Proof.
  intros path Hmk Hdirect Hb.
  destruct (download_video_disk E C a v date_str w) as (evs & Hrun).
  exists evs. rewrite Hrun. f_equal; [f_equal|f_equal].
  - unfold download_result, available. fold path. rewrite Hmk.
    destruct (truthy (py_or (directUrl v) (videoSrc v)));
      cbn [andb] in Hdirect; cbn [app first_success succeeds].
    + now rewrite Hdirect, Hb.
    + now rewrite Hb.
  - unfold disk_after, written. fold path. now rewrite Hmk, Hdirect, Hb.
Qed.

End DiskClaims.

Lemma interrupted_stream_leaves_partial_file_witness :
  let v := card "28/10/2026 12h00" 1 in
  let run := @download_video latin1 stream_breaks hoops 0 v (str "20261028")
               (initial_world true ∅) in
  fst run = Ok true /\
  fs (snd run) !! str "downloads/20261028/28102026_12h00.mp4"
  = Some [Byte.x01; Byte.x02].
Proof.
  destruct (@interrupted_stream_leaves_partial_file latin1 stream_breaks
              hoops 0 (card "28/10/2026 12h00" 1) (str "20261028")
              (initial_world true ∅) (str "Connection broken"))
    as (evs & Hrun).
  - reflexivity.
  - reflexivity.
  - reflexivity.
  - reflexivity.
  - reflexivity.
  - cbv zeta. rewrite Hrun. split; [reflexivity|].
    vm_compute. reflexivity.
Defined.


Lemma browser_download_replaces_partial_file_witness :
  let v := card "28/10/2026 12h00" 1 in
  let E := with_raises stream_breaks (fun _ _ => None) in
  let run := @download_video latin1 E hoops 0 v (str "20261028")
               (initial_world true ∅) in
  fst run = Ok true /\
  fs (snd run) !! str "downloads/20261028/28102026_12h00.mp4"
  = Some [Byte.x0a].
Proof.
  destruct (@browser_download_replaces_partial_file latin1
              (with_raises stream_breaks (fun _ _ => None))
              hoops 0 (card "28/10/2026 12h00" 1) (str "20261028")
              (initial_world true ∅))
    as (evs & Hrun).
  - reflexivity.
  - reflexivity.
  - reflexivity.
  - cbv zeta. rewrite Hrun. split; [reflexivity|].
    vm_compute. reflexivity.
Defined.

(** ** The run loop *)

Section LoopClaims.
Context `{UnicodeDB} (E : Env) (C : Config).

Lemma sessions_started_app (l1 l2 : list event) :
  sessions_started (l1 ++ l2)
  = (sessions_started l1 + sessions_started l2)%nat.
Proof.
  unfold sessions_started.
  now rewrite session_calls_app, List.filter_app, length_app.
Qed.

Lemma opening_starts_once (a : nat) (mode : bool) :
  length (List.filter (fun c => match c with
                                | PlaywrightStart => true
                                | _ => false
                                end)
            (fst (run_calls E a (open_calls mode)))) = 1%nat.
Proof.
  unfold open_calls. cbn [run_calls].
  destruct (raises E a PlaywrightStart); [reflexivity|].
  destruct (raises E a (Launch mode)); [reflexivity|].
  destruct (raises E a NewContext); [reflexivity|].
  destruct (raises E a NewPage); reflexivity.
Qed.

Lemma closing_starts_nothing (a : nat) (w : World) :
  List.filter (fun c => match c with
                        | PlaywrightStart => true
                        | _ => false
                        end)
    (fst (run_calls E a (teardown_plan w))) = [].
Proof.
  assert (Hall : forallb (fun c => match c with
                                   | PlaywrightStart => false
                                   | _ => true
                                   end)
                   (fst (run_calls E a (teardown_plan w))) = true).
  { apply run_calls_forallb. unfold teardown_plan.
    destruct (self_page w), (self_context w), (self_browser w),
      (self_playwright w); reflexivity. }
  induction (fst (run_calls E a (teardown_plan w))) as [|c l IH];
    [reflexivity|].
  cbn [forallb] in Hall. apply andb_true_iff in Hall as [Hc Hl].
  cbn [List.filter]. destruct c; try discriminate Hc; now apply IH.
Qed.

(** One pass through the loop starts exactly one session. *)
Lemma attempt_starts_once (a : nat) (w : World) :
  exists r w' evs,
    attempt E C a w = (r, w') /\ trace w' = trace w ++ evs /\
    sessions_started evs = 1%nat.
Proof.
  destruct (attempt_run E C a w) as (evs & d & disk & Hrun & Hs).
  cbv zeta in Hrun.
  eexists _, _, _. split; [exact Hrun|]. split; [reflexivity|].
  rewrite sessions_started_app. unfold sessions_started at 1.
  rewrite Hs, opening_starts_once.
  unfold sessions_started. rewrite session_calls_map_Call.
  - now rewrite closing_starts_nothing.
  - apply run_calls_forallb, teardown_plan_session.
Qed.






Lemma launch_modes_session (mode : bool) (a : nat) :
  launch_modes (open_calls mode ++ close_calls a) = [mode].
Proof. reflexivity. Qed.

Lemma launch_modes_app (l1 l2 : list call) :
  launch_modes (l1 ++ l2) = launch_modes l1 ++ launch_modes l2.
Proof. apply omap_app. Qed.




(** X19.  An exception of [close_browser] ends the run at once, whatever
    the [try] block did: if the first session opens and one of its close
    calls raises, [download_videos] makes no second attempt, the exception
    leaves it, and the process ends with status 1, also when every video
    was downloaded. *)
Theorem close_failure_ends_the_run
    (headless : bool) (disk : gmap pystr bytes) (e : pystr) :
  quiet E 0 (open_calls headless) = true ->
  snd (run_calls E 0 (close_calls 0)) = Some e ->
  exists w',
    download_videos E C (initial_world headless disk) = (Raise e, w') /\
    fst (main E C (initial_world headless disk)) = Some 1 /\
    sessions_started (trace w') = 1%nat.
Proof.
  intros Hopen Hclose.
  destruct (attempt_run E C 0 (initial_world headless disk))
    as (evs & d & disk' & Hrun & Hs).
  cbn [initial_world self_headless trace app attempt_mode Nat.ltb Nat.leb
       andb] in Hrun, Hs.
  rewrite (run_calls_quiet E _ _ Hopen) in Hrun, Hs.
  cbn [fst snd completed length] in Hrun, Hs.
  assert (Hplan : forall W, teardown_plan
            (with_fs (with_dom (with_handles W 0 4) d) disk') = close_calls 0)
    by reflexivity.
  rewrite Hplan, Hclose in Hrun. cbn [result_of] in Hrun.
  assert (Hloop : download_videos E C (initial_world headless disk)
                  = (Raise e,
                     with_trace
                       (with_fs (with_dom (with_handles
                          (with_headless (initial_world headless disk)
                             headless) 0 4) d) disk')
                       (evs ++ map Call (fst (run_calls E 0 (close_calls 0)))))).
  { unfold download_videos. cbn [run_loop Nat.leb max_retries].
    unfold bind. now rewrite Hrun. }
  eexists. split; [exact Hloop|]. split.
  - unfold main. now rewrite Hloop.
  - cbn [trace with_trace]. rewrite sessions_started_app.
    unfold sessions_started. rewrite Hs, session_calls_map_Call.
    + change (close_calls 0) with
        (teardown_plan (with_handles (initial_world headless disk) 0 4)).
      now rewrite closing_starts_nothing.
    + apply run_calls_forallb. reflexivity.
Qed.

End LoopClaims.



Lemma close_failure_ends_the_run_witness :
  exists w',
    @download_videos latin1 page_close_fails hoops (initial_world true ∅)
    = (Raise (str "Target page has been closed"), w') /\
    sessions_started (trace w') = 1%nat.
Proof.
  destruct (@close_failure_ends_the_run latin1 page_close_fails hoops
              true ∅ (str "Target page has been closed"))
    as (w' & Hrun & _ & Hn).
  - reflexivity.
  - reflexivity.
  - exists w'. split; [exact Hrun | exact Hn].
Defined.

Section SessionClaims.
Context `{UnicodeDB} (E : Env) (C : Config).

(** The [try] block from the login on, when it gets to the downloads. *)
Lemma session_body_downloads
    (a : nat) (w : World) (date : pystr) (v : VideoRecord)
    (vs : list VideoRecord) :
  quiet E a [GotoLogin; GotoVideos] = true ->
  login_succeeds E a = true -> filters_succeed E a = true ->
  listing E a = v :: vs ->
  get_previous_wednesday (now E a InDownloadVideos) = Some date ->
  exists evs d disk,
    session_body E C a w
    = (Ok (Return true),
       with_fs (with_dom (with_trace w (trace w ++ evs)) d) disk) /\
    In (Log INFO
          (completed_message C
             (length (List.filter
                        (fun v => download_result E C a v date) (v :: vs)))
             (length (v :: vs)) date)) evs.
Proof.
  intros Hq Hlogin Hfilters Hlisting Hdate. split_quiet Hq.
  destruct w as [hl pw br cx pg d disk tr].
  unfold session_body, get_previous_wednesday_at. rewrite Hdate.
  mred. use_raises E a. mred.
  match goal with |- context [login E C a ?u ?W] =>
    destruct (inner_login E C a u W) as (r1 & evs1 & d1 & disk1 & Hrun1 & _);
    pose proof (login_returns E C a u W) as Hr1
  end.
  rewrite Hrun1 in Hr1 |- *. cbn [fst] in Hr1. rewrite Hlogin in Hr1.
  subst r1. cbn [negb]. mred. use_raises E a. mred.
  match goal with |- context [select_filters E a ?W] =>
    destruct (inner_select_filters E a W)
      as (r2 & evs2 & d2 & disk2 & Hrun2 & _);
    pose proof (select_filters_returns E a W) as Hr2
  end.
  rewrite Hrun2 in Hr2 |- *. cbn [fst] in Hr2. rewrite Hfilters in Hr2.
  subst r2. cbn [negb]. mred.
  match goal with |- context [get_video_links E a ?W] =>
    destruct (inner_get_video_links E a W)
      as (r3 & evs3 & d3 & disk3 & Hrun3 & _);
    pose proof (get_video_links_returns E a W) as Hr3
  end.
  rewrite Hrun3 in Hr3 |- *. cbn [fst] in Hr3. rewrite Hlisting in Hr3.
  subst r3. mred.
  match goal with |- context [download_each E C a ?l date 0 ?W] =>
    destruct (download_each_disk E C a l date 0 W) as (evs4 & Hrun4)
  end.
  rewrite Hrun4. mred.
  eexists _, _, _. split; [same_world|].
  unfold completed_message. cbn [Nat.add].
  repeat match goal with
  | |- In _ (_ ++ _) => apply in_or_app; right
  | |- In _ (_ :: _) => first [left; reflexivity | right]
  end.
Qed.

Lemma first_attempt_downloads
    (headless : bool) (disk : gmap pystr bytes) (date : pystr)
    (v : VideoRecord) (vs : list VideoRecord) :
  reaches_listing E 0 = true ->
  listing E 0 = v :: vs ->
  get_previous_wednesday (now E 0 InDownloadVideos) = Some date ->
  exists w',
    attempt E C 0 (initial_world headless disk) = (Ok (Return true), w') /\
    In (Log INFO
          (completed_message C
             (length (List.filter
                        (fun v => download_result E C 0 v date) (v :: vs)))
             (length (v :: vs)) date)) (trace w').
Proof.
  unfold reaches_listing. intros Hreach Hlisting Hdate.
  apply andb_true_iff in Hreach as [Hreach Hfilters].
  apply andb_true_iff in Hreach as [Hreach Hlogin].
  apply andb_true_iff in Hreach as [Hsites Hgoto].
  destruct (session_sites_quiet E 0 headless Hsites) as [Hopen Hclose].
  unfold attempt, try_finally, attempt_guarded, try_except, attempt_body,
    retry_prelude.
  cbn [Nat.ltb Nat.leb]. unfold bind at 1. unfold ret at 1.
  unfold bind at 1. rewrite setup_browser_run. cbv zeta.
  cbn [initial_world self_headless].
  rewrite (run_calls_quiet E _ _ Hopen).
  cbn [result_of snd fst completed length].
  match goal with |- context [session_body E C 0 ?W] =>
    destruct (session_body_downloads 0 W date v vs
                Hgoto Hlogin Hfilters Hlisting Hdate)
      as (evs & d & disk' & Hrun & Hin)
  end.
  rewrite Hrun, close_browser_run. cbv zeta.
  match goal with |- context [teardown_plan ?W] =>
    change (teardown_plan W) with (close_calls 0)
  end.
  rewrite (run_calls_quiet E _ _ Hclose). cbn [result_of snd fst].
  eexists. split; [reflexivity|].
  cbn [trace with_trace with_fs with_dom with_handles].
  apply in_or_app. left. apply in_or_app. now right.
Qed.

(** X20.  A run in which every download fails still succeeds.  If the
    first attempt gets to a listing that is not empty and [download_video]
    returns false for each of its videos, [download_videos] logs that 0
    videos were downloaded and returns true without retrying; [main] then
    logs that the videos were downloaded successfully and the process
    exits with status 0. *)
Theorem run_succeeds_when_every_download_fails
    (headless : bool) (disk : gmap pystr bytes) (date : pystr) :
  reaches_listing E 0 = true ->
  listing E 0 <> [] ->
  get_previous_wednesday (now E 0 InDownloadVideos) = Some date ->
  (forall v, In v (listing E 0) -> download_result E C 0 v date = false) ->
  (forall v w, In v (listing E 0) ->
     fst (download_video E C 0 v date w) = Ok false) /\
  exists w',
    download_videos E C (initial_world headless disk)
    = (Ok (Returned true), w') /\
    In (Log INFO (completed_message C 0 (length (listing E 0)) date))
       (trace w') /\
    sessions_started (trace w') = 1%nat /\
    fst (main E C (initial_world headless disk)) = Some 0 /\
    last (trace (snd (main E C (initial_world headless disk))))
    = Some (Log INFO (str "All done! Videos downloaded successfully.")).
Proof.
  intros Hreach Hsome Hdate Hfail. split.
  { intros v w Hv.
    destruct (download_video_disk E C 0 v date w) as (evs & Hrun).
    rewrite Hrun. cbn [fst]. now rewrite Hfail. }
  destruct (listing E 0) as [|v vs] eqn:Hlisting; [congruence|].
  destruct (first_attempt_downloads headless disk date v vs
              Hreach Hlisting Hdate) as (w' & Hrun & Hin).
  assert (Hcount : length (List.filter
                     (fun v => download_result E C 0 v date) (v :: vs))
                   = 0%nat).
  { assert (Hnil : forall l,
      (forall v, In v l -> download_result E C 0 v date = false) ->
      List.filter (fun v => download_result E C 0 v date) l = []).
    { induction l as [|x l IH]; intros Hl; cbn [List.filter]; [reflexivity|].
      rewrite (Hl x) by now left. apply IH. intros y Hy. apply Hl. now right. }
    now rewrite (Hnil _ Hfail). }
  rewrite Hcount in Hin.
  assert (Hloop : download_videos E C (initial_world headless disk)
                  = (Ok (Returned true), w')).
  { unfold download_videos. cbn [run_loop Nat.leb max_retries].
    unfold bind. now rewrite Hrun. }
  exists w'. split; [exact Hloop|]. split; [exact Hin|].
  split.
  - destruct (attempt_starts_once E C 0 (initial_world headless disk))
      as (r & w1 & evs & Hrun' & Ht & Hn).
    rewrite Hrun in Hrun'. injection Hrun' as _ <-.
    now rewrite Ht.
  - unfold main. rewrite Hloop. cbn [fst snd]. split; [reflexivity|].
    destruct w'. mred. apply last_snoc.
Qed.

End SessionClaims.

Lemma run_succeeds_when_every_download_fails_witness :
  fst (@main latin1 read_only_disk hoops (initial_world true ∅)) = Some 0 /\
  exists w',
    @download_videos latin1 read_only_disk hoops (initial_world true ∅)
    = (Ok (Returned true), w') /\
    In (Log INFO (str "Download completed! 0/3 videos downloaded to "
                  ++ str "downloads/20261028")) (trace w').
Proof.
  destruct (@run_succeeds_when_every_download_fails latin1 read_only_disk
              hoops true ∅ (str "20261028"))
    as (_ & w' & Hrun & Hlog & _ & Hmain & _).
  - vm_compute. reflexivity.
  - vm_compute. discriminate.
  - reflexivity.
  - intros v _. reflexivity.
  - split; [exact Hmain|]. exists w'. split; [exact Hrun | exact Hlog].
Defined.

Section HandleClaims.
Context `{UnicodeDB} (E : Env) (C : Config).

(** X21.  [close_browser] never clears the handles and [setup_browser]
    replaces them one by one.  So when a later attempt starts the driver
    but cannot launch the browser, its [close_browser] closes the page,
    the context and the browser of the previous session a second time,
    then stops the new driver; the stale handles stay in [self]. *)
Theorem failed_launch_closes_previous_session
    (a : nat) (w : World) (e : pystr) (page context browser : nat) :
  let mode := attempt_mode a (self_headless w) in
  self_page w = Some page ->
  self_context w = Some context ->
  self_browser w = Some browser ->
  raises E a PlaywrightStart = None ->
  raises E a (Launch mode) = Some e ->
  quiet E a [PageClose page; ContextClose context; BrowserClose browser;
             PlaywrightStop a] = true ->
  exists w' evs,
    attempt E C a w = (Ok (retry_or_return a false), w') /\
    trace w' = trace w ++ evs /\
    session_calls evs
    = [PlaywrightStart; Launch mode; PageClose page; ContextClose context;
       BrowserClose browser; PlaywrightStop a] /\
    self_page w' = Some page /\ self_context w' = Some context /\
    self_browser w' = Some browser /\ self_playwright w' = Some a.
Proof.
  intros mode Hpage Hcontext Hbrowser Hstart Hlaunch Hclose.
  destruct (attempt_run E C a w) as (evs & d & disk & Hrun & Hs).
  fold mode in Hrun, Hs. cbv zeta in Hrun.
  assert (Hopening : run_calls E a (open_calls mode)
                     = ([PlaywrightStart; Launch mode], Some e)).
  { unfold open_calls. cbn [run_calls]. now rewrite Hstart, Hlaunch. }
  rewrite Hopening in Hrun, Hs. cbn [fst snd completed length pred] in Hrun, Hs.
  assert (Hplan : teardown_plan
            (with_fs (with_dom (with_handles (with_headless w mode) a 1) d)
               disk)
            = [PageClose page; ContextClose context; BrowserClose browser;
               PlaywrightStop a]).
  { destruct w. cbn in Hpage, Hcontext, Hbrowser. subst. reflexivity. }
  rewrite Hplan, (run_calls_quiet E _ _ Hclose) in Hrun.
  cbn [fst snd result_of] in Hrun.
  eexists _, _. split; [exact Hrun|]. split; [reflexivity|].
  split.
  - rewrite session_calls_app, Hs. reflexivity.
  - destruct w. cbn in Hpage, Hcontext, Hbrowser. subst. repeat split.
Qed.

End HandleClaims.

Lemma failed_launch_closes_previous_session_witness :
  let w0 := snd (@attempt latin1 launch_fails_on_retry hoops 0
                   (initial_world true ∅)) in
  exists w' evs,
    @attempt latin1 launch_fails_on_retry hoops 1 w0
    = (Ok (Continue 2), w') /\
    session_calls evs
    = [PlaywrightStart; Launch true; PageClose 0; ContextClose 0;
       BrowserClose 0; PlaywrightStop 1].
Proof.
  intros w0.
  destruct (@failed_launch_closes_previous_session latin1
              launch_fails_on_retry hoops 1 w0
              (str "Failed to launch chromium") 0 0 0)
    as (w' & evs & Hrun & _ & Hs & _).
  - vm_compute. reflexivity.
  - vm_compute. reflexivity.
  - vm_compute. reflexivity.
  - reflexivity.
  - vm_compute. reflexivity.
  - reflexivity.
  - exists w', evs. split; [exact Hrun | exact Hs].
Defined.

(** ** [wait_for_visible] *)

(** X22.  [wait_for_visible] never raises, whatever its page operations
    do.  When the element becomes visible it returns true at once, without
    running the forcing script.  It returns false exactly when the first
    wait raises and then the forcing script or the second wait raises too,
    and in that case the last record of the log is the error with the text
    of that exception. *)
Theorem wait_for_visible_never_raises
    (wait_visible force_visible wait_attached : M unit) (selector : pystr)
    (w : World) :
  let run := wait_for_visible wait_visible force_visible wait_attached
               selector w in
  let warned :=
    snd (log WARNING
           (str "Element " ++ selector
            ++ str " not naturally visible, "
            ++ str "trying to force visibility...")
           (snd (wait_visible w))) in
  (exists b, fst run = Ok b) /\
  (forall u, fst (wait_visible w) = Ok u ->
     run = (Ok true, snd (wait_visible w))) /\
  (fst run = Ok false <->
   (exists e0, fst (wait_visible w) = Raise e0) /\
   exists e, fst ((force_visible ;; wait_attached) warned) = Raise e) /\
  (fst run = Ok false ->
   exists e,
     fst ((force_visible ;; wait_attached) warned) = Raise e /\
     last (trace (snd run))
     = Some (Log ERROR (str "Failed to make element " ++ selector
                        ++ str " visible: " ++ e))).
Proof.
  cbv zeta. unfold wait_for_visible, try_except, bind, ret, log, emit,
    modify_world.
  destruct (wait_visible w) as [[u|e0] w1]; cbn [fst snd].
  - split; [eauto|]. split; [reflexivity|].
    split; [|discriminate].
    split; [discriminate | intros [[e0 Hne] _]; discriminate].
  - destruct (force_visible _) as [[u2|e2] w2]; cbn [fst snd].
    + destruct (wait_attached w2) as [[u3|e3] w3]; cbn [fst snd].
      * split; [eauto|]. split; [discriminate|].
        split; [|discriminate].
        split; [discriminate | intros [_ [e He]]; discriminate].
      * split; [eauto|]. split; [discriminate|].
        split; [split; eauto|].
        intros _. exists e3. split; [reflexivity|].
        destruct w3. apply last_snoc.
    + split; [eauto|]. split; [discriminate|].
      split; [split; eauto|].
      intros _. exists e2. split; [reflexivity|].
      destruct w2. apply last_snoc.
Qed.
